(** * Worker attendance: attendance ledger, advance ledger, payroll settlement

    A shallow embedding of the bookkeeping core of the application:
    - [calculateNoteDistribution]   (src/app/manage-workers.tsx, reports screen)
    - [useAttendance]               (src/hooks/useAttendance.ts)
    - [addAdvance]                  (advance-entry screen)
    - [loadWorkersWithAdvance], [generateReport]  (reports screen)

    Conventions.  JavaScript strings are [string]; arrays are [list]; a
    [Set<string>] is a [gset string]; an optional object field is an [option];
    React state is threaded explicitly, each setter taking effect for the next
    call (the closure of the following render).  A JavaScript number is a
    rational (every finite double is one) or [NaN]; the rounding of a sum, a
    difference or a product to the nearest double is a function of the
    platform; the two infinities are left out, no amount being anywhere
    near overflow.  A plain object used as a map is a [gmap] of its own
    entries, read together with the members it inherits from
    [Object.prototype]. *)

From Stdlib Require Import ZArith Lia Ascii QArith Qround Qminmax Lqa.
From stdpp Require Import base decidable option list strings gmap.

Local Open Scope Z_scope.

(* ===================================================================== *)
(** ** Denomination optimizer *)
(* ===================================================================== *)

Module Denomination.

Record Notes := mkNotes { notes500 : Z; notes100 : Z }.

Definition NOTE_500 : Z := 500.
Definition NOTE_100 : Z := 100.

(** [Math.round(amount / 100)], for an amount that is whole or fractional.
    [Math.round] gives the nearest integer, halves towards +infinity, which
    is [floor (amount / 100 + 1/2)].  The quotient is written exactly: the
    halves [k + 1/2] and the amounts [100 k + 50] are doubles, and the
    quotient of any other double by 100 is further from [k + 1/2] than half
    the gap between [k + 1/2] and the double next to it, so that rounding
    the quotient to a double never carries it onto or across a half. *)
Definition Math_round_div100 (amount : Q) : Z := Qfloor (amount / 100 + (1 # 2))%Q.

(** [amount = Math.round(amount / 100) * 100].  From here on every value of
    the function is a whole number, and is written in [Z]. *)
Definition roundedAmount (amount : Q) : Z := Math_round_div100 amount * 100.

(** [maxNotes500 = Math.floor(amount / NOTE_500)], on the rounded amount. *)
Definition maxNotes500 (amount : Q) : Z := roundedAmount amount / NOTE_500.

(** The variables the loop updates; [bestDiff = None] is [Infinity]. *)
Record Search := mkSearch { bestDiff : option Z; result : Notes }.

Definition initialSearch : Search :=
  {| bestDiff := None; result := {| notes500 := 0; notes100 := 0 |} |}.

(** [diff < bestDiff] and [diff === bestDiff] against a possibly infinite bound. *)
Definition lessThanBest (diff : Z) (best : option Z) : bool :=
  match best with
  | None => true
  | Some b => diff <? b
  end.

Definition equalsBest (diff : Z) (best : option Z) : bool :=
  match best with
  | None => false
  | Some b => diff =? b
  end.

(** One iteration of the [for] loop; [target] is the rounded amount. *)
Definition searchStep (target : Z) (s : Search) (n500 : Z) : Search :=
  let remainingAmount := target - n500 * NOTE_500 in
  let n100 := remainingAmount / NOTE_100 in
  if n500 * NOTE_500 + n100 * NOTE_100 =? target then
    let diff := Z.abs (n500 - n100) in
    if lessThanBest diff (bestDiff s)
       || (equalsBest diff (bestDiff s)
           && (n500 + n100 <? notes500 (result s) + notes100 (result s)))
    then {| bestDiff := Some diff;
            result := {| notes500 := n500; notes100 := n100 |} |}
    else s
  else s.

(** The values [notes500] takes: [0, 1, ..., maxNotes500]; none when
    [maxNotes500] is negative. *)
Definition candidates (amount : Q) : list Z := seqZ 0 (maxNotes500 amount + 1).

Definition calculateNoteDistribution (amount : Q) : Notes :=
  let target := roundedAmount amount in
  result (foldl (searchStep target) initialSearch (candidates amount)).






End Denomination.

(* ===================================================================== *)
(** ** Attendance ledger (src/hooks/useAttendance.ts) *)
(* ===================================================================== *)

Module Attendance.

Inductive Status := present | absent | half_day.

Record AttendanceRecord := mkRecord {
  workerId : string;
  date : string;
  status : Status;
  folderName : string
}.

#[export] Instance Status_eq_dec : EqDecision Status.
Proof. solve_decision. Defined.

#[export] Instance AttendanceRecord_eq_dec : EqDecision AttendanceRecord.
Proof. solve_decision. Defined.

(** The two pieces of React state of the hook and the two storage keys it
    reads and writes.  [getData] yields [null] ([None]) for a key that was
    never stored. *)
Record Ledger := mkLedger {
  attendance : list AttendanceRecord;
  currentAttendance : list AttendanceRecord;
  stored_attendance : option (list AttendanceRecord);
  stored_currentAttendance : option (list AttendanceRecord)
}.

Definition setAttendance (l : list AttendanceRecord) (st : Ledger) : Ledger :=
  {| attendance := l;
     currentAttendance := currentAttendance st;
     stored_attendance := stored_attendance st;
     stored_currentAttendance := stored_currentAttendance st |}.

Definition setCurrentAttendance (l : list AttendanceRecord) (st : Ledger) : Ledger :=
  {| attendance := attendance st;
     currentAttendance := l;
     stored_attendance := stored_attendance st;
     stored_currentAttendance := stored_currentAttendance st |}.

(** [loadAttendance]: each list is replaced when its key holds a value. *)
Definition loadAttendance (st : Ledger) : Ledger :=
  let st1 := match stored_attendance st with
             | Some l => setAttendance l st
             | None => st
             end in
  match stored_currentAttendance st with
  | Some l => setCurrentAttendance l st1
  | None => st1
  end.

Definition emptyLedger : Ledger :=
  {| attendance := []; currentAttendance := [];
     stored_attendance := None; stored_currentAttendance := None |}.

(** [const key = (r) => `${r.folderName}-${r.date}`]. *)
Definition key (r : AttendanceRecord) : string :=
  folderName r +:+ "-" +:+ date r.

(** [new Set(records.map(key))]. *)
Definition recordKeys (records : list AttendanceRecord) : gset string :=
  list_to_set (key <$> records).

Definition filteredAttendance (records old : list AttendanceRecord)
  : list AttendanceRecord :=
  filter (fun record => key record ∉ recordKeys records) old.

(** [saveAttendanceRecords], both [storeData] calls succeeding (when one
    rejects, the [catch] rethrows before any state is set). *)
Definition saveAttendanceRecords (records : list AttendanceRecord) (st : Ledger)
  : Ledger :=
  let updatedCurrentAttendance := records in
  let finalAttendance := filteredAttendance records (attendance st) ++ records in
  {| attendance := finalAttendance;
     currentAttendance := updatedCurrentAttendance;
     stored_attendance := Some finalAttendance;
     stored_currentAttendance := Some updatedCurrentAttendance |}.

Definition inFolder (folder : string) (r : AttendanceRecord) : Prop :=
  folderName r = folder.

Definition inFolderOn (folder day : string) (r : AttendanceRecord) : Prop :=
  folderName r = folder /\ date r = day.

#[export] Instance inFolder_dec folder r : Decision (inFolder folder r).
Proof. unfold inFolder. apply _. Defined.

#[export] Instance inFolderOn_dec folder day r : Decision (inFolderOn folder day r).
Proof. unfold inFolderOn. apply _. Defined.

(** [getAttendanceByFolder(folderName, date)]: the records returned and the
    ledger after the forced reload.  The list that is filtered is the
    in-memory [attendance] followed by what storage holds. *)
Definition getAttendanceByFolder (folder day : string) (st : Ledger)
  : list AttendanceRecord * Ledger :=
  let storedAttendance := stored_attendance st in
  let st' := match storedAttendance with
             | Some l => setAttendance l st
             | None => st
             end in
  let allRecords := attendance st ++ default [] storedAttendance in
  if bool_decide (day = "") then (filter (inFolder folder) allRecords, st')
  else (filter (inFolderOn folder day) allRecords, st').

(** [getCurrentAttendance(folderName, date)]: current working set first,
    then the in-memory permanent records, then storage. *)
Definition getCurrentAttendance (folder day : string) (st : Ledger)
  : list AttendanceRecord * Ledger :=
  let currentRecords := filter (inFolderOn folder day) (currentAttendance st) in
  if bool_decide (0 < length currentRecords)%nat then (currentRecords, st)
  else
    let permanentRecords := filter (inFolderOn folder day) (attendance st) in
    if bool_decide (0 < length permanentRecords)%nat then (permanentRecords, st)
    else
      match stored_attendance st with
      | Some storedAttendance =>
          let records := filter (inFolderOn folder day) storedAttendance in
          if bool_decide (0 < length records)%nat
          then (records, setAttendance storedAttendance st)
          else ([], st)
      | None => ([], st)
      end.

(** The records of a batch that belong to one (folder, date) pair. *)
Definition batchFor (folder day : string) (records : list AttendanceRecord)
  : list AttendanceRecord :=
  filter (inFolderOn folder day) records.

End Attendance.

(* ===================================================================== *)
(** ** JavaScript values the reports rely on *)
(* ===================================================================== *)

Module Js.

(** A JavaScript number: a rational, whole or fractional, or [NaN]. *)
Inductive number := Num (q : Q) | NaN.

(** [Math.max(a, b)]: [NaN] as soon as one argument is. *)
Definition Math_max (a b : number) : number :=
  match a, b with
  | Num x, Num y => Num (Qmax x y)
  | _, _ => NaN
  end.



(** [s.split('T')[0]]. *)
Fixpoint beforeT (s : string) : string :=
  match s with
  | EmptyString => EmptyString
  | String c rest => if bool_decide (c = "T"%char) then EmptyString
                     else String c (beforeT rest)
  end.

(** [array.join(', ')]. *)
Fixpoint join (l : list string) : string :=
  match l with
  | [] => ""
  | [x] => x
  | x :: rest => x +:+ ", " +:+ join rest
  end.

(** The functions of the platform the code calls; a point in time is its
    number of milliseconds. *)
Class Runtime := {
  (** [Number(s)] *)
  Number : string -> number;
  (** the double nearest to a rational: what the platform makes of the
      exact sum, difference or product of two doubles *)
  nearestDouble : Q -> Q;
  (** whether [Object.prototype] has a member of that name ([constructor],
      [toString], ...): a plain object answers such a name with that member
      when it has no entry of its own *)
  inObjectPrototype : string -> bool;
  (** [new Date(s).getTime()], [None] for an invalid date *)
  Date_parse : string -> option Z;
  (** [d.toISOString()] *)
  toISOString : Z -> string;
  (** [new Date(s).toLocaleDateString()] *)
  toLocaleDateString : string -> string;
  (** the [dates] array built by the [while] loop of [generateReport]:
      one entry per calendar day from [start] to [end] *)
  datesInRange : Z -> Z -> list Z
}.

Section Arithmetic.
Context `{Runtime}.

(** [a + b], [a - b], [a * b]: the exact result, rounded; [NaN] as soon as
    one operand is. *)
Definition add (a b : number) : number :=
  match a, b with
  | Num x, Num y => Num (nearestDouble (x + y))
  | _, _ => NaN
  end.

Definition sub (a b : number) : number :=
  match a, b with
  | Num x, Num y => Num (nearestDouble (x - y))
  | _, _ => NaN
  end.

Definition mul (a b : number) : number :=
  match a, b with
  | Num x, Num y => Num (nearestDouble (x * y))
  | _, _ => NaN
  end.

(** Whole numbers up to 2^53 are doubles: a sum, difference or product
    that is such a number is exact. *)
Definition exactOnWhole : Prop :=
  forall (q : Q) (z : Z),
    (q == inject_Z z)%Q -> Z.abs z <= 2 ^ 53 -> nearestDouble q = inject_Z z.

End Arithmetic.

(** [new Date(s) <= end]. *)
Definition onOrBefore `{Runtime} (s : string) (end_ : Z) : bool :=
  match Date_parse s with
  | Some t => t <=? end_
  | None => false
  end.

(** [d.toISOString().split('T')[0]]. *)
Definition isoDay `{Runtime} (d : Z) : string := beforeT (toISOString d).

(** A runtime for the worked examples: [Number] reads a decimal numeral
    (digits, with at most one point), the amounts of the examples are added
    and multiplied exactly, days are numbered from 2024-01-01 and one day
    lasts one unit. *)
Definition digitValue (c : ascii) : option Z :=
  let n := Z.of_nat (nat_of_ascii c) in
  if (48 <=? n) && (n <=? 57) then Some (n - 48) else None.

(** The digits after the point; [seen] tells whether the numeral has had a
    digit so far. *)
Fixpoint readFraction (acc : Z) (scale : positive) (seen : bool) (s : string)
  : number :=
  match s with
  | EmptyString => if seen then Num (Qred (acc # scale)) else NaN
  | String c rest =>
      match digitValue c with
      | Some d => readFraction (acc * 10 + d) (scale * 10) true rest
      | None => NaN
      end
  end.

Fixpoint readDigits (acc : Z) (seen : bool) (s : string) : number :=
  match s with
  | EmptyString => Num (inject_Z acc)
  | String c rest =>
      if bool_decide (c = "."%char) then readFraction acc 1 seen rest
      else match digitValue c with
           | Some d => readDigits (acc * 10 + d) true rest
           | None => NaN
           end
  end.

Definition exampleDays : list (string * Z) :=
  [("2024-01-01", 0); ("2024-01-02", 1); ("2024-01-03", 2); ("2024-02-01", 31)].

Definition Object_prototype : list string :=
  ["constructor"; "hasOwnProperty"; "isPrototypeOf"; "propertyIsEnumerable";
   "toLocaleString"; "toString"; "valueOf"; "__proto__";
   "__defineGetter__"; "__defineSetter__"; "__lookupGetter__"; "__lookupSetter__"].

Definition exampleRuntime : Runtime := {|
  Number := readDigits 0 false;
  nearestDouble := Qred;
  inObjectPrototype := fun name => bool_decide (name ∈ Object_prototype);
  Date_parse := fun s => snd <$> List.find (fun p => bool_decide (fst p = s)) exampleDays;
  toISOString := fun d =>
    match List.find (fun p => bool_decide (snd p = d)) exampleDays with
    | Some p => fst p +:+ "T00:00:00.000Z"
    | None => "Invalid Date"
    end;
  toLocaleDateString := fun s => s;
  datesInRange := fun start end_ => seqZ start (end_ - start + 1)
|}.

End Js.

(* ===================================================================== *)
(** ** Workers (the [useWorkers] hook) *)
(* ===================================================================== *)

Module Workers.

Record Worker := mkWorker {
  id : string;
  name : string;
  folders : list string
}.

Definition getWorkersByFolder (workers : list Worker) (folderName : string)
  : list Worker :=
  filter (fun worker => folderName ∈ folders worker) workers.

End Workers.

(* ===================================================================== *)
(** ** Advance ledger (advance-entry screen, [addAdvance]) *)
(* ===================================================================== *)

Module Advances.

(** An entry of the stored [advances] array.  [deducted] and [deductedOn]
    are optional fields: [None] is a field the object does not have. *)
Record Advance := mkAdvance {
  id : string;
  workerId : string;
  workerName : string;
  amount : string;
  date : string;
  remarks : string;
  deducted : option bool;
  deductedOn : option string
}.

#[export] Instance Advance_eq_dec : EqDecision Advance.
Proof. solve_decision. Defined.

(** Truthiness of [adv.deducted]: an absent field is falsy. *)
Definition isDeducted (adv : Advance) : bool := default false (deducted adv).

(** Truthiness of a string: the empty string is falsy. *)
Definition nonEmpty (s : string) : bool := negb (bool_decide (s = "")).

(** [workers.find(w => w.id === workerId)?.name || "Unknown"]. *)
Definition nameOf (workers : list Workers.Worker) (workerId : string) : string :=
  match List.find (fun w => bool_decide (Workers.id w = workerId)) workers with
  | Some w => if nonEmpty (Workers.name w) then Workers.name w else "Unknown"
  | None => "Unknown"
  end.

(** The object literal of [addAdvance]: six fields, no [deducted]. *)
Definition newAdvance (timestamp : string) (workers : list Workers.Worker)
    (amount_ date_ remarks_ : string) (workerId_ : string) : Advance :=
  {| id := timestamp +:+ workerId_;
     workerId := workerId_;
     workerName := nameOf workers workerId_;
     amount := amount_;
     date := date_;
     remarks := remarks_;
     deducted := None;
     deductedOn := None |}.

(** The screen's [advances] state and the [advances] storage item. *)
Record Screen := mkScreen {
  advances : list Advance;
  advancesItem : option (list Advance)
}.

(** [addAdvance].  [clock i] is [Date.now().toString()] as read for the
    [i]-th selected worker; [writeOk] tells whether [AsyncStorage.setItem]
    succeeds ([saveAdvances] logs a failure and goes on). *)
Definition addAdvance `{Js.Runtime} (clock : nat -> string) (writeOk : bool)
    (workers : list Workers.Worker) (selectedWorkers : list string)
    (amount_ remarks_ : string) (selectedDate : Z) (st : Screen) : Screen :=
  if bool_decide (0 < length selectedWorkers)%nat && nonEmpty amount_ then
    let newAdvances :=
      imap (fun i workerId_ =>
              newAdvance (clock i) workers amount_ (Js.isoDay selectedDate)
                remarks_ workerId_) selectedWorkers in
    let updatedAdvances := advances st ++ newAdvances in
    {| advances := updatedAdvances;
       advancesItem := if writeOk then Some updatedAdvances else advancesItem st |}
  else st.

End Advances.

(* ===================================================================== *)
(** ** Report archive entries *)
(* ===================================================================== *)

Module Archive.

Record ReportMeta := mkReportMeta {
  id : string;
  name : string;
  folder : string;
  startDate : string;
  endDate : string;
  path : string;
  createdAt : string
}.

End Archive.

(* ===================================================================== *)
(** ** Reports screen: unsettled advances, report rows, settlement *)
(* ===================================================================== *)

Module Reports.
Import Js.
Export Advances.

Inductive Mark := P | A | H.

#[export] Instance Mark_eq_dec : EqDecision Mark.
Proof. solve_decision. Defined.

Record PaymentRates := mkRates { fullDay : string; halfDay : string }.

(** What reading the [folderRates] object under a name yields when it is not
    [undefined]: an entry of the object or, for a name like [constructor]
    that has no entry, the member of [Object.prototype] of that name. *)
Inductive Rates := Entry (r : PaymentRates) | PrototypeMember.
Coercion Entry : PaymentRates >-> Rates.

Record WorkerReport := mkWorkerReport {
  id : string;
  name : string;
  dailyWage : number;
  halfDayWage : number;
  attendance : list Mark;
  totalPayment : number;
  advanceDeducted : number;
  advanceRemarks : string;
  netPayment : number
}.

Inductive ExportFormat := xlsx | pdf.

(** [workers.some(w => w.id === adv.workerId && w.folders.includes(selectedFolder))]. *)
Definition workerExists (workers : list Workers.Worker) (selectedFolder : string)
    (adv : Advance) : bool :=
  existsb (fun w => bool_decide (Workers.id w = workerId adv)
                    && bool_decide (selectedFolder ∈ Workers.folders w)) workers.

(** [loadWorkersWithAdvance]: the new value of the [workersWithAdvance]
    state; it stays as it was when the [advances] item is absent. *)
Definition loadWorkersWithAdvance (workers : list Workers.Worker)
    (selectedFolder : string) (savedAdvances : option (list Advance))
    (workersWithAdvance : list Advance) : list Advance :=
  match savedAdvances with
  | Some advances =>
      filter (fun adv => negb (isDeducted adv)
                         && workerExists workers selectedFolder adv) advances
  | None => workersWithAdvance
  end.

Section Rows.
Context `{Runtime}.

(** [folderRates[name]]; [None] is [undefined]. *)
Definition ratesAt (folderRates : gmap string PaymentRates) (name : string)
  : option Rates :=
  match folderRates !! name with
  | Some r => Some (Entry r)
  | None => if inObjectPrototype name then Some PrototypeMember else None
  end.

(** [folderRates[folder] || folderRates['Default']]: an object or a function
    is truthy, [undefined] is not. *)
Definition ratesOrDefault (folderRates : gmap string PaymentRates) (folder : string)
  : option Rates :=
  match ratesAt folderRates folder with
  | Some rates => Some rates
  | None => ratesAt folderRates "Default"
  end.

(** [Number(rates.fullDay)] and [Number(rates.halfDay)]: a member of
    [Object.prototype] has neither field, and [Number(undefined)] is [NaN]. *)
Definition Number_fullDay (rates : Rates) : number :=
  match rates with
  | Entry r => Number (fullDay r)
  | PrototypeMember => NaN
  end.

Definition Number_halfDay (rates : Rates) : number :=
  match rates with
  | Entry r => Number (halfDay r)
  | PrototypeMember => NaN
  end.

(** The attendance letter of one worker on one day (lines 785-799). *)
Definition markFor (attendance_ : list Attendance.AttendanceRecord)
    (folder : string) (worker : Workers.Worker) (day : Z) : Mark :=
  let targetDate := isoDay day in
  match List.find (fun a => bool_decide (Attendance.workerId a = Workers.id worker)
                            && bool_decide (Attendance.folderName a = folder)
                            && bool_decide (Attendance.date a = targetDate))
                  attendance_ with
  | Some record =>
      match Attendance.status record with
      | Attendance.present => P
      | Attendance.half_day => H
      | Attendance.absent => A
      end
  | None => A
  end.

(** The advances a row consumes (lines 810-815). *)
Definition workerAdvances (advances_ : list Advance) (worker : Workers.Worker)
    (end_ : Z) (selectedAdvanceWorkers : list string) : list Advance :=
  filter (fun a => bool_decide (workerId a = Workers.id worker)
                   && onOrBefore (date a) end_
                   && negb (isDeducted a)
                   && bool_decide (Workers.id worker ∈ selectedAdvanceWorkers))
         advances_.

Definition sumAmounts (l : list Advance) : number :=
  foldl (fun sum adv => add sum (Number (amount adv))) (Num 0) l.

Definition remarkOf (adv : Advance) : string :=
  toLocaleDateString (date adv) +:+ ": ₹" +:+ amount adv.

(** The callback of [workers.map] (lines 784-838). *)
Definition reportRow (deductAdvance : bool) (selectedAdvanceWorkers : list string)
    (folder : string) (rates : Rates) (dates : list Z) (end_ : Z)
    (attendance_ : list Attendance.AttendanceRecord) (advances_ : list Advance)
    (worker : Workers.Worker) : WorkerReport :=
  let attendanceRecords := markFor attendance_ folder worker <$> dates in
  let presentDays := length (filter (fun status => status = P) attendanceRecords) in
  let halfDays := length (filter (fun status => status = H) attendanceRecords) in
  let totalPayment_ :=
    add (mul (Num (inject_Z (Z.of_nat presentDays))) (Number_fullDay rates))
        (mul (Num (inject_Z (Z.of_nat halfDays))) (Number_halfDay rates)) in
  let '(advanceDeducted_, advanceRemarks_) :=
    if deductAdvance then
      let workerAdvances_ :=
        workerAdvances advances_ worker end_ selectedAdvanceWorkers in
      if bool_decide (0 < length workerAdvances_)%nat
      then (sumAmounts workerAdvances_, join (remarkOf <$> workerAdvances_))
      else (Num 0, "")
    else (Num 0, "") in
  let netPayment_ := Math_max (Num 0) (sub totalPayment_ advanceDeducted_) in
  {| id := Workers.id worker;
     name := Workers.name worker;
     dailyWage := Number_fullDay rates;
     halfDayWage := Number_halfDay rates;
     attendance := attendanceRecords;
     totalPayment := totalPayment_;
     advanceDeducted := advanceDeducted_;
     advanceRemarks := advanceRemarks_;
     netPayment := netPayment_ |}.

Definition reportData (deductAdvance : bool) (selectedAdvanceWorkers : list string)
    (folder : string) (rates : Rates) (dates : list Z) (end_ : Z)
    (attendance_ : list Attendance.AttendanceRecord) (advances_ : list Advance)
    (workers : list Workers.Worker) : list WorkerReport :=
  reportRow deductAdvance selectedAdvanceWorkers folder rates dates end_
            attendance_ advances_ <$> workers.

(** The callback of [advances.map] in the write-back (lines 842-853);
    [stamp] is [new Date().toISOString()]. *)
Definition settle (selectedAdvanceWorkers : list string) (end_ : Z)
    (stamp : string) (adv : Advance) : Advance :=
  if bool_decide (workerId adv ∈ selectedAdvanceWorkers)
     && onOrBefore (date adv) end_
     && negb (isDeducted adv)
  then {| Advances.id := Advances.id adv;
          workerId := workerId adv;
          workerName := workerName adv;
          amount := amount adv;
          date := date adv;
          remarks := remarks adv;
          deducted := Some true;
          deductedOn := Some stamp |}
  else adv.

(** [updatedAdvances]; [clock i] is the time read for the [i]-th entry. *)
Definition updatedAdvances (selectedAdvanceWorkers : list string) (end_ : Z)
    (clock : nat -> string) (advances_ : list Advance) : list Advance :=
  imap (fun i adv => settle selectedAdvanceWorkers end_ (clock i) adv) advances_.

(** Whether the write-back block runs (line 841). *)
Definition writesBack (deductAdvance : bool) (selectedAdvanceWorkers : list string)
  : bool :=
  deductAdvance && bool_decide (0 < length selectedAdvanceWorkers)%nat.

(** The [advances] array after the settlement step of one report run. *)
Definition settlementWriteBack (deductAdvance : bool)
    (selectedAdvanceWorkers : list string) (end_ : Z) (clock : nat -> string)
    (advances_ : list Advance) : list Advance :=
  if writesBack deductAdvance selectedAdvanceWorkers
  then updatedAdvances selectedAdvanceWorkers end_ clock advances_
  else advances_.

End Rows.

End Reports.

(* ===================================================================== *)
(** ** Report generation ([generateReport]) *)
(* ===================================================================== *)

Module Generate.
Import Js Reports.

(** What the export step is given: the format, the dates, the rows and the
    note distribution of the total net payment. *)
Record Artifact := mkArtifact {
  format : ExportFormat;
  dates : list Z;
  rows : list WorkerReport;
  notes : Denomination.Notes
}.

(** Everything a run reads and writes: the attendance hook, the [advances]
    and [saved_reports] storage items, the files of the document
    directory, and the screen's [savedReports] and [workersWithAdvance]
    state. *)
Record World := mkWorld {
  ledger : Attendance.Ledger;
  advancesStored : option (list Advance);
  saved_reports : option (list Archive.ReportMeta);
  documents : list (string * Artifact);
  savedReports : list Archive.ReportMeta;
  workersWithAdvance : list Advance
}.

Definition setLedger (l : Attendance.Ledger) (w : World) : World :=
  {| ledger := l; advancesStored := advancesStored w;
     saved_reports := saved_reports w; documents := documents w;
     savedReports := savedReports w; workersWithAdvance := workersWithAdvance w |}.

Definition setAdvancesStored (l : list Advance) (w : World) : World :=
  {| ledger := ledger w; advancesStored := Some l;
     saved_reports := saved_reports w; documents := documents w;
     savedReports := savedReports w; workersWithAdvance := workersWithAdvance w |}.

Definition setSavedReportsStored (l : list Archive.ReportMeta) (w : World) : World :=
  {| ledger := ledger w; advancesStored := advancesStored w;
     saved_reports := Some l; documents := documents w;
     savedReports := savedReports w; workersWithAdvance := workersWithAdvance w |}.

Definition addDocument (path : string) (a : Artifact) (w : World) : World :=
  {| ledger := ledger w; advancesStored := advancesStored w;
     saved_reports := saved_reports w; documents := documents w ++ [(path, a)];
     savedReports := savedReports w; workersWithAdvance := workersWithAdvance w |}.

Definition setSavedReports (l : list Archive.ReportMeta) (w : World) : World :=
  {| ledger := ledger w; advancesStored := advancesStored w;
     saved_reports := saved_reports w; documents := documents w;
     savedReports := l; workersWithAdvance := workersWithAdvance w |}.

Definition setWorkersWithAdvance (l : list Advance) (w : World) : World :=
  {| ledger := ledger w; advancesStored := advancesStored w;
     saved_reports := saved_reports w; documents := documents w;
     savedReports := savedReports w; workersWithAdvance := l |}.

(** The screen state and hook values a run closes over. *)
Record Settings := mkSettings {
  deductAdvance : bool;
  selectedAdvanceWorkers : list string;
  exportFormat : ExportFormat;
  folderRates : gmap string PaymentRates;
  workers : list Workers.Worker
}.

(** How the collaborators answer during one run: the clock readings, the
    document directory, and whether each write, the export and the share
    succeed. *)
Record Env := mkEnv {
  settleClock : nat -> string;
  idClock : string;
  createdClock : string;
  documentDirectory : string;
  advancesWriteOk : bool;
  exportOk : bool;
  reportsWriteOk : bool;
  shareOk : bool
}.

(** An asynchronous function body: it returns or throws, and leaves a world. *)
Inductive Outcome (A : Type) :=
| Returned (a : A)
| Thrown (message : string).
Arguments Returned {A} a.
Arguments Thrown {A} message.

Definition Run (A : Type) : Type := World -> Outcome A * World.

#[export] Instance Run_ret : MRet Run := fun A a w => (Returned a, w).

#[export] Instance Run_bind : MBind Run := fun A B k m w =>
  match m w with
  | (Returned a, w') => k a w'
  | (Thrown e, w') => (Thrown e, w')
  end.

Definition thrown {A} (o : Outcome A) : Prop := exists message, o = Thrown message.

Definition throw {A} (message : string) : Run A := fun w => (Thrown message, w).
Definition getWorld : Run World := fun w => (Returned w, w).
Definition modify (f : World -> World) : Run unit := fun w => (Returned tt, f w).

(** [await AsyncStorage.setItem('advances', ...)]. *)
Definition setItemAdvances (env : Env) (l : list Advance) : Run unit :=
  if advancesWriteOk env then modify (setAdvancesStored l)
  else throw "AsyncStorage.setItem failed".

(** Rendering the document and putting it at [path]
    ([printToFileAsync] and [moveAsync], or [XLSX.write] and
    [writeAsStringAsync]). *)
Definition exportDocument (env : Env) (path : string) (a : Artifact) : Run unit :=
  if exportOk env then modify (addDocument path a)
  else throw "export failed".

(** [await storeData('saved_reports', ...)]. *)
Definition storeSavedReports (env : Env) (l : list Archive.ReportMeta) : Run unit :=
  if reportsWriteOk env then modify (setSavedReportsStored l)
  else throw "storeData failed".

(** [await Sharing.shareAsync(...)]. *)
Definition share (env : Env) : Run unit :=
  if shareOk env then mret tt else throw "share failed".

(** [calculateNoteDistribution] on a JavaScript number: with [NaN] every
    comparison of the loop is false and the initial result is returned. *)
Definition noteDistribution (total : number) : Denomination.Notes :=
  match total with
  | Num amount => Denomination.calculateNoteDistribution amount
  | NaN => {| Denomination.notes500 := 0; Denomination.notes100 := 0 |}
  end.

Section Run.
Context `{Runtime}.

Definition totalNetPayment (rows_ : list WorkerReport) : number :=
  foldl (fun sum row => add sum (netPayment row)) (Num 0) rows_.

(** [folderRates[folder] || folderRates['Default']]. *)
Definition ratesFor (s : Settings) (folder : string) : option Rates :=
  ratesOrDefault (folderRates s) folder.

(** [generateReport(folder, start, end)], in the order of its effects.
    [getAttendanceByFolder] belongs to the render that started the run,
    so it reads the in-memory list from before the reload. *)
Definition generateReport (env : Env) (s : Settings) (folder : string)
    (start end_ : Z) : Run Archive.ReportMeta :=
  w0 ← getWorld;
  modify (setLedger (Attendance.loadAttendance (ledger w0)));;
  let workers_ := Workers.getWorkersByFolder (workers s) folder in
  let attendance_ := (Attendance.getAttendanceByFolder folder "" (ledger w0)).1 in
  modify (setLedger
            (Attendance.getAttendanceByFolder folder ""
               (Attendance.loadAttendance (ledger w0))).2);;
  let rates := ratesFor s folder in
  if bool_decide (length workers_ = 0%nat)
  then throw "No workers found in this folder"
  else
    let dates_ := datesInRange start end_ in
    let advances_ := default [] (advancesStored w0) in
    match rates with
    | None => throw "TypeError: Cannot read property 'fullDay' of undefined"
    | Some rates =>
        let reportData_ :=
          reportData (deductAdvance s) (selectedAdvanceWorkers s) folder rates
                     dates_ end_ attendance_ advances_ workers_ in
        (if writesBack (deductAdvance s) (selectedAdvanceWorkers s) then
           let updatedAdvances_ :=
             updatedAdvances (selectedAdvanceWorkers s) end_ (settleClock env)
                             advances_ in
           setItemAdvances env updatedAdvances_;;
           modify (setWorkersWithAdvance
                     (filter (fun adv => negb (isDeducted adv)) updatedAdvances_))
         else mret tt);;
        let extension := match exportFormat s with
                         | pdf => ".pdf"
                         | xlsx => ".xlsx"
                         end in
        let filename :=
          folder +:+ "_" +:+ isoDay start +:+ "_" +:+ isoDay end_ +:+ extension in
        let newPath := documentDirectory env +:+ filename in
        exportDocument env newPath
          {| format := exportFormat s; dates := dates_; rows := reportData_;
             notes := noteDistribution (totalNetPayment reportData_) |};;
        let reportMeta :=
          {| Archive.id := idClock env;
             Archive.name := filename;
             Archive.folder := folder;
             Archive.startDate := toISOString start;
             Archive.endDate := toISOString end_;
             Archive.path := newPath;
             Archive.createdAt := createdClock env |} in
        storeSavedReports env (savedReports w0 ++ [reportMeta]);;
        w ← getWorld;
        modify (setSavedReports (savedReports w ++ [reportMeta]));;
        share env;;
        mret reportMeta
    end.

End Run.

End Generate.

(* ===================================================================== *)
(** ** Worked data for the examples *)
(* ===================================================================== *)

Module Examples.
Import Js Reports Generate.

Definition asha : Workers.Worker := Workers.mkWorker "w1" "Asha" ["F"].

Definition ashaAdvance (day : string) : Advance :=
  {| Advances.id := "1700000000000w1"; workerId := "w1"; workerName := "Asha";
     amount := "300"; date := day; remarks := "";
     deducted := None; deductedOn := None |}.

Definition ashaAttendance : list Attendance.AttendanceRecord :=
  [Attendance.mkRecord "w1" "2024-01-01" Attendance.present "F";
   Attendance.mkRecord "w1" "2024-01-02" Attendance.half_day "F"].

(** Asha worked a day and a half in folder F at the default rates and
    holds one advance of 300 dated 2024-01-02; she is selected for
    deduction. *)
Definition settings : Settings :=
  {| deductAdvance := true;
     selectedAdvanceWorkers := ["w1"];
     exportFormat := pdf;
     folderRates := {[ "Default" := mkRates "600" "250" ]};
     workers := [asha] |}.

Definition world : World :=
  {| ledger := Attendance.saveAttendanceRecords ashaAttendance Attendance.emptyLedger;
     advancesStored := Some [ashaAdvance "2024-01-02"];
     saved_reports := None;
     documents := [];
     savedReports := [];
     workersWithAdvance := [] |}.

Definition env (advancesWriteOk_ exportOk_ : bool) : Env :=
  {| settleClock := fun _ => "2024-01-03T10:00:00.000Z";
     idClock := "1704276000000";
     createdClock := "2024-01-03T10:00:01.000Z";
     documentDirectory := "file:///documents/";
     advancesWriteOk := advancesWriteOk_;
     exportOk := exportOk_;
     reportsWriteOk := true;
     shareOk := true |}.

End Examples.

(* ===================================================================== *)
(** ** Attendance ledger: deletions and a newly mounted hook *)
(* ===================================================================== *)

Module AttendanceOps.
Import Attendance.

(** [deleteRecordsByDate(folderName, date)], [storeData] succeeding: the
    in-memory list without the records of the pair becomes both the state and
    the stored list; the working set is not touched. *)
Definition deleteRecordsByDate (folder day : string) (st : Ledger) : Ledger :=
  let updatedRecords :=
    filter (fun record => ~ (folderName record = folder /\ date record = day))
           (attendance st) in
  {| attendance := updatedRecords;
     currentAttendance := currentAttendance st;
     stored_attendance := Some updatedRecords;
     stored_currentAttendance := stored_currentAttendance st |}.

(** [deleteAllFolderRecords(folderName)]. *)
Definition deleteAllFolderRecords (folder : string) (st : Ledger) : Ledger :=
  let updatedRecords :=
    filter (fun record => folderName record <> folder) (attendance st) in
  {| attendance := updatedRecords;
     currentAttendance := currentAttendance st;
     stored_attendance := Some updatedRecords;
     stored_currentAttendance := stored_currentAttendance st |}.

(** The hook as another screen mounts it: both [useState([])] lists empty,
    over the storage the ledger [st] has written. *)
Definition mount (st : Ledger) : Ledger :=
  {| attendance := [];
     currentAttendance := [];
     stored_attendance := stored_attendance st;
     stored_currentAttendance := stored_currentAttendance st |}.

(** The in-memory lists agree with what storage holds. *)
Definition inSync (st : Ledger) : Prop :=
  stored_attendance st = Some (attendance st) /\
  stored_currentAttendance st = Some (currentAttendance st).

End AttendanceOps.

(* ===================================================================== *)
(** ** Mark-attendance screen ([loadData], [handleSubmit]) *)
(* ===================================================================== *)

Module MarkAttendance.
Import Js.

(** A row of the screen: a worker of the folder with the status shown. *)
Record Worker := mkWorker {
  id : string;
  name : string;
  folders : list string;
  status : Attendance.Status
}.

Record Screen := mkScreen {
  workers : list Worker;
  selectedFolder : string;
  selectedDate : Z;
  selectedSubmitFolders : list string;
  showSubmitFolderPicker : bool;
  ledger : Attendance.Ledger
}.

Section Handlers.
Context `{Runtime}.

(** The [attendanceRecords] of [handleSubmit]: one record per worker per
    target folder, workers outermost. *)
Definition attendanceRecords (workers_ : list Worker) (folders_ : list string)
    (dateStr : string) : list Attendance.AttendanceRecord :=
  workers_ ≫= fun worker =>
    (fun folder => Attendance.mkRecord (id worker) dateStr (status worker) folder)
      <$> folders_.

(** [handleSubmit], the save succeeding.  With no target folder chosen it
    only proposes the selected folder and opens the picker. *)
Definition handleSubmit (scr : Screen) : Screen :=
  if bool_decide (length (selectedSubmitFolders scr) = 0%nat) then
    {| workers := workers scr;
       selectedFolder := selectedFolder scr;
       selectedDate := selectedDate scr;
       selectedSubmitFolders := [selectedFolder scr];
       showSubmitFolderPicker := true;
       ledger := ledger scr |}
  else
    let dateStr := isoDay (selectedDate scr) in
    {| workers := workers scr;
       selectedFolder := selectedFolder scr;
       selectedDate := selectedDate scr;
       selectedSubmitFolders := [];
       showSubmitFolderPicker := false;
       ledger := Attendance.saveAttendanceRecords
                   (attendanceRecords (workers scr) (selectedSubmitFolders scr) dateStr)
                   (ledger scr) |}.

(** [existingAttendance.find(a => a.workerId === worker.id && a.date === dateStr)
    ?.status || 'absent']. *)
Definition statusIn (existingAttendance : list Attendance.AttendanceRecord)
    (workerId dateStr : string) : Attendance.Status :=
  match List.find (fun a => bool_decide (Attendance.workerId a = workerId)
                            && bool_decide (Attendance.date a = dateStr))
                  existingAttendance with
  | Some a => Attendance.status a
  | None => Attendance.absent
  end.

(** [loadData]: the folder's workers, each with the status found for the
    selected date; nothing is done without a selected folder.  [hookWorkers]
    is the [workers] list of [useWorkers]. *)
Definition loadData (hookWorkers : list Workers.Worker) (scr : Screen) : Screen :=
  if bool_decide (selectedFolder scr = "") then scr
  else
    let folderWorkers := Workers.getWorkersByFolder hookWorkers (selectedFolder scr) in
    let dateStr := isoDay (selectedDate scr) in
    let '(existingAttendance, ledger_) :=
      Attendance.getCurrentAttendance (selectedFolder scr) dateStr (ledger scr) in
    {| workers :=
         (fun worker =>
            {| id := Workers.id worker;
               name := Workers.name worker;
               folders := Workers.folders worker;
               status := statusIn existingAttendance (Workers.id worker) dateStr |})
           <$> folderWorkers;
       selectedFolder := selectedFolder scr;
       selectedDate := selectedDate scr;
       selectedSubmitFolders := selectedSubmitFolders scr;
       showSubmitFolderPicker := showSubmitFolderPicker scr;
       ledger := ledger_ |}.

(** The record [handleSubmit] builds for a worker and a target folder. *)
Definition recordOf (dateStr folder : string) (worker : Worker)
  : Attendance.AttendanceRecord :=
  Attendance.mkRecord (id worker) dateStr (status worker) folder.

End Handlers.

End MarkAttendance.

(* ===================================================================== *)
(** ** Worked data for the attendance screen *)
(* ===================================================================== *)

Module MarkExamples.
Import MarkAttendance.

Definition hookWorkers : list Workers.Worker :=
  [Workers.mkWorker "w1" "Asha" ["F"; "G"]; Workers.mkWorker "w2" "Ravi" ["F"]].

(** Asha is marked present and Ravi half a day in folder F on day 0, to be
    submitted for folders F and G. *)
Definition screen : Screen :=
  {| workers := [mkWorker "w1" "Asha" ["F"; "G"] Attendance.present;
                 mkWorker "w2" "Ravi" ["F"] Attendance.half_day];
     selectedFolder := "F";
     selectedDate := 0;
     selectedSubmitFolders := ["F"; "G"];
     showSubmitFolderPicker := true;
     ledger := Attendance.emptyLedger |}.

End MarkExamples.

(* ===================================================================== *)
(** ** String functions of the platform *)
(* ===================================================================== *)

Module JsText.

(** [s.toLowerCase()] and [s.trim()]. *)
Class Text := {
  toLowerCase : string -> string;
  trim : string -> string
}.

(** Truthiness of a string. *)
Definition nonEmpty (s : string) : bool := negb (bool_decide (s = "")).

(** The character [U+0022]. *)
Definition quote : string := String (ascii_of_nat 34) EmptyString.

(** A text instance for the worked examples: letters A to Z are lowered,
    spaces are trimmed. *)
Definition lowerAscii (c : ascii) : ascii :=
  let n := nat_of_ascii c in
  if ((65 <=? n) && (n <=? 90))%nat then ascii_of_nat (n + 32) else c.

Fixpoint lowerString (s : string) : string :=
  match s with
  | EmptyString => EmptyString
  | String c rest => String (lowerAscii c) (lowerString rest)
  end.

Fixpoint trimStart (s : string) : string :=
  match s with
  | EmptyString => EmptyString
  | String c rest => if bool_decide (c = " "%char) then trimStart rest else s
  end.

Fixpoint trimEnd (s : string) : string :=
  match s with
  | EmptyString => EmptyString
  | String c rest =>
      let rest' := trimEnd rest in
      if bool_decide (rest' = EmptyString) && bool_decide (c = " "%char)
      then EmptyString
      else String c rest'
  end.

Definition exampleText : Text :=
  {| toLowerCase := lowerString; trim := fun s => trimEnd (trimStart s) |}.

End JsText.

(* ===================================================================== *)
(** ** The [useWorkers] hook and the manage-workers screen *)
(* ===================================================================== *)

Module WorkersHook.
Import Workers JsText Generate.

(** The hook's [workers] state and the [workers] storage key. *)
Record Hook := mkHook {
  workers : list Worker;
  stored_workers : option (list Worker)
}.

Definition setWorkers (l : list Worker) (st : Hook) : Hook :=
  {| workers := l; stored_workers := Some l |}.

Definition loadWorkers (st : Hook) : Hook :=
  match stored_workers st with
  | Some l => {| workers := l; stored_workers := stored_workers st |}
  | None => st
  end.

Definition deleteWorker (workerId : string) (st : Hook) : Hook :=
  setWorkers (filter (fun w => id w <> workerId) (workers st)) st.

Definition deleteMultipleWorkers (workerIds : list string) (st : Hook) : Hook :=
  setWorkers (filter (fun w => id w ∉ workerIds) (workers st)) st.

Definition rename (workerId newName : string) (worker : Worker) : Worker :=
  if bool_decide (id worker = workerId)
  then {| id := id worker; name := newName; folders := folders worker |}
  else worker.

Definition editWorker (workerId newName : string) (st : Hook) : Hook :=
  setWorkers (rename workerId newName <$> workers st) st.

Section Names.
Context `{Text}.

Definition isDuplicateInFolder (workers_ : list Worker) (name_ folderName : string)
  : bool :=
  existsb (fun worker => bool_decide (folderName ∈ folders worker)
                         && bool_decide (toLowerCase (name worker) = toLowerCase name_))
          workers_.

(** [addWorker(name, folders)]; [now] is [Date.now().toString()].  The first
    folder in which the trimmed name is taken makes it throw. *)
Definition addWorker (now : string) (name_ : string) (folders_ : list string)
    (st : Hook) : Outcome Worker * Hook :=
  match List.find (fun folder => isDuplicateInFolder (workers st) (trim name_) folder)
                  folders_ with
  | Some folder =>
      (Thrown ("Worker " +:+ quote +:+ name_ +:+ quote +:+ " already exists in folder "
               +:+ quote +:+ folder +:+ quote), st)
  | None =>
      let newWorker := {| id := now; name := trim name_; folders := folders_ |} in
      let updatedWorkers := workers st ++ [newWorker] in
      (Returned newWorker, setWorkers updatedWorkers st)
  end.

(** [handleAddWorker] of the screen: nothing happens for a blank name, and a
    refusal of the hook is shown and changes nothing. *)
Definition handleAddWorker (now : string) (name_ : string)
    (selectedFolders : list string) (st : Hook) : Hook :=
  let trimmedName := trim name_ in
  if nonEmpty trimmedName then (addWorker now trimmedName selectedFolders st).2
  else st.

(** [handleSaveEdit] of the screen: a name some other worker bears, in any
    letter case, is refused. *)
Definition handleSaveEdit (editingWorker : option Worker) (editName : string)
    (st : Hook) : Hook :=
  let trimmedName := trim editName in
  match editingWorker with
  | Some editing =>
      if nonEmpty trimmedName then
        let isDuplicate :=
          existsb (fun worker =>
                     negb (bool_decide (id worker = id editing))
                     && bool_decide (toLowerCase (name worker) = toLowerCase trimmedName))
                  (workers st) in
        if isDuplicate then st else editWorker (id editing) trimmedName st
      else st
  | None => st
  end.

(** No two workers of one folder bear the same name up to letter case. *)
Definition distinctNames (ws : list Worker) : Prop :=
  forall i j wi wj folder,
    i <> j -> ws !! i = Some wi -> ws !! j = Some wj ->
    folder ∈ folders wi -> folder ∈ folders wj ->
    toLowerCase (name wi) <> toLowerCase (name wj).

End Names.

(** A JavaScript [Map] with string keys, as the list of its entries in
    insertion order; [mapSet] is [map.set(k, v)]. *)
Fixpoint mapSet {V} (m : list (string * V)) (k : string) (v : V) : list (string * V) :=
  match m with
  | [] => [(k, v)]
  | (k', v') :: rest =>
      if bool_decide (k' = k) then (k, v) :: rest else (k', v') :: mapSet rest k v
  end.

(** [new Map(entries)]. *)
Definition newMap {V} (entries : list (string * V)) : list (string * V) :=
  foldl (fun m e => mapSet m e.1 e.2) [] entries.

(** [loadWorkers] of the manage-workers screen: the workers of the selected
    folders, one entry per worker id. *)
Definition uniqueWorkers (workers_ : list Worker) (selectedFolders : list string)
  : list Worker :=
  let allWorkers := selectedFolders ≫= getWorkersByFolder workers_ in
  snd <$> newMap ((fun w => (id w, w)) <$> allWorkers).

(** [toggleFolderSelection]: the last selected folder cannot be removed. *)
Definition toggleFolderSelection (folderName : string) (prev : list string)
  : list string :=
  if bool_decide (folderName ∈ prev) then
    if bool_decide (1 < length prev)%nat
    then filter (fun f => f <> folderName) prev
    else prev
  else prev ++ [folderName].

(** [toggleWorkerSelection], and the like toggles of the other pickers. *)
Definition toggleSelection (x : string) (prev : list string) : list string :=
  if bool_decide (x ∈ prev) then filter (fun y => y <> x) prev else prev ++ [x].

End WorkersHook.

(* ===================================================================== *)
(** ** The [useFolders] hook *)
(* ===================================================================== *)

Module Folders.
Import JsText Generate.

Record WorkFolder := mkFolder {
  id : string;
  name : string;
  createdAt : Z;
  isDefault : option bool
}.

#[export] Instance WorkFolder_eq_dec : EqDecision WorkFolder.
Proof. solve_decision. Defined.

Record Hook := mkHook {
  folders : list WorkFolder;
  stored_folders : option (list WorkFolder)
}.

(** The initial state of the hook, created at time [now]. *)
Definition initial (now : Z) : Hook :=
  {| folders := [ {| id := "default"; name := "Default"; createdAt := now;
                     isDefault := Some true |} ];
     stored_folders := None |}.

(** [loadFolders]; a stored [createdAt] is read back as the same instant. *)
Definition loadFolders (st : Hook) : Hook :=
  match stored_folders st with
  | Some l => {| folders := l; stored_folders := stored_folders st |}
  | None => st
  end.

Section Names.
Context `{Text}.

Definition lowerNames (l : list WorkFolder) : list string :=
  (fun f => toLowerCase (name f)) <$> l.

(** [updateFolders(newFolders)]. *)
Definition updateFolders (newFolders : list WorkFolder) (st : Hook)
  : Outcome unit * Hook :=
  let names := lowerNames newFolders in
  let hasDuplicates :=
    negb (bool_decide (length names = size (list_to_set names : gset string))) in
  if hasDuplicates
  then (Thrown "Duplicate folder names are not allowed", st)
  else (Returned tt, {| folders := newFolders; stored_folders := Some newFolders |}).

(** Whether [validateFolderName(name, excludeFolderId)] throws. *)
Definition nameTaken (name_ : string) (excludeFolderId : string) (st : Hook) : bool :=
  existsb (fun f => bool_decide (toLowerCase (name f) = toLowerCase name_)
                    && negb (bool_decide (id f = excludeFolderId)))
          (folders st).

Definition deleteFolder (folderId : string) (st : Hook) : Outcome unit * Hook :=
  let folder := List.find (fun f => bool_decide (id f = folderId)) (folders st) in
  if default false (folder ≫= isDefault)
  then (Thrown "Default folder cannot be deleted", st)
  else updateFolders (filter (fun f => id f <> folderId) (folders st)) st.

Definition renamed (folderId newName : string) (f : WorkFolder) : WorkFolder :=
  if bool_decide (id f = folderId)
  then {| id := id f; name := newName; createdAt := createdAt f;
          isDefault := isDefault f |}
  else f.

Definition renameFolder (folderId newName : string) (st : Hook)
  : Outcome unit * Hook :=
  if nameTaken newName folderId st
  then (Thrown ("A folder with name " +:+ quote +:+ newName +:+ quote
                +:+ " already exists"), st)
  else updateFolders (renamed folderId newName <$> folders st) st.

(** [addFolder] of the work-folders screen; [now] is [Date.now().toString()]
    and [created] the time of [new Date()]. *)
Definition addFolder (now : string) (created : Z) (newFolderName : string)
    (st : Hook) : Outcome unit * Hook :=
  if nonEmpty (trim newFolderName) then
    updateFolders (folders st ++ [ {| id := now; name := trim newFolderName;
                                      createdAt := created;
                                      isDefault := Some false |} ]) st
  else (Returned tt, st).

End Names.

End Folders.

(* ===================================================================== *)
(** ** The [usePaymentSettings] hook and the payment-settings screen *)
(* ===================================================================== *)

Module PaymentSettings.
Import Reports.

(** The hook's [folderRates] state. *)
Definition initial : gmap string PaymentRates :=
  {[ "Default" := mkRates "500" "250" ]}.

(** [updateFolderRates(folderName, rates)] of a render whose [folderRates]
    is [closure]: the new state. *)
Definition updateFolderRates (closure : gmap string PaymentRates)
    (folderName : string) (rates : PaymentRates) : gmap string PaymentRates :=
  <[folderName := rates]> closure.

(** [handleUpdateRates]: [updateFolderRates] is called for every selected
    folder from the same render, each call setting the state to the rates
    of that render with its own folder added. *)
Definition handleUpdateRates (selectedFolders : list string) (rates : PaymentRates)
    (folderRates : gmap string PaymentRates) : gmap string PaymentRates :=
  foldl (fun _ folder => updateFolderRates folderRates folder rates)
        folderRates selectedFolders.

(** [folderRates[folder] || folderRates['Default']], as the screen and the
    report read the rates of a folder. *)
Definition effectiveRates `{Js.Runtime} (folderRates : gmap string PaymentRates)
    (folder : string) : option Rates :=
  ratesOrDefault folderRates folder.

End PaymentSettings.

(* ===================================================================== *)
(** ** Advance records screen and report archive handlers *)
(* ===================================================================== *)

Module AdvanceRecords.
Import Js Reports.

(** The screen's [advances] and [totalPendingAdvance] state. *)
Record Screen := mkScreen {
  advances : list Advance;
  totalPendingAdvance : number
}.

Section Totals.
Context `{Runtime}.

(** The advances not deducted, and the total [loadAdvances] shows: the sum
    of their amounts. *)
Definition pending (l : list Advance) : list Advance :=
  filter (fun adv => negb (isDeducted adv)) l.

Definition totalPending (l : list Advance) : number :=
  sumAmounts (pending l).

(** [loadAdvances]: nothing changes when the [advances] item is absent. *)
Definition loadAdvances (savedAdvances : option (list Advance)) (scr : Screen) : Screen :=
  match savedAdvances with
  | Some parsedAdvances =>
      {| advances := parsedAdvances;
         totalPendingAdvance := totalPending parsedAdvances |}
  | None => scr
  end.

(** The total of a list of advances whose amounts are the whole numbers
    [value] gives. *)
Definition wholeTotal (value : Advance -> Z) (l : list Advance) : Z :=
  foldr (fun adv total => value adv + total) 0 l.

(** The condition under which the settlement of a report marks an advance. *)
Definition reached (selectedAdvanceWorkers : list string) (end_ : Z) (adv : Advance)
  : bool :=
  bool_decide (workerId adv ∈ selectedAdvanceWorkers)
  && onOrBefore (date adv) end_
  && negb (isDeducted adv).

End Totals.

(** The confirmed deletion of [handleDeleteAdvance], the write succeeding:
    the stored list is read afresh, filtered, stored and shown. *)
Definition handleDeleteAdvance (advanceId : string)
    (currentAdvances : option (list Advance)) (scr : Screen)
  : option (list Advance) * Screen :=
  let parsedAdvances := default [] currentAdvances in
  let updatedAdvances :=
    filter (fun adv => Advances.id adv <> advanceId) parsedAdvances in
  (Some updatedAdvances,
   {| advances := updatedAdvances;
      totalPendingAdvance := totalPendingAdvance scr |}).

End AdvanceRecords.

Module ReportArchive.
Import Generate.

(** [FileSystem.deleteAsync(path, { idempotent: true })]: no file is left
    at [path], and a missing file is no error. *)
Definition deleteDocument (path : string) (docs : list (string * Artifact))
  : list (string * Artifact) :=
  filter (fun d => d.1 <> path) docs.

Definition fileExists (path : string) (w : World) : Prop :=
  path ∈ (fst <$> documents w).

Definition setArchive (docs : list (string * Artifact))
    (reports : list Archive.ReportMeta) (w : World) : World :=
  {| ledger := ledger w; advancesStored := advancesStored w;
     saved_reports := Some reports; documents := docs;
     savedReports := reports; workersWithAdvance := workersWithAdvance w |}.

(** [handleDeleteReport(reportId)], the deletion and the write succeeding. *)
Definition handleDeleteReport (reportId : string) (w : World) : World :=
  match List.find (fun r => bool_decide (Archive.id r = reportId)) (savedReports w) with
  | Some report =>
      let updatedReports :=
        filter (fun r => Archive.id r <> reportId) (savedReports w) in
      setArchive (deleteDocument (Archive.path report) (documents w)) updatedReports w
  | None => w
  end.

(** [handleDeleteSelected], with the ids ticked in [selectedReports]. *)
Definition handleDeleteSelected (selectedReports : list string) (w : World) : World :=
  let reportsToDelete :=
    filter (fun r => Archive.id r ∈ selectedReports) (savedReports w) in
  let updatedReports :=
    filter (fun r => Archive.id r ∉ selectedReports) (savedReports w) in
  setArchive (foldl (fun docs r => deleteDocument (Archive.path r) docs)
                    (documents w) reportsToDelete)
             updatedReports w.

Section Names.
Import Js Reports.
Context `{Runtime}.

(** The file name and the archive entry of a run. *)
Definition reportFilename (s : Settings) (folder : string) (start end_ : Z) : string :=
  folder +:+ "_" +:+ isoDay start +:+ "_" +:+ isoDay end_
  +:+ match exportFormat s with pdf => ".pdf" | xlsx => ".xlsx" end.

Definition reportMetaOf (env : Env) (s : Settings) (folder : string) (start end_ : Z)
  : Archive.ReportMeta :=
  {| Archive.id := idClock env;
     Archive.name := reportFilename s folder start end_;
     Archive.folder := folder;
     Archive.startDate := toISOString start;
     Archive.endDate := toISOString end_;
     Archive.path := documentDirectory env +:+ reportFilename s folder start end_;
     Archive.createdAt := createdClock env |}.

End Names.

(** The confirmed deletion of [handleDeleteAll]. *)
Definition handleDeleteAll (w : World) : World :=
  setArchive (foldl (fun docs r => deleteDocument (Archive.path r) docs)
                    (documents w) (savedReports w))
             [] w.

End ReportArchive.

(* ===================================================================== *)
(** ** Worked data for the hooks *)
(* ===================================================================== *)

Module HookExamples.

Definition ashaOnly : WorkersHook.Hook :=
  WorkersHook.mkHook [Workers.mkWorker "w1" "Asha" ["F"]] None.

(** A second run of the report of [Examples], a millisecond later. *)
Definition laterEnv : Generate.Env :=
  {| Generate.settleClock := fun _ => "2024-01-03T10:05:00.000Z";
     Generate.idClock := "1704276300000";
     Generate.createdClock := "2024-01-03T10:05:01.000Z";
     Generate.documentDirectory := "file:///documents/";
     Generate.advancesWriteOk := true;
     Generate.exportOk := true;
     Generate.reportsWriteOk := true;
     Generate.shareOk := true |}.

End HookExamples.

(* ===================================================================== *)
(** * Theorems *)
(* ===================================================================== *)

Section DenominationFacts.
Import Denomination.

Lemma roundedAmount_hundreds amount :
  roundedAmount amount = Math_round_div100 amount * 100.
Proof. reflexivity. Qed.

Lemma maxNotes500_hundreds amount :
  maxNotes500 amount = Math_round_div100 amount / 5.
Proof.
  unfold maxNotes500, roundedAmount, NOTE_500.
  rewrite <- (Z.div_mul_cancel_r (Math_round_div100 amount) 5 100) by lia.
  reflexivity.
Qed.






(** [Math.round(amount / 100)] is the whole number of hundreds nearest to
    the amount, the upper one when the amount lies halfway. *)
Lemma Math_round_div100_bounds (amount : Q) :
  (inject_Z (Math_round_div100 amount) * 100 - 50 <= amount /\
   amount < inject_Z (Math_round_div100 amount) * 100 + 50)%Q.
Proof.
  unfold Math_round_div100.
  pose proof (Qfloor_le (amount / 100 + (1 # 2))%Q) as L.
  pose proof (Qlt_floor (amount / 100 + (1 # 2))%Q) as U.
  rewrite inject_Z_plus in U. change (inject_Z 1) with 1%Q in U.
  set (r := inject_Z (Qfloor _)) in *.
  unfold Qdiv in *. change (/ 100)%Q with (1 # 100)%Q in *.
  split; lra.
Qed.

Lemma Math_round_div100_unique (amount : Q) (k : Z) :
  (inject_Z k * 100 - 50 <= amount /\ amount < inject_Z k * 100 + 50)%Q ->
  Math_round_div100 amount = k.
Proof.
  intros [L U]. destruct (Math_round_div100_bounds amount) as [L' U'].
  set (r := Math_round_div100 amount) in *.
  assert (H1 : (inject_Z (r + -1) < inject_Z k)%Q).
  { rewrite inject_Z_plus. change (inject_Z (-1)) with (-1)%Q. lra. }
  assert (H2 : (inject_Z k < inject_Z (r + 1))%Q).
  { rewrite inject_Z_plus. change (inject_Z 1) with 1%Q. lra. }
  rewrite <- Zlt_Qlt in H1, H2. lia.
Qed.







Lemma negative_below_50 (amount : Q) :
  (amount < -50)%Q ->
  roundedAmount amount <= -100 /\ maxNotes500 amount < 0 /\ candidates amount = [].
Proof.
  intros H.
  assert (Hq : Math_round_div100 amount < 0).
  { destruct (Math_round_div100_bounds amount) as [L _].
    assert (E : (inject_Z (Math_round_div100 amount) < inject_Z 0)%Q).
    { change (inject_Z 0) with 0%Q. lra. }
    rewrite <- Zlt_Qlt in E. exact E. }
  assert (Hmax : maxNotes500 amount < 0).
  { rewrite maxNotes500_hundreds. apply Z.div_lt_upper_bound; lia. }
  split; [rewrite roundedAmount_hundreds; lia |].
  split; [exact Hmax |].
  unfold candidates. apply seqZ_nil. lia.
Qed.

Lemma negative_from_50 (amount : Q) :
  (-50 <= amount /\ amount < 0)%Q ->
  roundedAmount amount = 0 /\ maxNotes500 amount = 0 /\ candidates amount = [0].
Proof.
  intros H.
  assert (Hq : Math_round_div100 amount = 0).
  { apply Math_round_div100_unique. change (inject_Z 0) with 0%Q. lra. }
  assert (Hmax : maxNotes500 amount = 0).
  { rewrite maxNotes500_hundreds, Hq. reflexivity. }
  split; [rewrite roundedAmount_hundreds, Hq; reflexivity |].
  split; [exact Hmax |].
  unfold candidates. rewrite Hmax. reflexivity.
Qed.

(** C10 as stated fails at amount -30: the amount rounds to 0, the maximum
    number of 500 notes is 0 (not negative), the loop runs once, and the
    returned counts do satisfy the exact-sum equation. *)
Lemma negative_amount_counterexample :
  let amount := (-30)%Q in
  let r := calculateNoteDistribution amount in
  (amount < 0)%Q /\
  ~ maxNotes500 amount < 0 /\
  candidates amount = [0] /\
  notes500 r * NOTE_500 + notes100 r * NOTE_100 = roundedAmount amount.
Proof. vm_compute. repeat split; congruence. Qed.

(** C10, amended.  For every strictly negative amount the optimizer returns
    {notes500: 0, notes100: 0}.  Below -50 the rounded amount is at most
    -100, the maximum 500-note count is negative, the loop never runs and
    the exact-sum equation fails; from -50 up to (not including) 0 the
    amount rounds to 0, the loop runs exactly once and the equation holds. *)
Theorem calculateNoteDistribution_negative (amount : Q) (Hamount : (amount < 0)%Q) :
  let r := calculateNoteDistribution amount in
  r = {| notes500 := 0; notes100 := 0 |} /\
  ((amount < -50)%Q ->
     maxNotes500 amount < 0 /\ candidates amount = [] /\
     notes500 r * NOTE_500 + notes100 r * NOTE_100 <> roundedAmount amount) /\
  ((-50 <= amount)%Q ->
     maxNotes500 amount = 0 /\ candidates amount = [0] /\
     notes500 r * NOTE_500 + notes100 r * NOTE_100 = roundedAmount amount).
Proof.
  intros r. subst r. unfold calculateNoteDistribution.
  destruct (Qlt_le_dec amount (-50)) as [Hlow | Hhigh].
  - destruct (negative_below_50 amount Hlow) as (Hr & Hmax & Hc).
    rewrite Hc. simpl. split; [reflexivity |].
    split; [| intros Hge; lra]. intros _. repeat split; auto; lia.
  - destruct (negative_from_50 amount (conj Hhigh Hamount)) as (Hr & Hmax & Hc).
    rewrite Hc, Hr. simpl. split; [reflexivity |].
    split; [intros Hlt; lra |]. intros _. repeat split; auto.
Qed.

Lemma calculateNoteDistribution_negative_witness :
  (-730 < 0)%Q /\
  calculateNoteDistribution (-730) = {| notes500 := 0; notes100 := 0 |}.
Proof.
  assert (Hamount : (-730 < 0)%Q) by reflexivity.
  split; [exact Hamount |].
  exact (proj1 (calculateNoteDistribution_negative (-730) Hamount)).
Defined.

End DenominationFacts.

Section AttendanceFacts.
Import Attendance.

Lemma elem_of_recordKeys k records :
  k ∈ recordKeys records <-> exists b, b ∈ records /\ key b = k.
Proof.
  unfold recordKeys. rewrite elem_of_list_to_set, list_elem_of_fmap.
  split; intros (b & H1 & H2); exists b; auto.
Qed.

Lemma same_pair_same_key r b :
  folderName r = folderName b -> date r = date b -> key r = key b.
Proof. unfold key. intros -> ->. reflexivity. Qed.

Lemma elem_of_filteredAttendance r records old :
  r ∈ filteredAttendance records old <->
  r ∈ old /\ forall b, b ∈ records -> key b <> key r.
Proof.
  unfold filteredAttendance. rewrite list_elem_of_filter, elem_of_recordKeys.
  split.
  - intros [Hkey Hin]. split; [exact Hin |].
    intros b Hb E. apply Hkey. eauto.
  - intros [Hin Hne]. split; [| exact Hin].
    intros (b & Hb & E). exact (Hne b Hb E).
Qed.

Lemma filteredAttendance_batch records :
  filteredAttendance records records = [].
Proof.
  apply elem_of_nil_inv. intros r Hr.
  apply elem_of_filteredAttendance in Hr as [Hr Hne].
  exact (Hne r Hr eq_refl).
Qed.

Lemma filteredAttendance_idemp records old :
  filteredAttendance records (filteredAttendance records old)
  = filteredAttendance records old.
Proof.
  unfold filteredAttendance.
  induction old as [| r old IH]; [reflexivity |].
  rewrite filter_cons. destruct (decide (key r ∉ recordKeys records)) as [H | H].
  - rewrite filter_cons. rewrite decide_True by exact H. f_equal. exact IH.
  - exact IH.
Qed.

Lemma filteredAttendance_app records l1 l2 :
  filteredAttendance records (l1 ++ l2)
  = filteredAttendance records l1 ++ filteredAttendance records l2.
Proof. unfold filteredAttendance. apply filter_app. Qed.

Lemma string_length_app (s t : string) :
  String.length (s +:+ t) = (String.length s + String.length t)%nat.
Proof. induction s as [| c s IH]; simpl; [reflexivity | rewrite IH; reflexivity]. Qed.

(** Two records whose dates have the same number of characters (as dates
    written YYYY-MM-DD do) have the same key only when they have the same
    folder and the same date. *)
Lemma key_inj_equal_length r b :
  String.length (date r) = String.length (date b) ->
  key r = key b -> folderName r = folderName b /\ date r = date b.
Proof.
  unfold key. generalize (date r) (date b) (folderName b). clear b.
  induction (folderName r) as [| c f1 IH]; intros d1 d2 [| c2 f2] Hlen E;
    simpl in E.
  - injection E as E. auto.
  - injection E as _ E. change ("" +:+ d1) with d1 in E. rewrite E in Hlen.
    rewrite !string_length_app in Hlen. simpl in Hlen. lia.
  - injection E as _ E. change ("" +:+ d2) with d2 in E. rewrite <- E in Hlen.
    rewrite !string_length_app in Hlen. simpl in Hlen. lia.
  - injection E as -> E. destruct (IH d1 d2 f2 Hlen E) as [-> ->]. auto.
Qed.

(** Without that, two different pairs can share a key, and a save for one
    drops the stored records of the other. *)
Lemma key_collision_example :
  let stored := mkRecord "w1" "c" present "a-b" in
  let batch := [mkRecord "w2" "b-c" present "a"] in
  key stored = "a-b-c" /\
  attendance (saveAttendanceRecords batch (saveAttendanceRecords [stored] emptyLedger))
  = batch.
Proof. vm_compute. split; reflexivity. Qed.

(** After a save, the stored records of a pair the batch mentions are
    exactly the batch's records for that pair. *)
Lemma batchFor_after_save folder day records st b :
  b ∈ records -> folderName b = folder -> date b = day ->
  batchFor folder day (attendance (saveAttendanceRecords records st))
  = batchFor folder day records.
Proof.
  intros Hb Hf Hd. simpl. unfold batchFor. rewrite filter_app.
  replace (filter (inFolderOn folder day)
             (filteredAttendance records (attendance st))) with (@nil AttendanceRecord);
    [reflexivity |].
  symmetry. apply elem_of_nil_inv. intros r Hr.
  apply list_elem_of_filter in Hr as [[Hrf Hrd] Hr].
  apply elem_of_filteredAttendance in Hr as [_ Hne].
  apply (Hne b Hb). apply same_pair_same_key; congruence.
Qed.

(** C1.  A save keeps, in order, the stored records whose key no batch
    record has, and appends the batch: no kept record shares its
    (folderName, date) pair with a batch record, and every stored record
    whose key differs from all batch keys is kept.  Saving folder F, date D
    for workers A and B, then for A alone, leaves A's record as the only
    one stored for (F, D): no record of B remains there. *)
Theorem saveAttendanceRecords_replaces_pairs
    (records : list AttendanceRecord) (st : Ledger) :
  let st' := saveAttendanceRecords records st in
  let kept := filteredAttendance records (attendance st) in
  attendance st' = kept ++ records /\
  stored_attendance st' = Some (kept ++ records) /\
  currentAttendance st' = records /\
  kept `sublist_of` attendance st /\
  (forall r b, r ∈ kept -> b ∈ records ->
               ~ (folderName r = folderName b /\ date r = date b)) /\
  (forall r, r ∈ attendance st ->
             (forall b, b ∈ records -> key b <> key r) -> r ∈ kept) /\
  (forall (st0 : Ledger) (F D : string) (sA sB sA' : Status),
     let both := [mkRecord "A" D sA F; mkRecord "B" D sB F] in
     let onlyA := [mkRecord "A" D sA' F] in
     let st2 := saveAttendanceRecords onlyA (saveAttendanceRecords both st0) in
     batchFor F D (attendance st2) = onlyA /\
     forall r, r ∈ attendance st2 ->
               ~ (workerId r = "B" /\ folderName r = F /\ date r = D)).
Proof.
  intros st' kept. repeat split; try reflexivity.
  - apply sublist_filter.
  - intros r b Hr Hb [Hf Hd].
    apply elem_of_filteredAttendance in Hr as [_ Hne].
    apply (Hne b Hb). symmetry. apply same_pair_same_key; assumption.
  - intros r Hr Hne. apply elem_of_filteredAttendance. auto.
  - rewrite (batchFor_after_save F D _ _ (mkRecord "A" D sA' F));
      [| constructor | reflexivity | reflexivity].
    unfold batchFor. rewrite filter_cons, decide_True; [reflexivity |].
    split; reflexivity.
  - intros r Hr (Hw & Hf & Hd).
    assert (Hin : r ∈ batchFor F D
              (attendance (saveAttendanceRecords [mkRecord "A" D sA' F]
                 (saveAttendanceRecords
                    [mkRecord "A" D sA F; mkRecord "B" D sB F] st0)))).
    { apply list_elem_of_filter. split; [split; assumption | exact Hr]. }
    rewrite (batchFor_after_save F D _ _ (mkRecord "A" D sA' F)) in Hin;
      [| constructor | reflexivity | reflexivity].
    apply list_elem_of_filter in Hin as [_ Hin].
    apply list_elem_of_singleton in Hin. subst r. discriminate Hw.
Qed.

Lemma saveAttendanceRecords_replaces_pairs_witness :
  let old := mkRecord "w1" "2024-03-01" present "Site" in
  let new := mkRecord "w2" "2024-03-01" half_day "Site" in
  attendance (saveAttendanceRecords [new]
                (saveAttendanceRecords [old] emptyLedger)) = [new].
Proof.
  intros old new.
  rewrite (proj1 (saveAttendanceRecords_replaces_pairs [new]
                    (saveAttendanceRecords [old] emptyLedger))).
  vm_compute. reflexivity.
Defined.

(** C8.  Saving the same batch a second time leaves the whole ledger (the
    in-memory lists and both stored lists, order included) as the first
    save left it. *)
Theorem saveAttendanceRecords_idempotent
    (records : list AttendanceRecord) (st : Ledger) :
  saveAttendanceRecords records (saveAttendanceRecords records st)
  = saveAttendanceRecords records st.
Proof.
  unfold saveAttendanceRecords; simpl.
  rewrite filteredAttendance_app, filteredAttendance_idemp,
    filteredAttendance_batch, app_nil_r.
  reflexivity.
Qed.

Lemma batchFor_nonempty folder day records b :
  b ∈ records -> folderName b = folder -> date b = day ->
  (0 < length (batchFor folder day records))%nat.
Proof.
  intros Hb Hf Hd.
  assert (Hin : b ∈ batchFor folder day records).
  { apply list_elem_of_filter. split; [split; assumption | exact Hb]. }
  destruct (batchFor folder day records); [inversion Hin | simpl; lia].
Qed.

(** The working-set query after a save: exactly the batch's records for the
    pair, the permanent and stored lists not being consulted. *)
Lemma getCurrentAttendance_after_save folder day records st b :
  b ∈ records -> folderName b = folder -> date b = day ->
  getCurrentAttendance folder day (saveAttendanceRecords records st)
  = (batchFor folder day records, saveAttendanceRecords records st).
Proof.
  intros Hb Hf Hd. unfold getCurrentAttendance.
  change (currentAttendance (saveAttendanceRecords records st)) with records.
  fold (batchFor folder day records).
  rewrite bool_decide_true by (eapply batchFor_nonempty; eauto).
  reflexivity.
Qed.

(** The by-folder query after a save: the batch's records for the pair come
    back twice, once from the in-memory list and once from storage. *)
Lemma getAttendanceByFolder_after_save folder day records st b :
  b ∈ records -> folderName b = folder -> date b = day -> day <> "" ->
  (getAttendanceByFolder folder day (saveAttendanceRecords records st)).1
  = batchFor folder day records ++ batchFor folder day records.
Proof.
  intros Hb Hf Hd Hday. unfold getAttendanceByFolder.
  rewrite bool_decide_false by exact Hday.
  change (stored_attendance (saveAttendanceRecords records st))
    with (Some (attendance (saveAttendanceRecords records st))).
  cbn [default from_option id fst]. rewrite filter_app.
  fold (batchFor folder day (attendance (saveAttendanceRecords records st))).
  rewrite (batchFor_after_save folder day records st b Hb Hf Hd).
  reflexivity.
Qed.

(** C3.  The code at the failing input: after saving A and B for
    (F, 2024-01-01) and then A alone, [getAttendanceByFolder] returns A's
    record twice, where the saved batch holds it once;
    [getCurrentAttendance] returns the batch. *)
Theorem getAttendanceByFolder_duplicates_saved_batch :
  let recA := mkRecord "A" "2024-01-01" present "F" in
  let recB := mkRecord "B" "2024-01-01" half_day "F" in
  let st2 := saveAttendanceRecords [recA]
               (saveAttendanceRecords [recA; recB] emptyLedger) in
  attendance st2 = [recA] /\
  stored_attendance st2 = Some [recA] /\
  (getAttendanceByFolder "F" "2024-01-01" st2).1 = [recA; recA] /\
  (getCurrentAttendance "F" "2024-01-01" st2).1 = [recA].
Proof. vm_compute. repeat split; reflexivity. Qed.

End AttendanceFacts.

Section AdvanceFacts.
Import Js Reports.
Context `{Runtime}.

Lemma settle_deducted sel end_ stamp adv :
  isDeducted adv = true -> settle sel end_ stamp adv = adv.
Proof.
  intros Hd. unfold settle. rewrite Hd.
  rewrite andb_false_r. reflexivity.
Qed.

Lemma settle_cases sel end_ stamp adv :
  (settle sel end_ stamp adv = adv /\
   (bool_decide (workerId adv ∈ sel) && onOrBefore (date adv) end_
      && negb (isDeducted adv)) = false)
  \/
  (isDeducted adv = false /\ workerId adv ∈ sel /\
   onOrBefore (date adv) end_ = true /\
   isDeducted (settle sel end_ stamp adv) = true /\
   deducted (settle sel end_ stamp adv) = Some true /\
   deductedOn (settle sel end_ stamp adv) = Some stamp).
Proof.
  unfold settle.
  destruct (bool_decide (workerId adv ∈ sel) && onOrBefore (date adv) end_
            && negb (isDeducted adv)) eqn:E.
  - right.
    apply andb_prop in E as [E Hd]. apply andb_prop in E as [Hs Hdate].
    apply bool_decide_eq_true in Hs. apply negb_true_iff in Hd.
    repeat split; auto.
  - left. auto.
Qed.

Lemma settle_idempotent sel end_ stamp1 stamp2 adv :
  settle sel end_ stamp2 (settle sel end_ stamp1 adv) = settle sel end_ stamp1 adv.
Proof.
  destruct (settle_cases sel end_ stamp1 adv) as [[Hsame Hcond] | (_ & _ & _ & Hd & _)].
  - rewrite Hsame. unfold settle. rewrite Hcond. reflexivity.
  - apply settle_deducted. exact Hd.
Qed.

Lemma updatedAdvances_idempotent sel end_ clock1 clock2 advs :
  updatedAdvances sel end_ clock2 (updatedAdvances sel end_ clock1 advs)
  = updatedAdvances sel end_ clock1 advs.
Proof.
  unfold updatedAdvances. apply list_eq. intros i.
  rewrite !list_lookup_imap.
  destruct (advs !! i) as [adv |]; simpl; [| reflexivity].
  f_equal. apply settle_idempotent.
Qed.

Lemma elem_of_workerAdvances a advs worker end_ sel :
  a ∈ workerAdvances advs worker end_ sel <->
  a ∈ advs /\ workerId a = Workers.id worker /\ onOrBefore (date a) end_ = true /\
  isDeducted a = false /\ Workers.id worker ∈ sel.
Proof.
  unfold workerAdvances. rewrite list_elem_of_filter.
  rewrite !andb_True, !bool_decide_spec, negb_True, Is_true_false, Is_true_true.
  tauto.
Qed.

(** What a later run can still consume from a settled list was out of the
    settlement's reach. *)
Lemma workerAdvances_after_settlement sel end_ clock advs worker end2 sel2 a :
  a ∈ workerAdvances (updatedAdvances sel end_ clock advs) worker end2 sel2 ->
  a ∈ advs /\ isDeducted a = false /\
  ~ (workerId a ∈ sel /\ onOrBefore (date a) end_ = true).
Proof.
  intros Ha. apply elem_of_workerAdvances in Ha as (Hin & Hw & Hdate & Hd & Hsel).
  apply elem_of_lookup_imap in Hin as (i & a0 & -> & Hi).
  destruct (settle_cases sel end_ (clock i) a0)
    as [[Hsame Hcond] | (_ & _ & _ & Hd' & _)]; [| congruence].
  rewrite Hsame in *. split; [eapply list_elem_of_lookup_2; eauto |].
  split; [exact Hd |]. intros [Hs Hb].
  rewrite Hd, Hb, (bool_decide_true _ Hs) in Hcond. discriminate.
Qed.

Lemma workerAdvances_same_run_empty sel end_ clock advs worker :
  workerAdvances (settlementWriteBack true sel end_ clock advs) worker end_ sel = [].
Proof.
  apply elem_of_nil_inv. intros a Ha.
  unfold settlementWriteBack, writesBack in Ha. simpl in Ha.
  destruct (bool_decide (0 < length sel)%nat) eqn:Hsel.
  - pose proof Ha as Ha'.
    apply workerAdvances_after_settlement in Ha as (_ & _ & Hout).
    apply elem_of_workerAdvances in Ha' as (_ & Hw & Hdate & _ & Hs).
    apply Hout. rewrite Hw. auto.
  - apply bool_decide_eq_false in Hsel.
    apply elem_of_workerAdvances in Ha as (_ & _ & _ & _ & Hs).
    destruct sel; [inversion Hs | simpl in Hsel; lia].
Qed.

(** C2.  Running the settlement write-back a second time with the same
    selected worker ids and end date leaves the advances as the first run
    left them, whatever the clock reads; an advance that is already
    deducted is returned unchanged, and an advance the write-back changes
    was not deducted before and is stamped then.  What a later report can
    still deduct from the settled list was out of the settlement's reach (its
    worker not selected, or dated after the end date), so regenerating
    with the same selection and end date deducts nothing. *)
Theorem settlement_at_most_once
    (deductAdvance : bool) (sel : list string) (end_ : Z)
    (clock1 clock2 : nat -> string) (advs : list Advance) :
  let once := settlementWriteBack deductAdvance sel end_ clock1 advs in
  settlementWriteBack deductAdvance sel end_ clock2 once = once /\
  (forall stamp adv, isDeducted adv = true -> settle sel end_ stamp adv = adv) /\
  (forall stamp adv, settle sel end_ stamp adv <> adv ->
     isDeducted adv = false /\
     deducted (settle sel end_ stamp adv) = Some true /\
     deductedOn (settle sel end_ stamp adv) = Some stamp) /\
  (forall worker end2 sel2 a,
     a ∈ workerAdvances (updatedAdvances sel end_ clock1 advs) worker end2 sel2 ->
     a ∈ advs /\ isDeducted a = false /\
     ~ (workerId a ∈ sel /\ onOrBefore (date a) end_ = true)) /\
  (forall worker folder rates dates attendance_,
     workerAdvances (settlementWriteBack true sel end_ clock1 advs) worker end_ sel = [] /\
     advanceDeducted
       (reportRow true sel folder rates dates end_ attendance_
          (settlementWriteBack true sel end_ clock1 advs) worker) = Num 0).
Proof.
  intros once. subst once.
  split; [| split; [| split; [| split]]].
  - unfold settlementWriteBack.
    destruct (writesBack deductAdvance sel); [| reflexivity].
    apply updatedAdvances_idempotent.
  - intros stamp adv Hd. apply settle_deducted, Hd.
  - intros stamp adv Hne.
    destruct (settle_cases sel end_ stamp adv)
      as [[Hsame _] | (Hd & _ & _ & _ & Hd' & Hs)]; [contradiction | auto].
  - intros worker end2 sel2 a Ha.
    eapply workerAdvances_after_settlement; eauto.
  - intros worker folder rates dates attendance_. split.
    + apply workerAdvances_same_run_empty.
    + unfold reportRow. rewrite workerAdvances_same_run_empty. reflexivity.
Qed.

(** C5, amended.  [loadWorkersWithAdvance] keeps, in stored order, exactly the
    advances that are not deducted and whose worker is registered with the
    selected folder among its folders; the advance's date is not looked at.
    Without a stored [advances] item the previous list stays. *)
Theorem loadWorkersWithAdvance_exact
    (workers : list Workers.Worker) (selectedFolder : string)
    (advs prev : list Advance) (adv : Advance) :
  (adv ∈ loadWorkersWithAdvance workers selectedFolder (Some advs) prev <->
   adv ∈ advs /\ isDeducted adv = false /\
   exists w, w ∈ workers /\ Workers.id w = workerId adv /\
             selectedFolder ∈ Workers.folders w) /\
  loadWorkersWithAdvance workers selectedFolder (Some advs) prev `sublist_of` advs /\
  loadWorkersWithAdvance workers selectedFolder None prev = prev.
Proof.
  split; [| split; [apply sublist_filter | reflexivity]].
  unfold loadWorkersWithAdvance, workerExists.
  rewrite list_elem_of_filter, andb_True, negb_True, Is_true_false.
  rewrite Is_true_true, List.existsb_exists.
  split.
  - intros [[Hd (w & Hw & Hc)] Hin].
    apply andb_prop in Hc as [Hid Hf].
    apply bool_decide_eq_true in Hid. apply bool_decide_eq_true in Hf.
    apply list_elem_of_In in Hw. eauto 8.
  - intros (Hin & Hd & w & Hw & Hid & Hf).
    split; [split; [exact Hd |] | exact Hin].
    exists w. split; [apply list_elem_of_In; exact Hw |].
    apply andb_true_intro. split; apply bool_decide_eq_true; assumption.
Qed.




End AdvanceFacts.

Section AdvanceExamples.
Import Js Reports Examples.

Lemma settlement_at_most_once_witness :
  let advs := [ashaAdvance "2024-01-02"] in
  let once := @settlementWriteBack exampleRuntime true ["w1"] 2 (fun _ => "t1") advs in
  isDeducted <$> once = [true] /\
  @settlementWriteBack exampleRuntime true ["w1"] 2 (fun _ => "t2") once = once /\
  @workerAdvances exampleRuntime once asha 2 ["w1"] = [].
Proof.
  intros advs once. split; [reflexivity |]. split.
  - exact (proj1 (@settlement_at_most_once exampleRuntime true ["w1"] 2
                    (fun _ => "t1") (fun _ => "t2") advs)).
  - reflexivity.
Defined.

(** C5 as stated fails: an advance dated 2024-02-01 is returned although
    it is later than an as-of date of 2024-01-01 (day 0 of the example
    runtime); the function takes no date at all. *)
Lemma loadWorkersWithAdvance_date_counterexample :
  let adv := ashaAdvance "2024-02-01" in
  let asOfDate := 0 in
  loadWorkersWithAdvance [asha] "F" (Some [adv]) [] = [adv] /\
  @onOrBefore exampleRuntime (date adv) asOfDate = false.
Proof. split; reflexivity. Qed.

Lemma loadWorkersWithAdvance_exact_witness :
  ashaAdvance "2024-02-01" ∈ [ashaAdvance "2024-02-01"] /\
  isDeducted (ashaAdvance "2024-02-01") = false.
Proof.
  pose proof (proj1 (proj1 (loadWorkersWithAdvance_exact [asha] "F"
                [ashaAdvance "2024-02-01"] [] (ashaAdvance "2024-02-01")))) as Hw.
  assert (Hin : ashaAdvance "2024-02-01"
                ∈ loadWorkersWithAdvance [asha] "F" (Some [ashaAdvance "2024-02-01"]) [])
    by (vm_compute; constructor).
  destruct (Hw Hin) as (H1 & H2 & _). exact (conj H1 H2).
Defined.



End AdvanceExamples.

Section GenerateFacts.
Import Js Reports Generate.
Context `{Runtime}.

Ltac run_generateReport :=
  unfold generateReport, mbind, Run_bind, mret, Run_ret, getWorld, modify, throw,
    setItemAdvances, exportDocument, storeSavedReports, share;
  cbn zeta.

(** C4, amended.  When the settlement write fails the run throws with the
    stored advances, the stored and in-memory report lists and the
    documents all as they were.  When the export fails the run throws
    before any report entry is stored, with no document added; the
    settlement write-back, which comes first, has been stored by then: the
    advances it settled stay settled. *)
Theorem generateReport_failures
    (env : Env) (s : Settings) (folder : string) (start end_ : Z) (w : World) :
  let out := generateReport env s folder start end_ w in
  (writesBack (deductAdvance s) (selectedAdvanceWorkers s) = true ->
   advancesWriteOk env = false ->
   thrown out.1 /\
   saved_reports out.2 = saved_reports w /\
   savedReports out.2 = savedReports w /\
   documents out.2 = documents w /\
   advancesStored out.2 = advancesStored w) /\
  (exportOk env = false ->
   thrown out.1 /\
   saved_reports out.2 = saved_reports w /\
   savedReports out.2 = savedReports w /\
   documents out.2 = documents w /\
   (writesBack (deductAdvance s) (selectedAdvanceWorkers s) = true ->
    advancesWriteOk env = true ->
    Workers.getWorkersByFolder (workers s) folder <> [] ->
    is_Some (ratesFor s folder) ->
    advancesStored out.2
    = Some (updatedAdvances (selectedAdvanceWorkers s) end_ (settleClock env)
              (default [] (advancesStored w))))).
Proof.
  intros out. subst out. split.
  - intros Hwb Hfail. run_generateReport. rewrite Hwb, Hfail.
    destruct (bool_decide _); [unfold thrown; simpl; eauto 6 |].
    destruct (ratesFor s folder) as [rates |]; unfold thrown; simpl; eauto 6.
  - intros Hfail. run_generateReport. rewrite Hfail.
    destruct (bool_decide _) eqn:Hworkers.
    { unfold thrown; simpl. repeat split; eauto.
      intros _ _ Hne. apply bool_decide_eq_true in Hworkers.
      destruct (Workers.getWorkersByFolder _ _); [contradiction | discriminate]. }
    destruct (ratesFor s folder) as [rates |].
    2: { unfold thrown; simpl. repeat split; eauto.
         intros _ _ _ [r Hr]. discriminate. }
    destruct (writesBack _ _), (advancesWriteOk env);
      unfold thrown; simpl; repeat split; eauto; intros; discriminate.
Qed.

End GenerateFacts.

Section GenerateExamples.
Import Js Reports Generate Examples.

(** C4 as stated fails.  Asha's advance of 300 is consumed by the run (her
    row deducts 300 from 850); the export then fails: the run throws and
    stores no report entry, but the advance is stored as deducted.  The
    retry, with the export working, produces a document whose row deducts
    nothing and pays the full 850. *)
Lemma generateReport_export_failure_counterexample :
  let out := @generateReport exampleRuntime (env true false) settings "F" 0 2 world in
  let retry := @generateReport exampleRuntime (env true true) settings "F" 0 2 out.2 in
  exportOk (env true false) = false /\
  (fun row => (totalPayment row, advanceDeducted row, netPayment row))
    <$> @reportData exampleRuntime true ["w1"] "F" (mkRates "600" "250") [0; 1; 2] 2
          ashaAttendance [ashaAdvance "2024-01-02"] [asha]
    = [(Num 850, Num 300, Num 550)] /\
  out.1 = Thrown "export failed" /\
  saved_reports out.2 = None /\
  isDeducted <$> default [] (advancesStored world) = [false] /\
  isDeducted <$> default [] (advancesStored out.2) = [true] /\
  (fun d => (fun row => (totalPayment row, advanceDeducted row, netPayment row))
              <$> rows d.2) <$> documents retry.2
    = [[(Num 850, Num 0, Num 850)]].
Proof. vm_compute. repeat split; reflexivity. Qed.

Lemma generateReport_failures_witness :
  let out := @generateReport exampleRuntime (env false true) settings "F" 0 2 world in
  writesBack (deductAdvance settings) (selectedAdvanceWorkers settings) = true /\
  advancesWriteOk (env false true) = false /\
  thrown out.1 /\
  saved_reports out.2 = saved_reports world /\
  savedReports out.2 = savedReports world /\
  documents out.2 = documents world /\
  advancesStored out.2 = advancesStored world.
Proof.
  intros out. split; [reflexivity |]. split; [reflexivity |].
  exact (proj1 (@generateReport_failures exampleRuntime (env false true) settings
                  "F" 0 2 world) eq_refl eq_refl).
Defined.

End GenerateExamples.

Section AdvanceEntryFacts.
Import Js Advances.
Context `{Runtime}.

(** C9, amended.  A submission with at least one selected worker and a
    non-empty amount appends one entry per selected worker, in selection
    order, after the entries already there.  Each new entry carries the
    worker's id, the amount, the day and the remarks of the form, and has
    no [deducted] and no [deductedOn] field; read as [!adv.deducted] it
    counts as not deducted. *)
Theorem addAdvance_entries
    (clock : nat -> string) (writeOk : bool) (workers : list Workers.Worker)
    (selectedWorkers : list string) (amount_ remarks_ : string)
    (selectedDate : Z) (st : Screen) :
  selectedWorkers <> [] -> amount_ <> "" ->
  let st' := addAdvance clock writeOk workers selectedWorkers amount_ remarks_
               selectedDate st in
  exists newAdvances,
    advances st' = advances st ++ newAdvances /\
    length newAdvances = length selectedWorkers /\
    (forall i workerId_, selectedWorkers !! i = Some workerId_ ->
       exists adv, newAdvances !! i = Some adv /\
         workerId adv = workerId_ /\
         id adv = clock i +:+ workerId_ /\
         amount adv = amount_ /\
         date adv = isoDay selectedDate /\
         remarks adv = remarks_ /\
         deducted adv = None /\
         deductedOn adv = None /\
         isDeducted adv = false) /\
    advancesItem st' = (if writeOk then Some (advances st') else advancesItem st).
Proof.
  intros Hsel Hamount st'. subst st'. unfold addAdvance.
  rewrite bool_decide_true by (destruct selectedWorkers; [congruence | simpl; lia]).
  unfold nonEmpty. rewrite bool_decide_false by exact Hamount. simpl.
  eexists. split; [reflexivity |]. split; [apply length_imap |].
  split; [| reflexivity].
  intros i w Hi. eexists. split.
  - rewrite list_lookup_imap, Hi. reflexivity.
  - repeat split.
Qed.

End AdvanceEntryFacts.

Section AdvanceEntryExamples.
Import Js Advances Examples.

(** C9 as stated fails: the entry created for Asha has no [deducted] field,
    where the claim has the field present with value false. *)
Lemma addAdvance_deducted_counterexample :
  let st' := @addAdvance exampleRuntime (fun _ => "1700000000000") true [asha]
               ["w1"] "300" "" 1 (mkScreen [] None) in
  advances st' = [ashaAdvance "2024-01-02"] /\
  deducted (ashaAdvance "2024-01-02") = None /\
  deducted (ashaAdvance "2024-01-02") <> Some false.
Proof. vm_compute. repeat split; congruence. Qed.

Lemma addAdvance_entries_witness :
  let st' := @addAdvance exampleRuntime (fun _ => "1700000000000") true [asha]
               ["w1"; "w2"] "300" "" 1 (mkScreen [] None) in
  ["w1"; "w2"] <> [] /\ "300" <> "" /\
  exists newAdvances,
    advances st' = [] ++ newAdvances /\ length newAdvances = 2%nat.
Proof.
  intros st'.
  assert (Hsel : ["w1"; "w2"] <> @nil string) by discriminate.
  assert (Hamount : "300" <> "") by discriminate.
  split; [exact Hsel |]. split; [exact Hamount |].
  destruct (@addAdvance_entries exampleRuntime (fun _ => "1700000000000") true [asha]
              ["w1"; "w2"] "300" "" 1 (mkScreen [] None) Hsel Hamount)
    as (news & Happ & Hlen & _).
  exists news. split; [exact Happ | exact Hlen].
Defined.

End AdvanceEntryExamples.


(* ===================================================================== *)
(** * Further properties of the attendance ledger *)
(* ===================================================================== *)

Section LedgerFacts.
Import Attendance AttendanceOps.

Lemma batchFor_app folder day l1 l2 :
  batchFor folder day (l1 ++ l2) = batchFor folder day l1 ++ batchFor folder day l2.
Proof. unfold batchFor. apply filter_app. Qed.

Lemma elem_of_batchFor folder day l r :
  r ∈ batchFor folder day l <-> r ∈ l /\ folderName r = folder /\ date r = day.
Proof.
  unfold batchFor, inFolderOn. rewrite list_elem_of_filter. tauto.
Qed.

Lemma batchFor_nil_iff folder day l :
  batchFor folder day l = [] <->
  forall r, r ∈ l -> ~ (folderName r = folder /\ date r = day).
Proof.
  split.
  - intros Hnil r Hr Hpair.
    assert (Hin : r ∈ batchFor folder day l) by (apply elem_of_batchFor; tauto).
    rewrite Hnil in Hin. inversion Hin.
  - intros Hnone. apply elem_of_nil_inv. intros r Hr.
    apply elem_of_batchFor in Hr as [Hr Hpair]. exact (Hnone r Hr Hpair).
Qed.

Lemma length_pos_iff {A} (l : list A) : (0 < length l)%nat <-> l <> [].
Proof. destruct l; simpl; split; intros; try congruence; lia. Qed.

(** X1.  Saving a batch and asking the working set for one of its pairs gives
    back the batch's records of that pair, in batch order, and changes
    nothing. *)
Theorem save_then_getCurrentAttendance
    (folder day : string) (records : list AttendanceRecord) (st : Ledger)
    (b : AttendanceRecord) :
  b ∈ records -> folderName b = folder -> date b = day ->
  getCurrentAttendance folder day (saveAttendanceRecords records st)
  = (batchFor folder day records, saveAttendanceRecords records st).
Proof.
  intros Hb Hf Hd. unfold getCurrentAttendance.
  cbn [saveAttendanceRecords currentAttendance].
  fold (batchFor folder day records).
  rewrite bool_decide_true; [reflexivity |].
  apply length_pos_iff. intros Hnil.
  apply (proj1 (batchFor_nil_iff folder day records) Hnil b Hb). auto.
Qed.

Lemma save_then_getCurrentAttendance_witness :
  let a := mkRecord "w1" "2024-03-01" present "Site" in
  let b := mkRecord "w2" "2024-03-01" absent "Yard" in
  (getCurrentAttendance "Site" "2024-03-01"
     (saveAttendanceRecords [a; b] emptyLedger)).1 = [a].
Proof.
  intros a b.
  rewrite (save_then_getCurrentAttendance "Site" "2024-03-01" [a; b] emptyLedger a
             ltac:(constructor) eq_refl eq_refl).
  reflexivity.
Defined.

(** Saving a batch and asking [getAttendanceByFolder] for one of its pairs
    gives the batch's records of that pair twice over, whatever the ledger
    held before. *)
Theorem save_then_getAttendanceByFolder
    (folder day : string) (records : list AttendanceRecord) (st : Ledger)
    (b : AttendanceRecord) :
  b ∈ records -> folderName b = folder -> date b = day -> day <> "" ->
  (getAttendanceByFolder folder day (saveAttendanceRecords records st)).1
  = batchFor folder day records ++ batchFor folder day records.
Proof. apply getAttendanceByFolder_after_save. Qed.

Lemma save_then_getAttendanceByFolder_witness :
  let a := mkRecord "w1" "2024-03-01" present "Site" in
  (getAttendanceByFolder "Site" "2024-03-01"
     (saveAttendanceRecords [a] emptyLedger)).1 = [a; a].
Proof.
  intros a.
  rewrite (save_then_getAttendanceByFolder "Site" "2024-03-01" [a] emptyLedger a
             ltac:(constructor) eq_refl eq_refl ltac:(discriminate)).
  reflexivity.
Defined.

(** With a date given, [getAttendanceByFolder] returns the records of the
    all-dates query that carry that date, and leaves the same ledger. *)
Theorem getAttendanceByFolder_date_filters_all
    (folder day : string) (st : Ledger) :
  day <> "" ->
  (getAttendanceByFolder folder day st).1
  = filter (fun r => date r = day) (getAttendanceByFolder folder "" st).1 /\
  (getAttendanceByFolder folder day st).2 = (getAttendanceByFolder folder "" st).2 /\
  (forall r, r ∈ (getAttendanceByFolder folder "" st).1 <->
             (r ∈ attendance st \/ r ∈ default [] (stored_attendance st)) /\
             folderName r = folder).
Proof.
  intros Hday. unfold getAttendanceByFolder.
  rewrite (bool_decide_false _ Hday). rewrite bool_decide_true by reflexivity.
  cbn [fst snd]. split; [| split; [reflexivity |]].
  - rewrite list_filter_filter. apply list_filter_iff.
    intros r. unfold inFolderOn, inFolder. tauto.
  - intros r. rewrite list_elem_of_filter, elem_of_app. unfold inFolder. tauto.
Qed.

Lemma getAttendanceByFolder_date_filters_all_witness :
  let a := mkRecord "w1" "2024-03-01" present "Site" in
  let b := mkRecord "w1" "2024-03-02" absent "Site" in
  let st := mkLedger [a; b] [] None None in
  (getAttendanceByFolder "Site" "2024-03-02" st).1
  = filter (fun r => date r = "2024-03-02") (getAttendanceByFolder "Site" "" st).1.
Proof.
  intros a b st.
  exact (proj1 (getAttendanceByFolder_date_filters_all "Site" "2024-03-02" st
                  ltac:(discriminate))).
Defined.

(** X2.  [getCurrentAttendance] answers from one source only: the working set if
    it has a record of the pair, else the in-memory list if it has one, else
    the stored list.  Every record returned is of the pair, and nothing is
    returned exactly when none of the three holds a record of the pair. *)
Theorem getCurrentAttendance_one_source (folder day : string) (st : Ledger) :
  let res := (getCurrentAttendance folder day st).1 in
  let current := batchFor folder day (currentAttendance st) in
  let permanent := batchFor folder day (attendance st) in
  let stored := batchFor folder day (default [] (stored_attendance st)) in
  (forall r, r ∈ res -> folderName r = folder /\ date r = day) /\
  (current <> [] -> res = current) /\
  (current = [] -> permanent <> [] -> res = permanent) /\
  (current = [] -> permanent = [] -> res = stored) /\
  (res = [] <-> current = [] /\ permanent = [] /\ stored = []).
Proof.
  intros res current permanent stored.
  assert (Hcases :
    (current <> [] /\ res = current) \/
    (current = [] /\ permanent <> [] /\ res = permanent) \/
    (current = [] /\ permanent = [] /\ res = stored)).
  { subst res current permanent stored. unfold getCurrentAttendance.
    fold (batchFor folder day (currentAttendance st)).
    fold (batchFor folder day (attendance st)).
    destruct (decide (batchFor folder day (currentAttendance st) = [])) as [Hc | Hc].
    - rewrite bool_decide_false by (rewrite length_pos_iff; tauto).
      destruct (decide (batchFor folder day (attendance st) = [])) as [Hp | Hp].
      + rewrite bool_decide_false by (rewrite length_pos_iff; tauto).
        right; right. split; [exact Hc |]. split; [exact Hp |].
        destruct (stored_attendance st) as [l |]; [| reflexivity].
        fold (batchFor folder day l). cbn [default from_option id].
        destruct (decide (batchFor folder day l = [])) as [Hs | Hs].
        * rewrite bool_decide_false by (rewrite length_pos_iff; tauto).
          rewrite Hs. reflexivity.
        * rewrite bool_decide_true by (rewrite length_pos_iff; tauto).
          reflexivity.
      + rewrite bool_decide_true by (rewrite length_pos_iff; tauto).
        right; left. auto.
    - rewrite bool_decide_true by (rewrite length_pos_iff; tauto).
      left. auto. }
  split; [| split; [| split; [| split]]].
  - intros r Hr.
    destruct Hcases as [[_ E] | [(_ & _ & E) | (_ & _ & E)]];
      rewrite E in Hr; apply elem_of_batchFor in Hr; tauto.
  - intros Hc. destruct Hcases as [[_ E] | [(E & _) | (E & _)]]; tauto.
  - intros Hc Hp. destruct Hcases as [[E _] | [(_ & _ & E) | (_ & E & _)]]; tauto.
  - intros Hc Hp. destruct Hcases as [[E _] | [(_ & E & _) | (_ & _ & E)]]; tauto.
  - destruct Hcases as [[Hc E] | [(Hc & Hp & E) | (Hc & Hp & E)]];
      rewrite E; split; try tauto; intros; congruence.
Qed.

Lemma getCurrentAttendance_one_source_witness :
  let stale := mkRecord "w1" "2024-03-01" absent "Site" in
  let fresh := mkRecord "w1" "2024-03-01" present "Site" in
  let st := mkLedger [fresh] [stale] (Some [fresh]) (Some [stale]) in
  (getCurrentAttendance "Site" "2024-03-01" st).1 = [stale].
Proof.
  intros stale fresh st.
  apply (proj1 (proj2 (getCurrentAttendance_one_source "Site" "2024-03-01" st))).
  discriminate.
Defined.

Lemma filter_comm {A} (P Q : A -> Prop) `{!forall x, Decision (P x)}
    `{!forall x, Decision (Q x)} (l : list A) :
  filter P (filter Q l) = filter Q (filter P l).
Proof.
  rewrite !list_filter_filter. apply list_filter_iff. intros x. tauto.
Qed.

Lemma filter_absorb {A} (P Q : A -> Prop) `{!forall x, Decision (P x)}
    `{!forall x, Decision (Q x)} (l : list A) :
  (forall x, P x -> Q x) -> filter P (filter Q l) = filter P l.
Proof.
  intros Himp. rewrite list_filter_filter. apply list_filter_iff.
  intros x. split; [tauto | auto].
Qed.

(** X3.  Once a save has run, the in-memory lists mirror storage; deletions,
    reloads and both queries keep it so, and a hook mounted afresh over the
    same storage reloads to the very same ledger. *)
Theorem inSync_invariant (st : Ledger) (records : list AttendanceRecord)
    (folder day : string) :
  inSync (saveAttendanceRecords records st) /\
  (inSync st ->
     inSync (deleteRecordsByDate folder day st) /\
     inSync (deleteAllFolderRecords folder st) /\
     loadAttendance st = st /\
     (getAttendanceByFolder folder day st).2 = st /\
     (getCurrentAttendance folder day st).2 = st /\
     loadAttendance (mount st) = st).
Proof.
  split; [split; reflexivity |].
  intros [Ha Hc]. destruct st as [att cur sa sc]. simpl in Ha, Hc. subst sa sc.
  repeat split.
  - unfold getAttendanceByFolder. simpl. destruct (bool_decide _); reflexivity.
  - unfold getCurrentAttendance. simpl.
    repeat (destruct (bool_decide _); try reflexivity).
Qed.

Lemma inSync_invariant_witness :
  let a := mkRecord "w1" "2024-03-01" present "Site" in
  let st := saveAttendanceRecords [a] emptyLedger in
  inSync st /\ loadAttendance (mount st) = st.
Proof.
  intros a st.
  pose proof (inSync_invariant st [] "Site" "2024-03-01") as [_ Hkeep].
  pose proof (inSync_invariant emptyLedger [a] "Site" "2024-03-01") as [Hsave _].
  split; [exact Hsave |]. apply Hkeep. exact Hsave.
Defined.

(** X4.  [deleteRecordsByDate] removes from the in-memory and stored lists the
    records of the pair and nothing else, keeping the order; but it leaves
    the working set alone: after a save and the deletion of a pair of the
    batch, [getCurrentAttendance] still returns the deleted records, also
    from a hook mounted afterwards. *)
Theorem deleteRecordsByDate_leaves_working_set
    (folder day : string) (records : list AttendanceRecord) (st : Ledger)
    (b : AttendanceRecord) :
  b ∈ records -> folderName b = folder -> date b = day ->
  let st' := deleteRecordsByDate folder day (saveAttendanceRecords records st) in
  (forall r, r ∈ attendance st' <->
             r ∈ attendance (saveAttendanceRecords records st) /\
             ~ (folderName r = folder /\ date r = day)) /\
  stored_attendance st' = Some (attendance st') /\
  batchFor folder day (attendance st') = [] /\
  (getCurrentAttendance folder day st').1 = batchFor folder day records /\
  (getCurrentAttendance folder day (loadAttendance (mount st'))).1
  = batchFor folder day records /\
  batchFor folder day records <> [].
Proof.
  intros Hb Hf Hd st'.
  assert (Hne : batchFor folder day records <> []).
  { apply length_pos_iff. eapply batchFor_nonempty; eauto. }
  assert (Hcur : forall l s, (getCurrentAttendance folder day
                     (mkLedger l records s (Some records))).1
                   = batchFor folder day records).
  { intros l s. unfold getCurrentAttendance. cbn [currentAttendance].
    fold (batchFor folder day records).
    rewrite bool_decide_true by (apply length_pos_iff; exact Hne). reflexivity. }
  split; [| split; [reflexivity | split; [| split; [| split]]]].
  - intros r. subst st'. unfold deleteRecordsByDate.
    cbn [attendance]. rewrite list_elem_of_filter. tauto.
  - apply batchFor_nil_iff. intros r Hr. subst st'.
    unfold deleteRecordsByDate in Hr. cbn [attendance] in Hr.
    apply list_elem_of_filter in Hr. tauto.
  - apply Hcur.
  - apply Hcur.
  - exact Hne.
Qed.

Lemma deleteRecordsByDate_leaves_working_set_witness :
  let a := mkRecord "w1" "2024-03-01" present "Site" in
  let st' := deleteRecordsByDate "Site" "2024-03-01"
               (saveAttendanceRecords [a] emptyLedger) in
  attendance st' = [] /\
  (getCurrentAttendance "Site" "2024-03-01" st').1 = [a].
Proof.
  intros a st'. split; [reflexivity |].
  destruct (deleteRecordsByDate_leaves_working_set "Site" "2024-03-01" [a]
              emptyLedger a ltac:(constructor) eq_refl eq_refl)
    as (_ & _ & _ & Hcur & _).
  exact Hcur.
Defined.

(** X5.  The deletions compose as one expects: deleting a pair twice is deleting
    it once, deleting two pairs can be done in either order, and deleting a
    whole folder makes an earlier deletion of one of its dates redundant. *)
Theorem deletions_compose (folder day folder2 day2 : string) (st : Ledger) :
  deleteRecordsByDate folder day (deleteRecordsByDate folder day st)
  = deleteRecordsByDate folder day st /\
  deleteRecordsByDate folder day (deleteRecordsByDate folder2 day2 st)
  = deleteRecordsByDate folder2 day2 (deleteRecordsByDate folder day st) /\
  deleteAllFolderRecords folder (deleteRecordsByDate folder day st)
  = deleteAllFolderRecords folder st /\
  deleteAllFolderRecords folder (deleteAllFolderRecords folder st)
  = deleteAllFolderRecords folder st /\
  (forall r, r ∈ attendance (deleteAllFolderRecords folder st) <->
             r ∈ attendance st /\ folderName r <> folder) /\
  (forall d, (getAttendanceByFolder folder d (deleteAllFolderRecords folder st)).1 = []).
Proof.
  unfold deleteRecordsByDate, deleteAllFolderRecords; cbn [attendance currentAttendance
    stored_attendance stored_currentAttendance].
  split; [| split; [| split; [| split; [| split]]]].
  - rewrite filter_absorb by auto. reflexivity.
  - rewrite filter_comm. reflexivity.
  - rewrite filter_absorb by (intros x Hx [Hf _]; auto). reflexivity.
  - rewrite filter_absorb by auto. reflexivity.
  - intros r. rewrite list_elem_of_filter. tauto.
  - intros d. unfold getAttendanceByFolder.
    cbn [attendance stored_attendance default from_option id].
    assert (Hnone : forall P `{!forall x, Decision (P x)},
              (forall x : AttendanceRecord, P x -> folderName x = folder) ->
              filter P (filter (fun record => folderName record <> folder) (attendance st)
                        ++ filter (fun record => folderName record <> folder) (attendance st))
              = []).
    { intros P HP Himp. apply elem_of_nil_inv. intros r Hr.
      apply list_elem_of_filter in Hr as [HPr Hr]. apply Himp in HPr.
      apply elem_of_app in Hr as [Hr | Hr];
        apply list_elem_of_filter in Hr as [Hne _]; contradiction. }
    destruct (bool_decide (d = "")); cbn [fst]; apply Hnone.
    + intros x Hx. exact Hx.
    + intros x [Hx _]. exact Hx.
Qed.

(** X6.  A save keeps the records of every other pair as the hook holds them
    in memory, and stores that list (the dates of the batch being written
    with as many characters as the date asked for, as dates written
    YYYY-MM-DD are).  On a hook whose memory mirrors storage the stored
    records of the other pair are therefore unchanged.  A newly mounted
    hook, which has loaded nothing, stores the batch alone: the records
    storage held for every other pair are lost. *)
Theorem saveAttendanceRecords_keeps_other_pairs
    (folder day : string) (records : list AttendanceRecord) (st : Ledger) :
  (forall b, b ∈ records -> String.length (date b) = String.length day) ->
  (forall b, b ∈ records -> ~ (folderName b = folder /\ date b = day)) ->
  let after := saveAttendanceRecords records st in
  let unloaded := saveAttendanceRecords records (mount st) in
  stored_attendance after = Some (attendance after) /\
  batchFor folder day (attendance after) = batchFor folder day (attendance st) /\
  (inSync st ->
   batchFor folder day (default [] (stored_attendance after))
   = batchFor folder day (default [] (stored_attendance st))) /\
  stored_attendance unloaded = Some records /\
  batchFor folder day (default [] (stored_attendance unloaded)) = [].
Proof.
  intros Hlen Hother after unloaded. subst after unloaded.
  assert (Hnone : batchFor folder day records = [])
    by (apply batchFor_nil_iff; exact Hother).
  assert (Hkept : batchFor folder day
                    (filteredAttendance records (attendance st) ++ records)
                  = batchFor folder day (attendance st)).
  { rewrite batchFor_app, Hnone, app_nil_r. unfold batchFor, filteredAttendance.
    apply filter_absorb. intros r [Hf Hd] Hkey.
    apply elem_of_recordKeys in Hkey as (b & Hb & Hkey).
    destruct (key_inj_equal_length b r) as [Hf' Hd'].
    - rewrite (Hlen b Hb), Hd. reflexivity.
    - exact Hkey.
    - apply (Hother b Hb). split; congruence. }
  cbn [saveAttendanceRecords mount attendance stored_attendance default from_option].
  unfold Datatypes.id.
  split; [reflexivity |]. split; [exact Hkept |]. split; [| split].
  - intros [Hsync _]. rewrite Hsync. cbn [default from_option]. exact Hkept.
  - reflexivity.
  - exact Hnone.
Qed.

(** Attendance saved on 1 March is stored; the screen is mounted anew the
    next day and saves that day's attendance: what is stored then holds no
    record of 1 March. *)
Lemma saveAttendanceRecords_keeps_other_pairs_witness :
  let old := mkRecord "w1" "2024-03-01" present "Site" in
  let new := mkRecord "w1" "2024-03-02" half_day "Site" in
  let st := saveAttendanceRecords [old] emptyLedger in
  stored_attendance st = Some [old] /\
  batchFor "Site" "2024-03-01" (attendance (saveAttendanceRecords [new] st)) = [old] /\
  stored_attendance (saveAttendanceRecords [new] (mount st)) = Some [new] /\
  batchFor "Site" "2024-03-01"
    (default [] (stored_attendance (saveAttendanceRecords [new] (mount st)))) = [].
Proof.
  intros old new st.
  destruct (saveAttendanceRecords_keeps_other_pairs "Site" "2024-03-01" [new] st)
    as (_ & Hkept & _ & Hstored & Hlost).
  - intros b Hb. apply list_elem_of_singleton in Hb. subst b. reflexivity.
  - intros b Hb [_ Hd]. apply list_elem_of_singleton in Hb. subst b. discriminate Hd.
  - split; [reflexivity |]. split; [rewrite Hkept; reflexivity |].
    split; [exact Hstored | exact Hlost].
Defined.

End LedgerFacts.

(* ===================================================================== *)
(** * Marking attendance and reading it back *)
(* ===================================================================== *)

Section MarkAttendanceFacts.
Import Js MarkAttendance.
Context `{Runtime}.

Lemma batchFor_targets dateStr folder worker (folders_ : list string) :
  NoDup folders_ -> folder ∈ folders_ ->
  Attendance.batchFor folder dateStr
    ((fun f => Attendance.mkRecord (id worker) dateStr (status worker) f) <$> folders_)
  = [recordOf dateStr folder worker].
Proof.
  unfold Attendance.batchFor.
  induction folders_ as [| f fs IH]; intros Hnd Hin; [inversion Hin |].
  apply NoDup_cons in Hnd as [Hnotin Hnd].
  rewrite fmap_cons, filter_cons.
  destruct (decide (f = folder)) as [-> | Hne].
  - rewrite decide_True by (split; reflexivity).
    f_equal. apply elem_of_nil_inv. intros r Hr.
    apply list_elem_of_filter in Hr as [[Hf _] Hr].
    apply list_elem_of_fmap in Hr as (f' & -> & Hf'). simpl in Hf. subst f'.
    contradiction.
  - rewrite decide_False by (intros [Hf _]; simpl in Hf; contradiction).
    apply IH; [exact Hnd |].
    apply elem_of_cons in Hin as [-> | Hin]; [contradiction | exact Hin].
Qed.

Lemma batchFor_attendanceRecords dateStr folder (workers_ : list Worker)
    (folders_ : list string) :
  NoDup folders_ -> folder ∈ folders_ ->
  Attendance.batchFor folder dateStr (attendanceRecords workers_ folders_ dateStr)
  = recordOf dateStr folder <$> workers_.
Proof.
  intros Hnd Hin. unfold attendanceRecords.
  induction workers_ as [| w ws IH]; [reflexivity |].
  rewrite bind_cons, batchFor_app, IH, batchFor_targets by assumption.
  reflexivity.
Qed.

Lemma length_attendanceRecords dateStr (workers_ : list Worker) (folders_ : list string) :
  length (attendanceRecords workers_ folders_ dateStr)
  = (length workers_ * length folders_)%nat.
Proof.
  unfold attendanceRecords.
  induction workers_ as [| w ws IH]; [reflexivity |].
  rewrite bind_cons, length_app, length_fmap, IH. simpl. reflexivity.
Qed.

Lemma handleSubmit_getCurrentAttendance (scr : Screen) (folder : string) :
  workers scr <> [] ->
  NoDup (selectedSubmitFolders scr) ->
  folder ∈ selectedSubmitFolders scr ->
  (Attendance.getCurrentAttendance folder (isoDay (selectedDate scr))
     (ledger (handleSubmit scr))).1
  = recordOf (isoDay (selectedDate scr)) folder <$> workers scr /\
  Attendance.batchFor folder (isoDay (selectedDate scr))
    (Attendance.attendance (ledger (handleSubmit scr)))
  = recordOf (isoDay (selectedDate scr)) folder <$> workers scr.
Proof.
  intros Hws Hnd Hin. unfold handleSubmit.
  rewrite bool_decide_false
    by (destruct (selectedSubmitFolders scr); [inversion Hin | discriminate]).
  cbn [ledger]. set (dateStr := isoDay (selectedDate scr)).
  destruct (workers scr) as [| w ws] eqn:Ews; [congruence |].
  assert (Hb : recordOf dateStr folder w
               ∈ attendanceRecords (w :: ws) (selectedSubmitFolders scr) dateStr).
  { unfold attendanceRecords. rewrite bind_cons. apply elem_of_app. left.
    apply list_elem_of_fmap. exists folder. split; [reflexivity | exact Hin]. }
  split.
  - rewrite (getCurrentAttendance_after_save folder dateStr _ _ _ Hb eq_refl eq_refl).
    cbn [fst]. apply batchFor_attendanceRecords; assumption.
  - rewrite (batchFor_after_save folder dateStr _ _ _ Hb eq_refl eq_refl).
    apply batchFor_attendanceRecords; assumption.
Qed.

(** X7.  Submitting the screen for a set of distinct target folders stores, for
    each target folder, one record per listed worker, in list order, with the
    status shown; the batch has one record per worker and folder, and the
    target selection is cleared. *)
Theorem handleSubmit_one_record_per_worker (scr : Screen) (folder : string) :
  workers scr <> [] ->
  NoDup (selectedSubmitFolders scr) ->
  folder ∈ selectedSubmitFolders scr ->
  let dateStr := isoDay (selectedDate scr) in
  let scr' := handleSubmit scr in
  (Attendance.getCurrentAttendance folder dateStr (ledger scr')).1
  = recordOf dateStr folder <$> workers scr /\
  Attendance.batchFor folder dateStr (Attendance.attendance (ledger scr'))
  = recordOf dateStr folder <$> workers scr /\
  length (Attendance.currentAttendance (ledger scr'))
  = (length (workers scr) * length (selectedSubmitFolders scr))%nat /\
  selectedSubmitFolders scr' = [].
Proof.
  intros Hws Hnd Hin dateStr scr'.
  destruct (handleSubmit_getCurrentAttendance scr folder Hws Hnd Hin) as [Hcur Hperm].
  split; [exact Hcur |]. split; [exact Hperm |].
  subst scr'. unfold handleSubmit.
  rewrite bool_decide_false
    by (destruct (selectedSubmitFolders scr); [inversion Hin | discriminate]).
  cbn [ledger selectedSubmitFolders Attendance.saveAttendanceRecords
       Attendance.currentAttendance].
  split; [apply length_attendanceRecords | reflexivity].
Qed.

Lemma statusIn_own_record dateStr folder (workers_ : list Worker) (w : Worker) :
  NoDup (id <$> workers_) -> w ∈ workers_ ->
  statusIn (recordOf dateStr folder <$> workers_) (id w) dateStr = status w.
Proof.
  unfold statusIn.
  induction workers_ as [| v vs IH]; intros Hnd Hin; [inversion Hin |].
  rewrite fmap_cons in Hnd. apply NoDup_cons in Hnd as [Hnotin Hnd].
  rewrite fmap_cons. cbn [List.find recordOf Attendance.workerId Attendance.date].
  rewrite (bool_decide_true (dateStr = dateStr)) by reflexivity.
  rewrite andb_true_r.
  apply elem_of_cons in Hin as [-> | Hin].
  - rewrite bool_decide_true by reflexivity. reflexivity.
  - rewrite bool_decide_false.
    + apply IH; assumption.
    + intros E. apply Hnotin. rewrite E. apply list_elem_of_fmap. eauto.
Qed.

(** X8.  Marking and reading back.  When the listed workers have distinct ids and
    are the workers the hook has for the selected folder, and that folder is
    among the distinct target folders, then reloading the screen after a
    submission shows every worker with the status that was submitted. *)
Theorem handleSubmit_then_loadData
    (hookWorkers : list Workers.Worker) (scr : Screen) :
  workers scr <> [] ->
  NoDup (id <$> workers scr) ->
  NoDup (selectedSubmitFolders scr) ->
  selectedFolder scr ∈ selectedSubmitFolders scr ->
  Workers.id <$> Workers.getWorkersByFolder hookWorkers (selectedFolder scr)
  = id <$> workers scr ->
  let scr' := loadData hookWorkers (handleSubmit scr) in
  id <$> workers scr' = id <$> workers scr /\
  status <$> workers scr' = status <$> workers scr.
Proof.
  intros Hws Hids Hnd Hin Hsame scr'.
  pose proof (handleSubmit_getCurrentAttendance scr (selectedFolder scr) Hws Hnd Hin)
    as [Haux _].
  subst scr'. unfold loadData.
  assert (Hfolder : selectedFolder (handleSubmit scr) = selectedFolder scr).
  { unfold handleSubmit. destruct (bool_decide _); reflexivity. }
  assert (Hdate : selectedDate (handleSubmit scr) = selectedDate scr).
  { unfold handleSubmit. destruct (bool_decide _); reflexivity. }
  assert (Hworkers : workers (handleSubmit scr) = workers scr).
  { unfold handleSubmit. destruct (bool_decide _); reflexivity. }
  rewrite Hfolder, Hdate.
  destruct (bool_decide (selectedFolder scr = ""));
    [rewrite Hworkers; auto |].
  destruct (Attendance.getCurrentAttendance _ _ _) as [existing ledger_] eqn:Eq.
  assert (Hex : existing
                = recordOf (isoDay (selectedDate scr)) (selectedFolder scr) <$> workers scr).
  { exact Haux. }
  cbn [workers]. rewrite <- !list_fmap_compose. split.
  - rewrite <- Hsame. reflexivity.
  - rewrite Hex.
    transitivity ((fun i => statusIn
                     (recordOf (isoDay (selectedDate scr)) (selectedFolder scr)
                        <$> workers scr) i (isoDay (selectedDate scr)))
                  <$> (Workers.id <$>
                         Workers.getWorkersByFolder hookWorkers (selectedFolder scr))).
    { rewrite <- list_fmap_compose. reflexivity. }
    rewrite Hsame, <- list_fmap_compose.
    apply list_fmap_ext. intros i w Hw. unfold compose.
    apply statusIn_own_record; [exact Hids |].
    eapply list_elem_of_lookup_2; eauto.
Qed.

End MarkAttendanceFacts.

Section MarkAttendanceExamples.
Import Js MarkAttendance MarkExamples.

Lemma handleSubmit_one_record_per_worker_witness :
  (Attendance.getCurrentAttendance "G" "2024-01-01"
     (ledger (@handleSubmit exampleRuntime screen))).1
  = [Attendance.mkRecord "w1" "2024-01-01" Attendance.present "G";
     Attendance.mkRecord "w2" "2024-01-01" Attendance.half_day "G"].
Proof.
  assert (Hws : workers screen <> []) by discriminate.
  assert (Hnd : NoDup (selectedSubmitFolders screen))
    by (refine (bool_decide_unpack _ _); vm_compute; exact I).
  assert (Hin : "G" ∈ selectedSubmitFolders screen)
    by (refine (bool_decide_unpack _ _); vm_compute; exact I).
  exact (proj1 (@handleSubmit_one_record_per_worker exampleRuntime screen "G"
                  Hws Hnd Hin)).
Defined.

Lemma handleSubmit_then_loadData_witness :
  status <$> workers (@loadData exampleRuntime hookWorkers
                        (@handleSubmit exampleRuntime screen))
  = [Attendance.present; Attendance.half_day].
Proof.
  assert (Hws : workers screen <> []) by discriminate.
  assert (Hids : NoDup (id <$> workers screen))
    by (refine (bool_decide_unpack _ _); vm_compute; exact I).
  assert (Hnd : NoDup (selectedSubmitFolders screen))
    by (refine (bool_decide_unpack _ _); vm_compute; exact I).
  assert (Hin : selectedFolder screen ∈ selectedSubmitFolders screen)
    by (refine (bool_decide_unpack _ _); vm_compute; exact I).
  assert (Hsame : Workers.id <$> Workers.getWorkersByFolder hookWorkers
                                   (selectedFolder screen)
                  = id <$> workers screen) by (vm_compute; reflexivity).
  exact (proj2 (@handleSubmit_then_loadData exampleRuntime hookWorkers screen
                  Hws Hids Hnd Hin Hsame)).
Defined.

End MarkAttendanceExamples.

(* ===================================================================== *)
(** * Workers: adding, renaming, deleting, listing *)
(* ===================================================================== *)

Section WorkersHookFacts.
Import Workers JsText Generate WorkersHook.
Context `{Text}.

Lemma isDuplicateInFolder_false ws name_ folder :
  isDuplicateInFolder ws name_ folder = false ->
  forall w, w ∈ ws -> folder ∈ folders w ->
            toLowerCase (name w) <> toLowerCase name_.
Proof.
  intros Hfalse w Hw Hf E.
  assert (Htrue : isDuplicateInFolder ws name_ folder = true).
  { unfold isDuplicateInFolder. apply List.existsb_exists. exists w.
    split; [apply list_elem_of_In; exact Hw |].
    apply andb_true_intro. split; apply bool_decide_eq_true; assumption. }
  congruence.
Qed.

Lemma isDuplicateInFolder_true ws name_ folder :
  isDuplicateInFolder ws name_ folder = true ->
  exists w, w ∈ ws /\ folder ∈ folders w /\
            toLowerCase (name w) = toLowerCase name_.
Proof.
  unfold isDuplicateInFolder. intros Htrue.
  apply List.existsb_exists in Htrue as (w & Hw & Hc).
  apply andb_prop in Hc as [Hf Hn].
  apply bool_decide_eq_true in Hf. apply bool_decide_eq_true in Hn.
  exists w. split; [apply list_elem_of_In; exact Hw | auto].
Qed.

(** X9.  [addWorker] either appends one worker, with the trimmed name and the
    folders given, and then no folder holds two workers whose names are equal
    up to letter case if none did before; or it throws, changing nothing,
    because some worker of one of the folders already bears the name. *)
Theorem addWorker_keeps_names_distinct
    (now name_ : string) (folders_ : list string) (st : Hook) :
  distinctNames (workers st) ->
  match addWorker now name_ folders_ st with
  | (Returned w, st') =>
      w = {| id := now; name := trim name_; folders := folders_ |} /\
      workers st' = workers st ++ [w] /\
      stored_workers st' = Some (workers st') /\
      distinctNames (workers st')
  | (Thrown _, st') =>
      st' = st /\
      exists folder w', folder ∈ folders_ /\ w' ∈ workers st /\
        folder ∈ folders w' /\ toLowerCase (name w') = toLowerCase (trim name_)
  end.
Proof.
  intros Hinv. unfold addWorker.
  destruct (List.find _ folders_) as [folder |] eqn:Hfind.
  - split; [reflexivity |].
    apply List.find_some in Hfind as [Hin Hdup].
    apply isDuplicateInFolder_true in Hdup as (w' & Hw' & Hf & Hn).
    exists folder, w'. split; [apply list_elem_of_In; exact Hin | auto].
  - split; [reflexivity |]. split; [reflexivity |]. split; [reflexivity |].
    cbn [setWorkers workers].
    assert (Hfree : forall folder w, folder ∈ folders_ -> w ∈ workers st ->
                      folder ∈ folders w ->
                      toLowerCase (name w) <> toLowerCase (trim name_)).
    { intros folder w Hfolder Hw Hf.
      eapply isDuplicateInFolder_false; eauto.
      eapply List.find_none in Hfind; [exact Hfind |].
      apply list_elem_of_In. exact Hfolder. }
    intros i j wi wj folder Hne Hi Hj Hfi Hfj.
    apply lookup_app_Some in Hi as [Hi | [Hleni Hi]];
      apply lookup_app_Some in Hj as [Hj | [Hlenj Hj]].
    + eapply Hinv; eauto.
    + apply list_lookup_singleton_Some in Hj as [_ <-]. cbn [name folders] in *.
      eapply Hfree; eauto. eapply list_elem_of_lookup_2; eauto.
    + apply list_lookup_singleton_Some in Hi as [_ <-]. cbn [name folders] in *.
      intros E. symmetry in E. revert E.
      eapply Hfree; eauto. eapply list_elem_of_lookup_2; eauto.
    + apply list_lookup_singleton_Some in Hi as [Hi0 _].
      apply list_lookup_singleton_Some in Hj as [Hj0 _]. lia.
Qed.

Lemma rename_id workerId newName w : id (rename workerId newName w) = id w.
Proof. unfold rename. destruct (bool_decide _); reflexivity. Qed.

Lemma rename_folders workerId newName w :
  folders (rename workerId newName w) = folders w.
Proof. unfold rename. destruct (bool_decide _); reflexivity. Qed.

(** X10.  Renaming through the screen keeps every worker's id and folders, and
    when the ids are distinct it keeps the names within each folder distinct
    up to letter case. *)
Theorem handleSaveEdit_keeps_names_distinct
    (editingWorker : option Worker) (editName : string) (st : Hook) :
  NoDup (id <$> workers st) ->
  distinctNames (workers st) ->
  let st' := handleSaveEdit editingWorker editName st in
  id <$> workers st' = id <$> workers st /\
  folders <$> workers st' = folders <$> workers st /\
  distinctNames (workers st').
Proof.
  intros Hids Hinv st'. subst st'. unfold handleSaveEdit.
  destruct editingWorker as [editing |]; [| auto].
  destruct (nonEmpty (trim editName)); [| auto].
  destruct (existsb _ (workers st)) eqn:Hdup; [auto |].
  unfold editWorker. cbn [setWorkers workers].
  split; [| split].
  - rewrite <- list_fmap_compose. apply list_fmap_ext.
    intros i w _. apply rename_id.
  - rewrite <- list_fmap_compose. apply list_fmap_ext.
    intros i w _. apply rename_folders.
  - assert (Hother : forall w, w ∈ workers st -> id w <> id editing ->
                       toLowerCase (name w) <> toLowerCase (trim editName)).
    { intros w Hw Hid E.
      assert (Htrue : existsb
                (fun worker => negb (bool_decide (id worker = id editing))
                   && bool_decide (toLowerCase (name worker)
                                   = toLowerCase (trim editName)))
                (workers st) = true).
      { apply List.existsb_exists. exists w.
        split; [apply list_elem_of_In; exact Hw |].
        apply andb_true_intro. split.
        - apply negb_true_iff, bool_decide_eq_false. exact Hid.
        - apply bool_decide_eq_true. exact E. }
      congruence. }
    intros i j wi' wj' folder Hne Hi Hj Hfi Hfj.
    apply list_lookup_fmap_Some in Hi as (wi & -> & Hi).
    apply list_lookup_fmap_Some in Hj as (wj & -> & Hj).
    rewrite rename_folders in Hfi, Hfj.
    assert (Hidne : id wi <> id wj).
    { intros E. apply Hne. apply (NoDup_lookup _ i j (id wi) Hids);
        rewrite list_lookup_fmap; [rewrite Hi | rewrite Hj]; simpl;
        [reflexivity | congruence]. }
    unfold rename.
    destruct (decide (id wi = id editing)) as [Ei | Ei];
      destruct (decide (id wj = id editing)) as [Ej | Ej].
    + congruence.
    + rewrite (bool_decide_true _ Ei), (bool_decide_false _ Ej). cbn [name].
      intros E. symmetry in E. revert E.
      apply Hother; [eapply list_elem_of_lookup_2; eauto | exact Ej].
    + rewrite (bool_decide_false _ Ei), (bool_decide_true _ Ej). cbn [name].
      apply Hother; [eapply list_elem_of_lookup_2; eauto | exact Ei].
    + rewrite (bool_decide_false _ Ei), (bool_decide_false _ Ej).
      eapply Hinv; eauto.
Qed.

Lemma workers_foldl_deleteWorker (ids : list string) : forall st,
  workers (foldl (fun st' workerId => deleteWorker workerId st') st ids)
  = filter (fun w => id w ∉ ids) (workers st).
Proof.
  induction ids as [| a ids IH]; intros st; cbn [foldl].
  - symmetry. induction (workers st) as [| w l IHl]; [reflexivity |].
    rewrite filter_cons, decide_True by (intros E; inversion E). f_equal. exact IHl.
  - rewrite IH. unfold deleteWorker. cbn [setWorkers workers].
    rewrite list_filter_filter. apply list_filter_iff.
    intros w. rewrite not_elem_of_cons. tauto.
Qed.

(** X11.  Deleting several workers at once is deleting them one after the other:
    exactly the workers whose id is listed go, from the hook and from every
    folder's list, and the rest stay in order. *)
Theorem deleteMultipleWorkers_as_deleteWorker (ids : list string) (st : Hook) :
  workers (deleteMultipleWorkers ids st)
  = workers (foldl (fun st' workerId => deleteWorker workerId st') st ids) /\
  (forall w, w ∈ workers (deleteMultipleWorkers ids st) <->
             w ∈ workers st /\ id w ∉ ids) /\
  (forall folder,
     getWorkersByFolder (workers (deleteMultipleWorkers ids st)) folder
     = filter (fun w => id w ∉ ids) (getWorkersByFolder (workers st) folder)) /\
  stored_workers (deleteMultipleWorkers ids st)
  = Some (workers (deleteMultipleWorkers ids st)).
Proof.
  split; [| split; [| split; [| reflexivity]]].
  - rewrite workers_foldl_deleteWorker. reflexivity.
  - intros w. unfold deleteMultipleWorkers. cbn [setWorkers workers].
    rewrite list_elem_of_filter. tauto.
  - intros folder. unfold deleteMultipleWorkers, getWorkersByFolder.
    cbn [setWorkers workers].
    rewrite !list_filter_filter. apply list_filter_iff. intros w. tauto.
Qed.

Lemma mapSet_keys {V} (m : list (string * V)) k v :
  fst <$> mapSet m k v
  = if bool_decide (k ∈ fst <$> m) then fst <$> m else (fst <$> m) ++ [k].
Proof.
  induction m as [| [k' v'] m IH]; [reflexivity |].
  cbn [mapSet]. destruct (decide (k' = k)) as [-> | Hne].
  - rewrite bool_decide_true by reflexivity.
    rewrite bool_decide_true by (rewrite fmap_cons; left).
    reflexivity.
  - rewrite (bool_decide_false _ Hne), !fmap_cons, IH. cbn [fst].
    destruct (decide (k ∈ fst <$> m)) as [Hin | Hnotin].
    + rewrite !bool_decide_true; [reflexivity | right; exact Hin | exact Hin].
    + rewrite !bool_decide_false; [reflexivity | | exact Hnotin].
      rewrite not_elem_of_cons. auto.
Qed.

Lemma mapSet_elem {V} (m : list (string * V)) k v e :
  e ∈ mapSet m k v -> e ∈ m \/ e = (k, v).
Proof.
  induction m as [| [k' v'] m IH]; cbn [mapSet].
  - intros He. apply list_elem_of_singleton in He. auto.
  - destruct (bool_decide (k' = k)).
    + intros He. apply elem_of_cons in He as [-> | He]; [auto |].
      left. right. exact He.
    + intros He. apply elem_of_cons in He as [-> | He]; [left; left |].
      destruct (IH He) as [Hm | Heq]; [left; right; exact Hm | auto].
Qed.

Lemma foldl_mapSet_spec {V} (entries : list (string * V)) : forall m,
  NoDup (fst <$> m) ->
  let r := foldl (fun m' e => mapSet m' e.1 e.2) m entries in
  NoDup (fst <$> r) /\
  (forall e, e ∈ r -> e ∈ m \/ e ∈ entries) /\
  (forall k, k ∈ fst <$> m \/ k ∈ fst <$> entries -> k ∈ fst <$> r).
Proof.
  induction entries as [| [k v] entries IH]; intros m Hnd; cbn [foldl].
  - split; [exact Hnd |]. split; [auto |].
    intros k [Hk | Hk]; [exact Hk | inversion Hk].
  - assert (Hnd' : NoDup (fst <$> mapSet m k v)).
    { rewrite mapSet_keys. destruct (decide (k ∈ fst <$> m)) as [Hin | Hnotin].
      - rewrite (bool_decide_true _ Hin). exact Hnd.
      - rewrite (bool_decide_false _ Hnotin). apply NoDup_app.
        split; [exact Hnd |]. split; [| apply NoDup_singleton].
        intros x Hx Hx'. apply list_elem_of_singleton in Hx'. subst x. contradiction. }
    destruct (IH (mapSet m k v) Hnd') as (Hr1 & Hr2 & Hr3).
    split; [exact Hr1 |]. split.
    + intros e He. destruct (Hr2 e He) as [Hm | Hent]; [| right; right; exact Hent].
      destruct (mapSet_elem m k v e Hm) as [Hold | ->]; [auto | right; left].
    + intros k0 Hk0. apply Hr3.
      assert (Hkeys : k0 ∈ fst <$> m \/ k0 = k -> k0 ∈ fst <$> mapSet m k v).
      { rewrite mapSet_keys. intros [Hold | ->].
        - destruct (bool_decide _); [exact Hold | apply elem_of_app; auto].
        - destruct (decide (k ∈ fst <$> m)) as [Hin | Hnotin].
          + rewrite (bool_decide_true _ Hin). exact Hin.
          + rewrite (bool_decide_false _ Hnotin). apply elem_of_app. right. left. }
      destruct Hk0 as [Hk0 | Hk0]; [left; auto |].
      rewrite fmap_cons in Hk0. apply elem_of_cons in Hk0 as [-> | Hk0]; [| auto].
      left. apply Hkeys. auto.
Qed.

(** X12.  The manage-workers screen lists every worker of a selected folder, and
    no worker id twice, however many of the selected folders the worker is
    in. *)
Theorem uniqueWorkers_one_per_id (ws : list Worker) (selectedFolders : list string) :
  NoDup (id <$> uniqueWorkers ws selectedFolders) /\
  (forall w, w ∈ uniqueWorkers ws selectedFolders ->
             w ∈ ws /\ exists f, f ∈ selectedFolders /\ f ∈ folders w) /\
  (forall w f, w ∈ ws -> f ∈ selectedFolders -> f ∈ folders w ->
               id w ∈ id <$> uniqueWorkers ws selectedFolders).
Proof.
  unfold uniqueWorkers, newMap.
  set (allWorkers := selectedFolders ≫= getWorkersByFolder ws).
  set (entries := (fun w => (id w, w)) <$> allWorkers).
  destruct (foldl_mapSet_spec entries [] (NoDup_nil_2)) as (Hnd & Hsub & Hkeys).
  set (r := foldl (fun m' e => mapSet m' e.1 e.2) [] entries) in *.
  assert (Hall : forall w, w ∈ allWorkers <->
                   w ∈ ws /\ exists f, f ∈ selectedFolders /\ f ∈ folders w).
  { intros w. unfold allWorkers. rewrite list_elem_of_bind.
    unfold getWorkersByFolder. split.
    - intros (f & Hw & Hf). apply list_elem_of_filter in Hw. split; [tauto | eauto; exists f; tauto].
    - intros (Hw & f & Hf & Hfw). exists f. rewrite list_elem_of_filter. tauto. }
  assert (Hentry : forall e, e ∈ r -> e.1 = id e.2 /\ e.2 ∈ allWorkers).
  { intros e He. destruct (Hsub e He) as [Hnil | Hent]; [inversion Hnil |].
    apply list_elem_of_fmap in Hent as (w & -> & Hw). auto. }
  assert (Hids : id <$> (snd <$> r) = fst <$> r).
  { rewrite <- list_fmap_compose. apply list_fmap_ext.
    intros i e Hi. unfold compose. symmetry.
    apply Hentry. eapply list_elem_of_lookup_2; eauto. }
  split; [rewrite Hids; exact Hnd |]. split.
  - intros w Hw. apply list_elem_of_fmap in Hw as (e & -> & He).
    apply Hall, Hentry, He.
  - intros w f Hw Hf Hfw. rewrite Hids. apply Hkeys. right.
    unfold entries. rewrite <- list_fmap_compose.
    apply list_elem_of_fmap. exists w. split; [reflexivity |].
    apply Hall. eauto.
Qed.

(** X13.  Toggling a folder on the manage-workers or payment-settings screen never
    empties a selection without repeats, keeps it without repeats, and flips
    the membership of the toggled folder unless it is the only one selected. *)
Theorem toggleFolderSelection_keeps_one (folderName : string) (prev : list string) :
  NoDup prev ->
  let next := toggleFolderSelection folderName prev in
  next <> [] /\ NoDup next /\
  (forall x, x <> folderName -> (x ∈ next <-> x ∈ prev)) /\
  (folderName ∈ next <-> folderName ∉ prev \/ prev = [folderName]).
Proof.
  intros Hnd next. subst next. unfold toggleFolderSelection.
  destruct (decide (folderName ∈ prev)) as [Hin | Hnotin].
  - rewrite (bool_decide_true _ Hin).
    destruct (decide (1 < length prev)%nat) as [Hlen | Hlen].
    + rewrite (bool_decide_true _ Hlen).
      assert (Hother : exists y, y ∈ prev /\ y <> folderName).
      { destruct prev as [| a [| b rest]]; simpl in Hlen; try lia.
        apply NoDup_cons in Hnd as [Hab _].
        destruct (decide (a = folderName)) as [-> | Ha].
        - exists b. split; [right; left |]. intros ->. apply Hab. left.
        - exists a. split; [left | exact Ha]. }
      destruct Hother as (y & Hy & Hyne).
      split; [| split; [| split]].
      * intros Hnil.
        assert (Hyin : y ∈ filter (fun f => f <> folderName) prev)
          by (apply list_elem_of_filter; auto).
        rewrite Hnil in Hyin. inversion Hyin.
      * apply NoDup_filter, Hnd.
      * intros x Hx. rewrite list_elem_of_filter. tauto.
      * rewrite list_elem_of_filter. split; [tauto |].
        intros [Hno | Hsingle]; [contradiction |].
        rewrite Hsingle in Hlen. simpl in Hlen. lia.
    + rewrite (bool_decide_false _ Hlen).
      assert (Hsingle : prev = [folderName]).
      { destruct prev as [| a [| b rest]]; simpl in Hlen; try lia.
        - inversion Hin.
        - apply list_elem_of_singleton in Hin. congruence. }
      split; [rewrite Hsingle; discriminate |]. split; [exact Hnd |].
      split; [tauto |]. tauto.
  - rewrite (bool_decide_false _ Hnotin).
    split; [destruct prev; discriminate |]. split.
    + apply NoDup_app. split; [exact Hnd |]. split; [| apply NoDup_singleton].
      intros x Hx Hx'. apply list_elem_of_singleton in Hx'. subst x. contradiction.
    + split.
      * intros x Hx. rewrite elem_of_app, list_elem_of_singleton. tauto.
      * rewrite elem_of_app, list_elem_of_singleton. tauto.
Qed.

(** The check-box toggles of the pickers flip the membership of the toggled
    entry only, keep a selection without repeats so, and toggling an entry
    in and out again restores the selection. *)
Theorem toggleSelection_flips (x : string) (prev : list string) :
  NoDup prev ->
  NoDup (toggleSelection x prev) /\
  (x ∈ toggleSelection x prev <-> x ∉ prev) /\
  (forall y, y <> x -> (y ∈ toggleSelection x prev <-> y ∈ prev)) /\
  (x ∉ prev -> toggleSelection x (toggleSelection x prev) = prev).
Proof.
  intros Hnd. unfold toggleSelection.
  destruct (decide (x ∈ prev)) as [Hin | Hnotin].
  - rewrite (bool_decide_true _ Hin).
    split; [apply NoDup_filter, Hnd |]. split; [| split].
    + rewrite list_elem_of_filter. tauto.
    + intros y Hy. rewrite list_elem_of_filter. tauto.
    + contradiction.
  - rewrite (bool_decide_false _ Hnotin). split; [| split; [| split]].
    + apply NoDup_app. split; [exact Hnd |]. split; [| apply NoDup_singleton].
      intros y Hy Hy'. apply list_elem_of_singleton in Hy'. subst y. contradiction.
    + rewrite elem_of_app, list_elem_of_singleton. tauto.
    + intros y Hy. rewrite elem_of_app, list_elem_of_singleton. tauto.
    + intros _. rewrite bool_decide_true
        by (rewrite elem_of_app, list_elem_of_singleton; auto).
      rewrite filter_app, filter_cons, decide_False, filter_nil, app_nil_r by tauto.
      clear Hnd. induction prev as [| a l IH]; [reflexivity |].
      apply not_elem_of_cons in Hnotin as [Hne Hnotin].
      rewrite filter_cons, decide_True by congruence. f_equal. auto.
Qed.

End WorkersHookFacts.

(* ===================================================================== *)
(** * Folders and payment rates *)
(* ===================================================================== *)

Section SetSizeFacts.

Lemma size_list_to_set_le (l : list string) :
  (size (list_to_set l : gset string) <= length l)%nat.
Proof.
  induction l as [| x l IH]; [reflexivity |].
  rewrite list_to_set_cons. cbn [length].
  rewrite size_union_alt, size_singleton.
  assert (size (list_to_set l ∖ {[x]} : gset string) <= size (list_to_set l : gset string))%nat
    by (apply subseteq_size, subseteq_difference_l; reflexivity).
  lia.
Qed.

Lemma length_size_NoDup (l : list string) :
  length l = size (list_to_set l : gset string) <-> NoDup l.
Proof.
  split; [| intros Hnd; symmetry; apply size_list_to_set, Hnd].
  induction l as [| x l IH]; intros Hsize; [constructor |].
  rewrite list_to_set_cons in Hsize. cbn [length] in Hsize.
  pose proof (size_list_to_set_le l) as Hle.
  destruct (decide (x ∈ l)) as [Hin | Hnotin].
  - exfalso.
    assert (E : ({[x]} ∪ list_to_set l : gset string) = list_to_set l).
    { apply subseteq_union_1_L, singleton_subseteq_l, elem_of_list_to_set, Hin. }
    rewrite E in Hsize. lia.
  - constructor; [exact Hnotin |]. apply IH.
    rewrite size_union in Hsize
      by (apply disjoint_singleton_l; rewrite elem_of_list_to_set; exact Hnotin).
    rewrite size_singleton in Hsize. lia.
Qed.

End SetSizeFacts.

Section FoldersFacts.
Import JsText Generate Folders.
Context `{Text}.

Lemma updateFolders_cases (newFolders : list WorkFolder) (st : Hook) :
  (NoDup (lowerNames newFolders) /\
   updateFolders newFolders st
   = (Returned tt, {| folders := newFolders; stored_folders := Some newFolders |}))
  \/
  (~ NoDup (lowerNames newFolders) /\
   updateFolders newFolders st
   = (Thrown "Duplicate folder names are not allowed", st)).
Proof.
  unfold updateFolders.
  destruct (decide (NoDup (lowerNames newFolders))) as [Hnd | Hnd].
  - left. split; [exact Hnd |].
    rewrite bool_decide_true by (apply length_size_NoDup, Hnd). reflexivity.
  - right. split; [exact Hnd |].
    rewrite bool_decide_false by (rewrite length_size_NoDup; exact Hnd). reflexivity.
Qed.

(** X14.  [updateFolders] accepts a list exactly when no two of its names are
    equal up to letter case; it then becomes both the state and the stored
    list.  Otherwise it throws and nothing changes. *)
Theorem updateFolders_accepts_distinct_names
    (newFolders : list WorkFolder) (st : Hook) :
  match updateFolders newFolders st with
  | (Returned _, st') =>
      NoDup (lowerNames newFolders) /\
      folders st' = newFolders /\ stored_folders st' = Some newFolders
  | (Thrown message, st') =>
      ~ NoDup (lowerNames newFolders) /\ st' = st /\
      message = "Duplicate folder names are not allowed"
  end.
Proof.
  destruct (updateFolders_cases newFolders st) as [[Hnd ->] | [Hnd ->]]; auto.
Qed.

(** X15.  Whatever they are asked and however they end, adding, deleting and
    renaming a folder leave the hook with names that are pairwise distinct
    up to letter case, if they were so before; and a call that throws leaves
    the hook as it was. *)
Theorem folder_operations_keep_names_distinct
    (now : string) (created : Z) (name_ folderId : string) (st : Hook) :
  NoDup (lowerNames (folders st)) ->
  let keeps (r : Outcome unit * Hook) :=
    NoDup (lowerNames (folders r.2)) /\
    (forall message, r.1 = Thrown message -> r.2 = st) in
  keeps (addFolder now created name_ st) /\
  keeps (deleteFolder folderId st) /\
  keeps (renameFolder folderId name_ st).
Proof.
  intros Hnd keeps.
  assert (Hupd : forall l, keeps (updateFolders l st)).
  { intros l. destruct (updateFolders_cases l st) as [[Hl ->] | [Hl ->]];
      split; cbn [fst snd folders]; auto; intros m; discriminate. }
  assert (Hsame : forall o, keeps (o, st)) by (intros o; split; auto).
  split; [| split].
  - unfold addFolder. destruct (nonEmpty _); [apply Hupd | apply Hsame].
  - unfold deleteFolder. destruct (default false _); [apply Hsame | apply Hupd].
  - unfold renameFolder. destruct (nameTaken _ _ _); [apply Hsame | apply Hupd].
Qed.

(** X16.  A folder flagged as default cannot be deleted: asking for it throws
    "Default folder cannot be deleted", and when the ids are distinct every
    default folder is still there after any [deleteFolder]. *)
Theorem deleteFolder_keeps_default (folderId : string) (st : Hook) (f : WorkFolder) :
  NoDup (id <$> folders st) ->
  f ∈ folders st -> isDefault f = Some true ->
  f ∈ folders (deleteFolder folderId st).2 /\
  (id f = folderId ->
   deleteFolder folderId st = (Thrown "Default folder cannot be deleted", st)).
Proof.
  intros Hids Hf Hdef.
  assert (Hfind : id f = folderId ->
            List.find (fun g => bool_decide (id g = folderId)) (folders st) = Some f).
  { intros Hid. destruct (List.find _ _) as [g |] eqn:Hg.
    - apply List.find_some in Hg as [Hgin Hgid].
      apply bool_decide_eq_true in Hgid. apply list_elem_of_In in Hgin.
      apply list_elem_of_lookup in Hgin as [j Hj].
      apply list_elem_of_lookup in Hf as [i Hi].
      assert (i = j).
      { apply (NoDup_lookup _ i j (id f) Hids); rewrite list_lookup_fmap;
          [rewrite Hi | rewrite Hj]; simpl; congruence. }
      subst j. congruence.
    - exfalso. eapply List.find_none in Hg; [| apply list_elem_of_In; exact Hf].
      apply bool_decide_eq_false in Hg. contradiction. }
  unfold deleteFolder.
  destruct (decide (id f = folderId)) as [Hid | Hid].
  - rewrite (Hfind Hid). cbn [mbind option_bind]. rewrite Hdef. cbn [default from_option].
    auto.
  - split; [| contradiction].
    destruct (default false _); [exact Hf |].
    destruct (updateFolders_cases (filter (fun g => id g <> folderId) (folders st)) st)
      as [[_ ->] | [_ ->]]; cbn [snd folders]; [| exact Hf].
    apply list_elem_of_filter. auto.
Qed.

Lemma renamed_id folderId newName f : id (renamed folderId newName f) = id f.
Proof. unfold renamed. destruct (bool_decide _); reflexivity. Qed.

Lemma nameTaken_false newName folderId st :
  nameTaken newName folderId st = false <->
  forall g, g ∈ folders st -> id g <> folderId ->
            toLowerCase (name g) <> toLowerCase newName.
Proof.
  unfold nameTaken. split.
  - intros Hfalse g Hg Hid E.
    assert (Htrue : existsb
              (fun f => bool_decide (toLowerCase (name f) = toLowerCase newName)
                        && negb (bool_decide (id f = folderId))) (folders st) = true).
    { apply List.existsb_exists. exists g.
      split; [apply list_elem_of_In; exact Hg |].
      apply andb_true_intro. split; [apply bool_decide_eq_true; exact E |].
      apply negb_true_iff, bool_decide_eq_false. exact Hid. }
    congruence.
  - intros Hfree. apply not_true_is_false. intros Htrue.
    apply List.existsb_exists in Htrue as (g & Hg & Hc).
    apply andb_prop in Hc as [Hn Hid].
    apply bool_decide_eq_true in Hn.
    apply negb_true_iff, bool_decide_eq_false in Hid.
    apply (Hfree g); [apply list_elem_of_In; exact Hg | exact Hid | exact Hn].
Qed.

(** X17.  In a hook whose folder ids are distinct and whose names are distinct up
    to letter case, renaming a folder succeeds exactly when no other folder
    bears the new name up to letter case; the folder then has the new name
    and every id, creation time and default flag is as before.  Whether the
    folder is the default one plays no part. *)
Theorem renameFolder_succeeds_iff_name_free
    (folderId newName : string) (st : Hook) :
  NoDup (id <$> folders st) ->
  NoDup (lowerNames (folders st)) ->
  let r := renameFolder folderId newName st in
  ((exists st', r = (Returned tt, st')) <->
   forall g, g ∈ folders st -> id g <> folderId ->
             toLowerCase (name g) <> toLowerCase newName) /\
  (forall st', r = (Returned tt, st') ->
     folders st' = renamed folderId newName <$> folders st /\
     stored_folders st' = Some (folders st') /\
     id <$> folders st' = id <$> folders st /\
     createdAt <$> folders st' = createdAt <$> folders st /\
     isDefault <$> folders st' = isDefault <$> folders st /\
     (forall f, f ∈ folders st' -> id f = folderId -> name f = newName)).
Proof.
  intros Hids Hnames r. subst r. unfold renameFolder.
  destruct (nameTaken newName folderId st) eqn:Htaken.
  - split.
    + split; [intros [st' E]; discriminate |].
      intros Hfree. apply nameTaken_false in Hfree. congruence.
    + intros st' E. discriminate.
  - pose proof (proj1 (nameTaken_false newName folderId st) Htaken) as Hfree.
    assert (Hnd : NoDup (lowerNames (renamed folderId newName <$> folders st))).
    { apply NoDup_alt. intros i j x Hi Hj. unfold lowerNames in Hi, Hj.
      apply list_lookup_fmap_Some in Hi as (fi' & -> & Hi).
      apply list_lookup_fmap_Some in Hj as (fj' & Hx & Hj).
      apply list_lookup_fmap_Some in Hi as (fi & -> & Hi).
      apply list_lookup_fmap_Some in Hj as (fj & -> & Hj).
      assert (Hsameid : id fi = id fj -> i = j).
      { intros E. apply (NoDup_lookup _ i j (id fi) Hids); rewrite list_lookup_fmap;
          [rewrite Hi | rewrite Hj]; simpl; congruence. }
      unfold renamed in Hx.
      destruct (decide (id fi = folderId)) as [Ei | Ei];
        destruct (decide (id fj = folderId)) as [Ej | Ej].
      + apply Hsameid. congruence.
      + rewrite (bool_decide_true _ Ei), (bool_decide_false _ Ej) in Hx.
        cbn [name] in Hx. exfalso.
        apply (Hfree fj); [eapply list_elem_of_lookup_2; eauto | exact Ej | congruence].
      + rewrite (bool_decide_false _ Ei), (bool_decide_true _ Ej) in Hx.
        cbn [name] in Hx. exfalso.
        apply (Hfree fi); [eapply list_elem_of_lookup_2; eauto | exact Ei | congruence].
      + rewrite (bool_decide_false _ Ei), (bool_decide_false _ Ej) in Hx.
        apply (proj1 (NoDup_alt _) Hnames i j (toLowerCase (name fi)));
          unfold lowerNames; rewrite list_lookup_fmap;
          [rewrite Hi | rewrite Hj]; simpl; congruence. }
    destruct (updateFolders_cases (renamed folderId newName <$> folders st) st)
      as [[_ ->] | [Hbad _]]; [| contradiction].
    split.
    + split; [intros _; exact Hfree | intros _; eauto].
    + intros st' E. injection E as <-. cbn [folders stored_folders].
      split; [reflexivity |]. split; [reflexivity |].
      split; [| split; [| split]].
      * rewrite <- list_fmap_compose. apply list_fmap_ext.
        intros i f _. apply renamed_id.
      * rewrite <- list_fmap_compose. apply list_fmap_ext.
        intros i f _. unfold compose, renamed. destruct (bool_decide _); reflexivity.
      * rewrite <- list_fmap_compose. apply list_fmap_ext.
        intros i f _. unfold compose, renamed. destruct (bool_decide _); reflexivity.
      * intros f Hf Hid. apply list_elem_of_fmap in Hf as (g & -> & Hg).
        rewrite renamed_id in Hid. unfold renamed.
        rewrite (bool_decide_true _ Hid). reflexivity.
Qed.

End FoldersFacts.

Section PaymentFacts.
Import Js Reports PaymentSettings.
Context `{Runtime}.

Lemma handleUpdateRates_snoc (selected : list string) (f : string)
    (rates : PaymentRates) (folderRates : gmap string PaymentRates) :
  handleUpdateRates (selected ++ [f]) rates folderRates = <[f := rates]> folderRates.
Proof. unfold handleUpdateRates. rewrite foldl_app. reflexivity. Qed.

(** X18.  Saving rates for several selected folders records them for the last
    selected folder only: every call starts from the rates of the same
    render, so each overwrites what the one before it set. *)
Theorem handleUpdateRates_last_folder_only
    (selected : list string) (f : string) (rates : PaymentRates)
    (folderRates : gmap string PaymentRates) :
  let after := handleUpdateRates (selected ++ [f]) rates folderRates in
  after !! f = Some rates /\
  (forall g, g <> f -> after !! g = folderRates !! g) /\
  (forall g, g ∈ selected -> g <> f -> f <> "Default" ->
             effectiveRates after g = effectiveRates folderRates g).
Proof.
  intros after. subst after. rewrite handleUpdateRates_snoc.
  split; [apply lookup_insert_eq |]. split.
  - intros g Hg. apply lookup_insert_ne. congruence.
  - intros g _ Hg Hdef. unfold effectiveRates, ratesOrDefault, ratesAt.
    rewrite !lookup_insert_ne by congruence. reflexivity.
Qed.

(** X19.  After [updateFolderRates] the folder has the rates given and a folder
    with rates of its own keeps them.  A folder without rates of its own
    falls back on the rates of "Default" (the new ones when "Default" is the
    folder updated) unless it is named like a member of [Object.prototype]:
    then the read yields that member, there is no fallback, and both wages
    read [NaN]. *)
Theorem updateFolderRates_effective
    (folderRates : gmap string PaymentRates) (f g : string) (rates : PaymentRates) :
  is_Some (folderRates !! "Default") ->
  let after := updateFolderRates folderRates f rates in
  is_Some (after !! "Default") /\
  effectiveRates after f = Some (Entry rates) /\
  (g <> f -> forall r, folderRates !! g = Some r ->
     effectiveRates after g = Some (Entry r)) /\
  (g <> f -> folderRates !! g = None -> inObjectPrototype g = false ->
     effectiveRates after g
     = Entry <$> (if decide (f = "Default") then Some rates
                  else folderRates !! "Default") /\
     exists r, effectiveRates after g = Some (Entry r)) /\
  (g <> f -> folderRates !! g = None -> inObjectPrototype g = true ->
     effectiveRates after g = Some PrototypeMember /\
     Number_fullDay PrototypeMember = NaN /\ Number_halfDay PrototypeMember = NaN).
Proof.
  intros Hdef after. subst after.
  unfold updateFolderRates, effectiveRates, ratesOrDefault, ratesAt.
  assert (Hafter : is_Some (<[f := rates]> folderRates !! "Default")).
  { destruct (decide (f = "Default")) as [-> | Hne].
    - rewrite lookup_insert_eq. eauto.
    - rewrite lookup_insert_ne by exact Hne. exact Hdef. }
  split; [exact Hafter |]. split; [| split; [| split]].
  - rewrite lookup_insert_eq. reflexivity.
  - intros Hg r Hr. rewrite lookup_insert_ne by congruence. rewrite Hr. reflexivity.
  - intros Hg Hnone Hproto.
    rewrite (lookup_insert_ne _ f g) by congruence. rewrite Hnone, Hproto.
    destruct (decide (f = "Default")) as [-> | Hne].
    + rewrite lookup_insert_eq. eauto.
    + rewrite lookup_insert_ne by exact Hne.
      destruct Hdef as [d ->]. eauto.
  - intros Hg Hnone Hproto.
    rewrite (lookup_insert_ne _ f g) by congruence. rewrite Hnone, Hproto. auto.
Qed.

End PaymentFacts.

(* ===================================================================== *)
(** * Advances: creation, deletion, settlement *)
(* ===================================================================== *)

Section AdvanceLedgerFacts.
Import Js Reports AdvanceRecords.
Context `{Runtime}.

Lemma append_inj_equal_length (s1 s2 t1 t2 : string) :
  String.length s1 = String.length s2 ->
  s1 +:+ t1 = s2 +:+ t2 -> s1 = s2 /\ t1 = t2.
Proof.
  revert s2. induction s1 as [| c s1 IH]; intros [| c2 s2] Hlen E;
    simpl in Hlen; try discriminate.
  - auto.
  - injection E as -> E. destruct (IH s2 ltac:(lia) E) as [-> ->]. auto.
Qed.

(** X20.  The advances one submission creates have pairwise distinct ids, when no
    worker is selected twice and the clock readings are written with the
    same number of digits. *)
Theorem addAdvance_distinct_ids
    (clock : nat -> string) (writeOk : bool) (workers : list Workers.Worker)
    (selectedWorkers : list string) (amount_ remarks_ : string)
    (selectedDate : Z) (st : Advances.Screen) :
  NoDup selectedWorkers ->
  (forall i j, String.length (clock i) = String.length (clock j)) ->
  let st' := addAdvance clock writeOk workers selectedWorkers amount_ remarks_
               selectedDate st in
  NoDup (Advances.id <$> drop (length (Advances.advances st)) (Advances.advances st')) /\
  workerId <$> drop (length (Advances.advances st)) (Advances.advances st')
  = (if bool_decide (0 < length selectedWorkers)%nat && nonEmpty amount_
     then selectedWorkers else []).
Proof.
  intros Hnd Hlen st'. subst st'. unfold addAdvance.
  destruct (bool_decide (0 < length selectedWorkers)%nat && nonEmpty amount_).
  - cbn [Advances.advances]. rewrite drop_app_length. split.
    + apply NoDup_alt. intros i j x Hi Hj.
      apply list_lookup_fmap_Some in Hi as (ai & -> & Hi).
      apply list_lookup_fmap_Some in Hj as (aj & Hx & Hj).
      apply list_lookup_imap_Some in Hi as (wi & Hi & ->).
      apply list_lookup_imap_Some in Hj as (wj & Hj & ->).
      cbn [newAdvance Advances.id] in Hx.
      apply append_inj_equal_length in Hx as [_ Hw]; [| apply Hlen].
      eapply NoDup_lookup; eauto. congruence.
    + apply list_eq. intros i. rewrite list_lookup_fmap, list_lookup_imap.
      destruct (selectedWorkers !! i); reflexivity.
  - rewrite drop_all. split; [constructor | reflexivity].
Qed.

(** X21.  Creating an advance for one worker and deleting it again by its id
    leaves in storage the list the entry screen held before the creation,
    when no earlier advance has that id.  So the stored advances are
    restored exactly when the entry screen held what storage held; what
    storage held beyond the screen's list is overwritten.  The total the
    records screen shows is not recomputed by the deletion. *)
Theorem addAdvance_then_delete
    (clock : nat -> string) (workers : list Workers.Worker)
    (w amount_ remarks_ : string) (selectedDate : Z) (st : Advances.Screen)
    (scr : Screen) :
  amount_ <> "" ->
  (forall a, a ∈ Advances.advances st -> Advances.id a <> clock 0%nat +:+ w) ->
  let st' := addAdvance clock true workers [w] amount_ remarks_ selectedDate st in
  let after := handleDeleteAdvance (clock 0%nat +:+ w) (Advances.advancesItem st') scr in
  after.1 = Some (Advances.advances st) /\
  (after.1 = Advances.advancesItem st <->
   Advances.advancesItem st = Some (Advances.advances st)) /\
  advances after.2 = Advances.advances st /\
  totalPendingAdvance after.2 = totalPendingAdvance scr.
Proof.
  intros Hamount Hfresh st' after. subst after st'.
  unfold addAdvance, handleDeleteAdvance.
  rewrite (bool_decide_true (0 < length [w])%nat) by (simpl; lia).
  unfold nonEmpty. rewrite (bool_decide_false _ Hamount).
  cbn [negb andb default from_option fst snd advances totalPendingAdvance
       Advances.advancesItem Advances.advances imap].
  assert (E : filter (fun adv => Advances.id adv <> clock 0%nat +:+ w)
                (Advances.advances st ++
                 [newAdvance (clock 0%nat) workers amount_ (isoDay selectedDate) remarks_ w])
              = Advances.advances st).
  { rewrite filter_app, filter_cons, decide_False, filter_nil, app_nil_r
      by (cbn [newAdvance Advances.id]; tauto).
    induction (Advances.advances st) as [| a l IH]; [reflexivity |].
    rewrite filter_cons, decide_True by (apply Hfresh; left).
    f_equal. apply IH. intros b Hb. apply Hfresh. right. exact Hb. }
  unfold Datatypes.id. rewrite E.
  split; [reflexivity |]. split; [| auto].
  split; intros Heq; congruence.
Qed.

Lemma wholeTotal_nonneg (value : Advance -> Z) (l : list Advance) :
  (forall adv, adv ∈ l -> 0 <= value adv) -> 0 <= wholeTotal value l.
Proof.
  induction l as [| a l IH]; intros Hall; cbn [wholeTotal foldr]; [lia |].
  fold (wholeTotal value l).
  pose proof (Hall a ltac:(left)) as Ha.
  assert (0 <= wholeTotal value l); [| lia].
  apply IH. intros adv Hadv. apply Hall. right. exact Hadv.
Qed.

Lemma add_whole (Hexact : exactOnWhole) (x y : Z) :
  0 <= x -> 0 <= y -> x + y <= 2 ^ 53 ->
  add (Num (inject_Z x)) (Num (inject_Z y)) = Num (inject_Z (x + y)).
Proof.
  intros Hx Hy Hbound. cbn [add]. f_equal. apply Hexact.
  - rewrite inject_Z_plus. reflexivity.
  - rewrite Z.abs_eq by lia. exact Hbound.
Qed.

Lemma sumAmounts_whole (Hexact : exactOnWhole) (value : Advance -> Z)
    (l : list Advance) :
  (forall adv, adv ∈ l ->
     Number (amount adv) = Num (inject_Z (value adv)) /\ 0 <= value adv) ->
  wholeTotal value l <= 2 ^ 53 ->
  sumAmounts l = Num (inject_Z (wholeTotal value l)).
Proof.
  unfold sumAmounts. change (Num 0) with (Num (inject_Z 0)).
  assert (G : forall acc, 0 <= acc ->
            (forall adv, adv ∈ l ->
               Number (amount adv) = Num (inject_Z (value adv)) /\ 0 <= value adv) ->
            acc + wholeTotal value l <= 2 ^ 53 ->
            foldl (fun sum adv => add sum (Number (amount adv))) (Num (inject_Z acc)) l
            = Num (inject_Z (acc + wholeTotal value l))).
  { induction l as [| a l IH]; intros acc Hacc Hall Hbound; cbn [foldl wholeTotal foldr].
    - rewrite Z.add_0_r. reflexivity.
    - destruct (Hall a ltac:(left)) as [Ha Hpos]. rewrite Ha.
      cbn [wholeTotal foldr] in Hbound. fold (wholeTotal value l) in *.
      assert (Hrest : 0 <= wholeTotal value l).
      { apply wholeTotal_nonneg. intros adv Hadv. apply Hall. right. exact Hadv. }
      rewrite (add_whole Hexact) by lia.
      rewrite IH; [f_equal; f_equal; lia | lia | | lia].
      intros adv Hadv. apply Hall. right. exact Hadv. }
  intros Hall Hbound. apply (G 0); [lia | exact Hall | lia].
Qed.

Lemma pending_updatedAdvances sel end_ : forall advs clock,
  pending (updatedAdvances sel end_ clock advs)
  = filter (fun adv => negb (reached sel end_ adv)) (pending advs).
Proof.
  unfold pending. induction advs as [| a l IH]; intros clock; [reflexivity |].
  unfold updatedAdvances. rewrite imap_cons.
  change (imap _ l) with (updatedAdvances sel end_ (fun i => clock (S i)) l).
  rewrite !filter_cons, IH.
  destruct (settle_cases sel end_ (clock 0%nat) a)
    as [[Hsame Hcond] | (Hd & Hs & Hdate & Hd' & _)].
  - rewrite Hsame. fold (reached sel end_ a) in Hcond.
    destruct (isDeducted a) eqn:Hded; cbn [negb].
    + rewrite !decide_False by (intros Hf; exact Hf). reflexivity.
    + rewrite !decide_True by exact I. rewrite filter_cons, Hcond.
      rewrite decide_True by exact I. reflexivity.
  - rewrite Hd', Hd. cbn [negb].
    rewrite decide_False by (intros Hf; exact Hf).
    rewrite decide_True by exact I. rewrite filter_cons.
    assert (Hr : reached sel end_ a = true).
    { unfold reached. rewrite Hdate, Hd, (bool_decide_true _ Hs). reflexivity. }
    rewrite Hr. rewrite decide_False by (intros Hf; exact Hf). reflexivity.
Qed.

Lemma reached_pending sel end_ (advs : list Advance) :
  filter (fun adv => reached sel end_ adv) advs
  = filter (fun adv => reached sel end_ adv) (pending advs).
Proof.
  unfold pending. induction advs as [| a l IH]; [reflexivity |].
  rewrite !filter_cons, IH.
  destruct (isDeducted a) eqn:Hded; cbn [negb].
  - assert (Hr : reached sel end_ a = false).
    { unfold reached. rewrite Hded, andb_false_r. reflexivity. }
    rewrite Hr, !decide_False by (intros Hf; exact Hf). reflexivity.
  - rewrite (decide_True (P := Is_true true)) by exact I.
    rewrite filter_cons. reflexivity.
Qed.

Lemma wholeTotal_split (value : Advance -> Z) (f : Advance -> bool)
    (l : list Advance) :
  wholeTotal value l
  = wholeTotal value (filter (fun adv => negb (f adv)) l)
    + wholeTotal value (filter (fun adv => f adv) l).
Proof.
  induction l as [| a l IH]; [reflexivity |].
  rewrite !filter_cons. cbn [wholeTotal foldr].
  fold (wholeTotal value l). rewrite IH.
  destruct (f a); cbn [negb].
  - rewrite decide_False by (intros Hf; exact Hf).
    rewrite decide_True by exact I. cbn [wholeTotal foldr]. unfold wholeTotal. lia.
  - rewrite decide_True by exact I.
    rewrite decide_False by (intros Hf; exact Hf). cbn [wholeTotal foldr].
    unfold wholeTotal. lia.
Qed.

(** X22.  Settlement moves money, it does not create or lose any, as long as the
    amounts are whole: when the platform adds whole numbers up to 2^53
    exactly, and the advances not deducted have whole, non-negative amounts
    that total at most 2^53, the pending total before a settlement is that
    whole total, and it is the pending total after the settlement plus the
    amounts of the advances the settlement marked. *)
Theorem settlement_conserves_pending
    (sel : list string) (end_ : Z) (clock : nat -> string) (advs : list Advance)
    (value : Advance -> Z) :
  exactOnWhole ->
  (forall adv, adv ∈ advs -> isDeducted adv = false ->
     Number (amount adv) = Num (inject_Z (value adv)) /\ 0 <= value adv) ->
  wholeTotal value (pending advs) <= 2 ^ 53 ->
  totalPending advs = Num (inject_Z (wholeTotal value (pending advs))) /\
  totalPending advs
  = add (totalPending (updatedAdvances sel end_ clock advs))
        (sumAmounts (filter (fun a => reached sel end_ a) advs)).
Proof.
  intros Hexact Hwhole Hbound.
  assert (Hall : forall adv, adv ∈ pending advs ->
            Number (amount adv) = Num (inject_Z (value adv)) /\ 0 <= value adv).
  { intros adv Hadv. unfold pending in Hadv.
    apply list_elem_of_filter in Hadv as [Hd Hadv].
    apply Hwhole; [exact Hadv |]. destruct (isDeducted adv); [contradiction | reflexivity]. }
  pose proof (wholeTotal_split value (reached sel end_) (pending advs)) as Hsplit.
  set (rest := filter (fun adv => negb (reached sel end_ adv)) (pending advs)) in *.
  set (marked := filter (fun adv => reached sel end_ adv) (pending advs)) in *.
  assert (Hrest : forall adv, adv ∈ rest ->
            Number (amount adv) = Num (inject_Z (value adv)) /\ 0 <= value adv).
  { intros adv Hadv. apply Hall. subst rest.
    apply list_elem_of_filter in Hadv as [_ Hadv]. exact Hadv. }
  assert (Hmarked : forall adv, adv ∈ marked ->
            Number (amount adv) = Num (inject_Z (value adv)) /\ 0 <= value adv).
  { intros adv Hadv. apply Hall. subst marked.
    apply list_elem_of_filter in Hadv as [_ Hadv]. exact Hadv. }
  assert (Hpos1 : 0 <= wholeTotal value rest)
    by (apply wholeTotal_nonneg; intros adv Hadv; apply Hrest, Hadv).
  assert (Hpos2 : 0 <= wholeTotal value marked)
    by (apply wholeTotal_nonneg; intros adv Hadv; apply Hmarked, Hadv).
  pose proof (sumAmounts_whole Hexact value (pending advs) Hall Hbound) as Etotal.
  pose proof (sumAmounts_whole Hexact value rest Hrest ltac:(lia)) as Erest.
  pose proof (sumAmounts_whole Hexact value marked Hmarked ltac:(lia)) as Emarked.
  unfold totalPending.
  rewrite pending_updatedAdvances, reached_pending.
  fold rest. fold marked.
  rewrite Etotal, Erest, Emarked. split; [reflexivity |].
  rewrite (add_whole Hexact) by lia. rewrite Hsplit. reflexivity.
Qed.

(** X23.  Every advance a report row deducts is stored as deducted by the same
    run, stamped with the time read for it, its id and amount unchanged. *)
Theorem consumed_advance_is_settled
    (sel : list string) (end_ : Z) (clock : nat -> string) (advs : list Advance)
    (worker : Workers.Worker) (i : nat) (a : Advance) :
  advs !! i = Some a ->
  a ∈ workerAdvances advs worker end_ sel ->
  exists a',
    settlementWriteBack true sel end_ clock advs !! i = Some a' /\
    isDeducted a' = true /\ deductedOn a' = Some (clock i) /\
    Advances.id a' = Advances.id a /\ workerId a' = workerId a /\
    amount a' = amount a /\ date a' = date a.
Proof.
  intros Hi Ha.
  apply elem_of_workerAdvances in Ha as (_ & Hw & Hdate & Hd & Hsel).
  unfold settlementWriteBack, writesBack.
  rewrite bool_decide_true by (destruct sel; [inversion Hsel | simpl; lia]).
  cbn [andb]. unfold updatedAdvances. rewrite list_lookup_imap, Hi. cbn [fmap option_fmap option_map].
  eexists. split; [reflexivity |].
  unfold settle. rewrite Hw, (bool_decide_true _ Hsel), Hdate, Hd.
  cbn. auto 10.
Qed.

(** X24.  The settlement goes by selected worker id, not by folder: an undeducted
    advance of a selected worker who is not among the report's workers is
    stored as deducted although no row of the report deducts it. *)
Theorem settlement_reaches_beyond_the_report
    (sel : list string) (end_ : Z) (clock : nat -> string) (advs : list Advance)
    (folderWorkers : list Workers.Worker) (i : nat) (a : Advance) :
  advs !! i = Some a ->
  workerId a ∈ sel ->
  onOrBefore (date a) end_ = true ->
  isDeducted a = false ->
  (forall w, w ∈ folderWorkers -> Workers.id w <> workerId a) ->
  (exists a', settlementWriteBack true sel end_ clock advs !! i = Some a' /\
              isDeducted a' = true) /\
  (forall w, w ∈ folderWorkers -> a ∉ workerAdvances advs w end_ sel).
Proof.
  intros Hi Hsel Hdate Hd Hout. split.
  - unfold settlementWriteBack, writesBack.
    rewrite bool_decide_true by (destruct sel; [inversion Hsel | simpl; lia]).
    cbn [andb]. unfold updatedAdvances. rewrite list_lookup_imap, Hi.
    cbn [fmap option_fmap option_map].
    eexists. split; [reflexivity |].
    unfold settle. rewrite (bool_decide_true _ Hsel), Hdate, Hd. reflexivity.
  - intros w Hw Ha. apply elem_of_workerAdvances in Ha as (_ & Hid & _).
    apply (Hout w Hw). congruence.
Qed.

End AdvanceLedgerFacts.

(* ===================================================================== *)
(** * Reports: rows, runs, archive *)
(* ===================================================================== *)

Section NoteBalanceFacts.
Import Denomination.




End NoteBalanceFacts.

Section ReportRowFacts.
Import Attendance Js Reports.
Context `{Runtime}.

Lemma find_app_none {A} (f : A -> bool) (l k : list A) :
  List.find f l = None -> List.find f (l ++ k) = List.find f k.
Proof.
  induction l as [| x l IH]; [reflexivity |]. simpl.
  destruct (f x); [discriminate | exact IH].
Qed.

Lemma find_app_some {A} (f : A -> bool) (l k : list A) x :
  List.find f l = Some x -> List.find f (l ++ k) = Some x.
Proof.
  induction l as [| y l IH]; [discriminate |]. simpl.
  destruct (f y); [auto | exact IH].
Qed.

Lemma find_filter_implied {A} (f : A -> bool) (P : A -> Prop)
    `{!forall x, Decision (P x)} (l : list A) :
  (forall x, f x = true -> P x) -> List.find f (filter P l) = List.find f l.
Proof.
  intros Himp. induction l as [| x l IH]; [reflexivity |].
  rewrite filter_cons. simpl. destruct (f x) eqn:Hfx.
  - rewrite decide_True by (apply Himp, Hfx). simpl. rewrite Hfx. reflexivity.
  - destruct (decide (P x)); [simpl; rewrite Hfx |]; exact IH.
Qed.

Lemma reportRow_ext deduct sel folder rates dates end_ att1 att2 advs worker :
  (forall day, markFor att1 folder worker day = markFor att2 folder worker day) ->
  reportRow deduct sel folder rates dates end_ att1 advs worker
  = reportRow deduct sel folder rates dates end_ att2 advs worker.
Proof.
  intros Hext. unfold reportRow.
  replace (markFor att1 folder worker <$> dates)
    with (markFor att2 folder worker <$> dates)
    by (apply list_fmap_ext; intros i d _; symmetry; apply Hext).
  reflexivity.
Qed.

(** X26.  The doubled list [getAttendanceByFolder] hands to a report does no harm
    there: on a ledger whose memory mirrors storage, the rows computed from
    the query result are the rows computed from the stored list itself,
    since each letter is taken from the first matching record. *)
Theorem reportData_ignores_duplicates
    (deduct : bool) (sel : list string) (folder : string) (rates : Rates)
    (dates : list Z) (end_ : Z) (st : Attendance.Ledger) (advs : list Advance)
    (workers : list Workers.Worker) :
  AttendanceOps.inSync st ->
  (Attendance.getAttendanceByFolder folder "" st).1
  = filter (Attendance.inFolder folder) (Attendance.attendance st)
    ++ filter (Attendance.inFolder folder) (Attendance.attendance st) /\
  reportData deduct sel folder rates dates end_
    (Attendance.getAttendanceByFolder folder "" st).1 advs workers
  = reportData deduct sel folder rates dates end_ (Attendance.attendance st) advs workers.
Proof.
  intros [Hsync _].
  assert (Hq : (Attendance.getAttendanceByFolder folder "" st).1
               = filter (Attendance.inFolder folder) (Attendance.attendance st)
                 ++ filter (Attendance.inFolder folder) (Attendance.attendance st)).
  { unfold Attendance.getAttendanceByFolder. rewrite Hsync.
    rewrite bool_decide_true by reflexivity. cbn [fst default from_option].
    unfold Datatypes.id. apply filter_app. }
  split; [exact Hq |]. rewrite Hq. unfold reportData.
  apply list_fmap_ext. intros i worker _. apply reportRow_ext. intros day.
  unfold markFor.
  set (f := fun a => _ && _ && _).
  assert (Hfilter : List.find f (filter (Attendance.inFolder folder)
                                   (Attendance.attendance st))
                    = List.find f (Attendance.attendance st)).
  { apply find_filter_implied. intros a Ha. subst f. cbn beta in Ha.
    apply andb_prop in Ha as [Ha _]. apply andb_prop in Ha as [_ Ha].
    apply bool_decide_eq_true in Ha. exact Ha. }
  destruct (List.find f (filter (Attendance.inFolder folder)
                           (Attendance.attendance st))) as [r |] eqn:Hfind.
  - rewrite (find_app_some _ _ _ _ Hfind), <- Hfilter. reflexivity.
  - rewrite (find_app_none _ _ _ Hfind), Hfind, <- Hfilter. reflexivity.
Qed.

End ReportRowFacts.

Section ReportRunFacts.
Import Js Reports Generate ReportArchive.
Context `{Runtime}.

Ltac unfold_run :=
  unfold generateReport, mbind, Run_bind, mret, Run_ret, getWorld, modify, throw,
    setItemAdvances, exportDocument, storeSavedReports, share;
  cbn zeta.

Lemma reportData_ids deduct sel folder rates dates_ end_ att advs ws :
  Reports.id <$> reportData deduct sel folder rates dates_ end_ att advs ws
  = Workers.id <$> ws.
Proof.
  unfold reportData. rewrite <- list_fmap_compose.
  apply list_fmap_ext. intros i w _. unfold compose, reportRow.
  destruct (if deduct then _ else _). reflexivity.
Qed.

Lemma generateReport_returned env s folder start end_ w meta w' :
  generateReport env s folder start end_ w = (Returned meta, w') ->
  meta = reportMetaOf env s folder start end_ /\
  savedReports w' = savedReports w ++ [meta] /\
  saved_reports w' = Some (savedReports w ++ [meta]) /\
  exists artifact, documents w' = documents w ++ [(Archive.path meta, artifact)].
Proof.
  unfold_run.
  destruct (bool_decide _); [discriminate |].
  destruct (ratesFor s folder) as [rates |]; [| discriminate].
  destruct (writesBack _ _), (advancesWriteOk env), (exportOk env),
    (reportsWriteOk env), (shareOk env); try discriminate;
    intros E; injection E as <- <-; cbn;
    (split; [reflexivity |]); (split; [reflexivity |]); (split; [reflexivity |]);
    eexists; reflexivity.
Qed.

(** X27.  When the folder has workers, "Default" has rates and the storage writes,
    the export and the share all succeed, a run returns its archive entry:
    the entry is appended to the stored and to the shown report lists, the
    document is added under the entry's path, with one row per worker of
    the folder, and the advances are stored as the settlement left them. *)
Theorem generateReport_success
    (env : Env) (s : Settings) (folder : string) (start end_ : Z) (w : World) :
  advancesWriteOk env = true -> exportOk env = true ->
  reportsWriteOk env = true -> shareOk env = true ->
  Workers.getWorkersByFolder (workers s) folder <> [] ->
  is_Some (folderRates s !! "Default") ->
  let meta := reportMetaOf env s folder start end_ in
  exists w' artifact,
    generateReport env s folder start end_ w = (Returned meta, w') /\
    savedReports w' = savedReports w ++ [meta] /\
    saved_reports w' = Some (savedReports w ++ [meta]) /\
    documents w' = documents w ++ [(Archive.path meta, artifact)] /\
    dates artifact = datesInRange start end_ /\
    Reports.id <$> rows artifact
    = Workers.id <$> Workers.getWorkersByFolder (workers s) folder /\
    advancesStored w'
    = (if writesBack (deductAdvance s) (selectedAdvanceWorkers s)
       then Some (updatedAdvances (selectedAdvanceWorkers s) end_ (settleClock env)
                    (default [] (advancesStored w)))
       else advancesStored w).
Proof.
  intros Hadv Hexp Hrep Hshare Hws [r0 Hdef] meta. subst meta.
  unfold_run. rewrite Hadv, Hexp, Hrep, Hshare.
  rewrite bool_decide_false
    by (destruct (Workers.getWorkersByFolder _ _); [congruence | discriminate]).
  assert (Hrates : exists rates, ratesFor s folder = Some rates).
  { unfold ratesFor, ratesOrDefault, ratesAt. rewrite Hdef.
    destruct (folderRates s !! folder); [eauto |].
    destruct (inObjectPrototype folder); eauto. }
  destruct Hrates as [rates ->].
  destruct (writesBack _ _); cbn;
    do 2 eexists; (split; [reflexivity |]); cbn;
    repeat (split; [reflexivity |]);
    (split; [| reflexivity]);
    apply reportData_ids.
Qed.

(** X28.  A folder without workers makes the run throw "No workers found in this
    folder" before anything is settled, exported or archived. *)
Theorem generateReport_no_workers
    (env : Env) (s : Settings) (folder : string) (start end_ : Z) (w : World) :
  Workers.getWorkersByFolder (workers s) folder = [] ->
  exists w',
    generateReport env s folder start end_ w
    = (Thrown "No workers found in this folder", w') /\
    advancesStored w' = advancesStored w /\
    workersWithAdvance w' = workersWithAdvance w /\
    saved_reports w' = saved_reports w /\
    savedReports w' = savedReports w /\
    documents w' = documents w.
Proof.
  intros Hws. unfold_run. rewrite Hws.
  rewrite bool_decide_true by reflexivity.
  eexists. split; [reflexivity |]. cbn. auto.
Qed.

(** X29.  Two reports for the same folder, dates and format are written to the
    same path.  Deleting the first of them from the archive deletes that
    file: the second stays listed, but no document is left at its path. *)
Theorem deleting_one_report_orphans_its_twin
    (env1 env2 : Env) (s1 s2 : Settings) (folder : string) (start end_ : Z)
    (w w1 w2 : World) (m1 m2 : Archive.ReportMeta) :
  generateReport env1 s1 folder start end_ w = (Returned m1, w1) ->
  generateReport env2 s2 folder start end_ w1 = (Returned m2, w2) ->
  exportFormat s1 = exportFormat s2 ->
  documentDirectory env1 = documentDirectory env2 ->
  idClock env1 <> idClock env2 ->
  (forall r, r ∈ savedReports w -> Archive.id r <> idClock env1) ->
  let w3 := handleDeleteReport (Archive.id m1) w2 in
  Archive.path m1 = Archive.path m2 /\
  fileExists (Archive.path m2) w2 /\
  m2 ∈ savedReports w3 /\
  (m1 ∉ savedReports w3) /\
  ~ fileExists (Archive.path m2) w3.
Proof.
  intros Hrun1 Hrun2 Hfmt Hdir Hids Hfresh w3.
  apply generateReport_returned in Hrun1 as (Hm1 & Hs1 & _ & a1 & Hd1).
  apply generateReport_returned in Hrun2 as (Hm2 & Hs2 & _ & a2 & Hd2).
  assert (Hpath : Archive.path m1 = Archive.path m2).
  { rewrite Hm1, Hm2. unfold reportMetaOf, reportFilename. cbn [Archive.path].
    rewrite Hfmt, Hdir. reflexivity. }
  assert (Hid1 : Archive.id m1 = idClock env1) by (rewrite Hm1; reflexivity).
  assert (Hid2 : Archive.id m2 = idClock env2) by (rewrite Hm2; reflexivity).
  assert (Hfound : List.find (fun r => bool_decide (Archive.id r = Archive.id m1))
                     (savedReports w2) = Some m1).
  { destruct (List.find _ _) as [r |] eqn:Hfind.
    - apply List.find_some in Hfind as [Hin Hr].
      apply bool_decide_eq_true in Hr. apply list_elem_of_In in Hin.
      rewrite Hs2, Hs1 in Hin.
      apply elem_of_app in Hin as [Hin | Hin].
      + apply elem_of_app in Hin as [Hin | Hin].
        * exfalso. apply (Hfresh r Hin). congruence.
        * apply list_elem_of_singleton in Hin. congruence.
      + apply list_elem_of_singleton in Hin. subst r. congruence.
    - exfalso. eapply List.find_none in Hfind.
      + apply bool_decide_eq_false in Hfind. apply Hfind. reflexivity.
      + apply list_elem_of_In. rewrite Hs2, Hs1.
        apply elem_of_app. left. apply elem_of_app. right. left. }
  subst w3. unfold handleDeleteReport. rewrite Hfound.
  unfold fileExists. cbn [setArchive savedReports documents].
  split; [exact Hpath |]. split; [| split; [| split]].
  - rewrite Hd2, fmap_app. apply elem_of_app. right. left.
  - apply list_elem_of_filter. split; [congruence |].
    rewrite Hs2. apply elem_of_app. right. left.
  - intros Hin. apply list_elem_of_filter in Hin as [Hne _]. apply Hne. reflexivity.
  - intros Hin. apply list_elem_of_fmap in Hin as (d & Hd & Hin).
    unfold deleteDocument in Hin. apply list_elem_of_filter in Hin as [Hne _].
    apply Hne. congruence.
Qed.

Lemma filter_all {A} (P : A -> Prop) `{!forall x, Decision (P x)} (l : list A) :
  (forall x, x ∈ l -> P x) -> filter P l = l.
Proof.
  induction l as [| x l IH]; intros Hall; [reflexivity |].
  rewrite filter_cons, decide_True by (apply Hall; left).
  f_equal. apply IH. intros y Hy. apply Hall. right. exact Hy.
Qed.

Lemma elem_of_foldl_deleteDocument (reports : list Archive.ReportMeta) :
  forall (docs : list (string * Artifact)) d,
    d ∈ foldl (fun docs' r => deleteDocument (Archive.path r) docs') docs reports <->
    d ∈ docs /\ forall r, r ∈ reports -> Archive.path r <> d.1.
Proof.
  induction reports as [| r0 reports IH]; intros docs d; cbn [foldl].
  - split; [intros Hd; split; [exact Hd | intros r Hr; inversion Hr] | tauto].
  - rewrite IH. unfold deleteDocument. rewrite list_elem_of_filter. split.
    + intros [[Hne Hd] Hrest]. split; [exact Hd |].
      intros r Hr. apply elem_of_cons in Hr as [-> | Hr]; [congruence | auto].
    + intros [Hd Hall]. split; [split; [| exact Hd] |].
      * intros E. apply (Hall r0); [left | congruence].
      * intros r Hr. apply Hall. right. exact Hr.
Qed.

(** X30.  Deleting the ticked reports keeps exactly the reports not ticked, in
    order, in the stored and in the shown list, and removes every document
    stored under the path of a ticked report and no other; deleting all
    reports is deleting with every id ticked. *)
Theorem handleDeleteSelected_removes_ticked (selected : list string) (w : World) :
  let w' := handleDeleteSelected selected w in
  (forall r, r ∈ savedReports w' <-> r ∈ savedReports w /\ Archive.id r ∉ selected) /\
  saved_reports w' = Some (savedReports w') /\
  (forall d, d ∈ documents w' <->
             d ∈ documents w /\
             forall r, r ∈ savedReports w -> Archive.id r ∈ selected ->
                       Archive.path r <> d.1) /\
  (forall r, r ∈ savedReports w -> Archive.id r ∈ selected ->
             ~ fileExists (Archive.path r) w') /\
  advancesStored w' = advancesStored w /\
  handleDeleteAll w = handleDeleteSelected (Archive.id <$> savedReports w) w.
Proof.
  intros w'. subst w'. unfold handleDeleteSelected.
  cbn [setArchive savedReports saved_reports documents advancesStored].
  assert (Hdocs : forall d,
            d ∈ foldl (fun docs r => deleteDocument (Archive.path r) docs) (documents w)
                  (filter (fun r => Archive.id r ∈ selected) (savedReports w)) <->
            d ∈ documents w /\
            forall r, r ∈ savedReports w -> Archive.id r ∈ selected ->
                      Archive.path r <> d.1).
  { intros d. rewrite elem_of_foldl_deleteDocument. split; intros [Hd Hall].
    - split; [exact Hd |]. intros r Hr Hsel. apply Hall.
      apply list_elem_of_filter. auto.
    - split; [exact Hd |]. intros r Hr.
      apply list_elem_of_filter in Hr as [Hsel Hr]. auto. }
  split; [| split; [reflexivity | split; [exact Hdocs | split; [| split]]]].
  - intros r. rewrite list_elem_of_filter. tauto.
  - intros r Hr Hsel Hfile. unfold fileExists in Hfile.
    cbn [setArchive documents] in Hfile.
    apply list_elem_of_fmap in Hfile as (d & Hpath & Hd).
    apply Hdocs in Hd as [_ Hall]. exact (Hall r Hr Hsel Hpath).
  - reflexivity.
  - unfold handleDeleteAll, handleDeleteSelected.
    assert (Hall : forall r, r ∈ savedReports w ->
                     Archive.id r ∈ Archive.id <$> savedReports w)
      by (intros r Hr; apply list_elem_of_fmap; eauto).
    replace (filter (fun r => Archive.id r ∈ Archive.id <$> savedReports w)
               (savedReports w)) with (savedReports w).
    + replace (filter (fun r => Archive.id r ∉ Archive.id <$> savedReports w)
                 (savedReports w)) with (@nil Archive.ReportMeta); [reflexivity |].
      symmetry. apply elem_of_nil_inv. intros r Hr.
      apply list_elem_of_filter in Hr as [Hno Hr]. exact (Hno (Hall r Hr)).
    + symmetry. apply filter_all. exact Hall.
Qed.

End ReportRunFacts.

(* ===================================================================== *)
(** * Worked instances *)
(* ===================================================================== *)

Section WorkersHookExamples.
Import Workers JsText Generate WorkersHook HookExamples.

Lemma distinctNames_ashaOnly : @distinctNames exampleText (workers ashaOnly).
Proof.
  intros i j wi wj folder Hne Hi Hj _ _.
  destruct i as [| i], j as [| j]; simpl in Hi, Hj; try congruence;
    try (destruct i; discriminate); destruct j; discriminate.
Qed.

Lemma addWorker_keeps_names_distinct_witness :
  let r := @addWorker exampleText "1700000000001" " Ravi " ["F"] ashaOnly in
  r.1 = Returned (mkWorker "1700000000001" "Ravi" ["F"]) /\
  @distinctNames exampleText (workers r.2).
Proof.
  intros r.
  pose proof (@addWorker_keeps_names_distinct exampleText "1700000000001" " Ravi "
                ["F"] ashaOnly distinctNames_ashaOnly) as Hres.
  fold r in Hres.
  assert (E : r = (Returned (mkWorker "1700000000001" "Ravi" ["F"]),
                   setWorkers [mkWorker "w1" "Asha" ["F"];
                               mkWorker "1700000000001" "Ravi" ["F"]] ashaOnly))
    by (vm_compute; reflexivity).
  rewrite E in Hres |- *. destruct Hres as (_ & _ & _ & Hd).
  split; [reflexivity | exact Hd].
Defined.

Lemma handleSaveEdit_keeps_names_distinct_witness :
  let st' := @handleSaveEdit exampleText (Some (mkWorker "w1" "Asha" ["F"]))
               "Asha K" ashaOnly in
  id <$> workers st' = ["w1"] /\ @distinctNames exampleText (workers st').
Proof.
  intros st'.
  assert (Hids : NoDup (id <$> workers ashaOnly))
    by (refine (bool_decide_unpack _ _); vm_compute; exact I).
  destruct (@handleSaveEdit_keeps_names_distinct exampleText
              (Some (mkWorker "w1" "Asha" ["F"])) "Asha K" ashaOnly
              Hids distinctNames_ashaOnly) as (Hsame & _ & Hd).
  split; [exact Hsame | exact Hd].
Defined.

Lemma toggleFolderSelection_keeps_one_witness :
  toggleFolderSelection "G" ["F"; "G"] <> [] /\
  toggleFolderSelection "F" ["F"] <> [].
Proof.
  assert (H2 : NoDup ["F"; "G"])
    by (refine (bool_decide_unpack _ _); vm_compute; exact I).
  assert (H1 : NoDup ["F"])
    by (refine (bool_decide_unpack _ _); vm_compute; exact I).
  split.
  - exact (proj1 (toggleFolderSelection_keeps_one "G" ["F"; "G"] H2)).
  - exact (proj1 (toggleFolderSelection_keeps_one "F" ["F"] H1)).
Defined.

Lemma toggleSelection_flips_witness :
  toggleSelection "w2" (toggleSelection "w2" ["w1"]) = ["w1"].
Proof.
  assert (H1 : NoDup ["w1"])
    by (refine (bool_decide_unpack _ _); vm_compute; exact I).
  apply (toggleSelection_flips "w2" ["w1"] H1).
  intros Hin. apply list_elem_of_singleton in Hin. discriminate.
Defined.

End WorkersHookExamples.

Section FoldersExamples.
Import JsText Generate Folders.

Lemma lowerNames_initial : NoDup (@lowerNames exampleText (folders (initial 0))).
Proof. refine (bool_decide_unpack _ _). vm_compute. exact I. Qed.

Lemma folder_operations_keep_names_distinct_witness :
  NoDup (@lowerNames exampleText
           (folders (@addFolder exampleText "1700000000002" 5 " Site A " (initial 0)).2)) /\
  NoDup (@lowerNames exampleText
           (folders (@addFolder exampleText "1700000000002" 5 "DEFAULT" (initial 0)).2)).
Proof.
  split.
  - exact (proj1 (proj1 (@folder_operations_keep_names_distinct exampleText
                           "1700000000002" 5 " Site A " "default" (initial 0)
                           lowerNames_initial))).
  - exact (proj1 (proj1 (@folder_operations_keep_names_distinct exampleText
                           "1700000000002" 5 "DEFAULT" "default" (initial 0)
                           lowerNames_initial))).
Defined.

Lemma deleteFolder_keeps_default_witness :
  @deleteFolder exampleText "default" (initial 0)
  = (Thrown "Default folder cannot be deleted", initial 0).
Proof.
  assert (Hids : NoDup (id <$> folders (initial 0)))
    by (refine (bool_decide_unpack _ _); vm_compute; exact I).
  apply (proj2 (@deleteFolder_keeps_default exampleText "default" (initial 0)
                  (mkFolder "default" "Default" 0 (Some true)) Hids
                  ltac:(constructor) eq_refl)).
  reflexivity.
Defined.

Lemma renameFolder_succeeds_iff_name_free_witness :
  exists st', @renameFolder exampleText "default" "Main" (initial 0) = (Returned tt, st').
Proof.
  assert (Hids : NoDup (id <$> folders (initial 0)))
    by (refine (bool_decide_unpack _ _); vm_compute; exact I).
  apply (proj1 (@renameFolder_succeeds_iff_name_free exampleText "default" "Main"
                  (initial 0) Hids lowerNames_initial)).
  intros g Hg Hid. apply list_elem_of_singleton in Hg. subst g.
  exfalso. apply Hid. reflexivity.
Defined.

End FoldersExamples.

Section PaymentExamples.
Import Js Reports PaymentSettings.

(** With new rates for "Default", a folder "Yard" without rates of its own
    gets them; a folder named "constructor" gets the constructor of plain
    objects instead. *)
Lemma updateFolderRates_effective_witness :
  let after := updateFolderRates initial "Default" (mkRates "650" "300") in
  @effectiveRates exampleRuntime after "Yard" = Some (Entry (mkRates "650" "300")) /\
  @effectiveRates exampleRuntime after "constructor" = Some PrototypeMember.
Proof.
  intros after.
  assert (Hdef : is_Some (initial !! "Default")) by (eexists; reflexivity).
  split.
  - destruct (@updateFolderRates_effective exampleRuntime initial "Default" "Yard"
                (mkRates "650" "300") Hdef) as (_ & _ & _ & Hfall & _).
    destruct Hfall as [E _]; [discriminate | reflexivity | reflexivity | exact E].
  - destruct (@updateFolderRates_effective exampleRuntime initial "Default"
                "constructor" (mkRates "650" "300") Hdef) as (_ & _ & _ & _ & Hmember).
    destruct Hmember as [E _]; [discriminate | reflexivity | reflexivity | exact E].
Defined.

End PaymentExamples.

Section AdvanceLedgerExamples.
Import Js Reports AdvanceRecords Examples.

Lemma addAdvance_distinct_ids_witness :
  Advances.id <$> Advances.advances
    (@addAdvance exampleRuntime (fun _ => "1700000000000") true [asha] ["w1"; "w2"]
       "300" "" 1 (Advances.mkScreen [] None))
  = ["1700000000000w1"; "1700000000000w2"] /\
  NoDup ["1700000000000w1"; "1700000000000w2"].
Proof.
  assert (Hsel : NoDup ["w1"; "w2"])
    by (refine (bool_decide_unpack _ _); vm_compute; exact I).
  split; [reflexivity |].
  exact (proj1 (@addAdvance_distinct_ids exampleRuntime (fun _ => "1700000000000")
                  true [asha] ["w1"; "w2"] "300" "" 1 (Advances.mkScreen [] None)
                  Hsel (fun _ _ => eq_refl))).
Defined.

(** The entry screen holds Asha's old advance.  With storage holding the
    same, creating and deleting restores storage; with storage holding a
    second advance the entry screen never loaded, that advance is gone. *)
Lemma addAdvance_then_delete_witness :
  let old := ashaAdvance "2024-01-01" in
  let other := ashaAdvance "2024-01-03" in
  let run item :=
    (handleDeleteAdvance "1700000000009w1"
       (Advances.advancesItem
          (@addAdvance exampleRuntime (fun _ => "1700000000009") true [asha] ["w1"]
             "50" "" 1 (Advances.mkScreen [old] item)))
       (mkScreen [] (Num 0))).1 in
  run (Some [old]) = Some [old] /\
  run (Some [old; other]) = Some [old] /\
  run (Some [old; other]) <> Some [old; other].
Proof.
  intros old other run.
  assert (Hamount : "50" <> "") by discriminate.
  assert (Hfresh : forall item a,
            a ∈ Advances.advances (Advances.mkScreen [old] item) ->
            Advances.id a <> "1700000000009" +:+ "w1").
  { intros item a Ha. apply list_elem_of_singleton in Ha. subst a. discriminate. }
  pose proof (fun item =>
    @addAdvance_then_delete exampleRuntime (fun _ => "1700000000009") [asha]
      "w1" "50" "" 1 (Advances.mkScreen [old] item) (mkScreen [] (Num 0))
      Hamount (Hfresh item)) as Hrun.
  split; [exact (proj1 (Hrun (Some [old]))) |].
  split; [exact (proj1 (Hrun (Some [old; other]))) |].
  intros Heq. apply (proj1 (proj2 (Hrun (Some [old; other])))) in Heq.
  discriminate Heq.
Defined.

Lemma Qred_inject_Z (z : Z) : Qred (inject_Z z) = inject_Z z.
Proof.
  unfold Qred, inject_Z.
  pose proof (Z.ggcd_gcd z 1) as Hg.
  pose proof (Z.ggcd_correct_divisors z 1) as Hd.
  destruct (Z.ggcd z 1) as [g [aa bb]]. cbn [fst snd] in *.
  rewrite Z.gcd_1_r in Hg. subst g. destruct Hd as [Ha Hb].
  rewrite Z.mul_1_l in Ha, Hb. subst aa bb. reflexivity.
Qed.

Lemma exampleRuntime_exactOnWhole : @exactOnWhole exampleRuntime.
Proof.
  intros q z Hq _. cbn [nearestDouble exampleRuntime].
  rewrite (Qred_complete _ _ Hq). apply Qred_inject_Z.
Qed.

(** Two advances of 300 are pending; the settlement marks the one dated
    within the report. *)
Lemma settlement_conserves_pending_witness :
  let advs := [ashaAdvance "2024-01-02"; ashaAdvance "2024-02-01"] in
  let after := @updatedAdvances exampleRuntime ["w1"] 2 (fun _ => "t1") advs in
  @totalPending exampleRuntime advs = Num 600 /\
  @totalPending exampleRuntime after = Num 300 /\
  @totalPending exampleRuntime advs
  = @add exampleRuntime (@totalPending exampleRuntime after)
      (@sumAmounts exampleRuntime
         (filter (fun a => @reached exampleRuntime ["w1"] 2 a) advs)).
Proof.
  intros advs after.
  destruct (@settlement_conserves_pending exampleRuntime ["w1"] 2 (fun _ => "t1")
              advs (fun _ => 300)) as [Htotal Hsplit].
  - exact exampleRuntime_exactOnWhole.
  - intros adv Hadv _. split; [| lia].
    apply elem_of_cons in Hadv as [-> | Hadv]; [reflexivity |].
    apply list_elem_of_singleton in Hadv. subst adv. reflexivity.
  - vm_compute. discriminate.
  - split; [exact Htotal |]. split; [reflexivity | exact Hsplit].
Defined.

Lemma consumed_advance_is_settled_witness :
  let a := ashaAdvance "2024-01-02" in
  exists a',
    @settlementWriteBack exampleRuntime true ["w1"] 2 (fun _ => "t1") [a] !! 0%nat
    = Some a' /\ isDeducted a' = true.
Proof.
  intros a.
  assert (Hin : a ∈ @workerAdvances exampleRuntime [a] asha 2 ["w1"])
    by (refine (bool_decide_unpack _ _); vm_compute; exact I).
  destruct (@consumed_advance_is_settled exampleRuntime ["w1"] 2 (fun _ => "t1") [a]
              asha 0%nat a eq_refl Hin) as (a' & Hlook & Hd & _).
  exists a'. split; [exact Hlook | exact Hd].
Defined.

Lemma settlement_reaches_beyond_the_report_witness :
  let a := ashaAdvance "2024-01-02" in
  let ravi := Workers.mkWorker "w2" "Ravi" ["G"] in
  (exists a',
     @settlementWriteBack exampleRuntime true ["w1"] 2 (fun _ => "t1") [a] !! 0%nat
     = Some a' /\ isDeducted a' = true) /\
  @workerAdvances exampleRuntime [a] ravi 2 ["w1"] = [].
Proof.
  intros a ravi.
  destruct (@settlement_reaches_beyond_the_report exampleRuntime ["w1"] 2
              (fun _ => "t1") [a] [ravi] 0%nat a eq_refl
              ltac:(constructor) eq_refl eq_refl) as [Hsettled _].
  - intros w Hw. apply list_elem_of_singleton in Hw. subst w. discriminate.
  - split; [exact Hsettled | reflexivity].
Defined.

End AdvanceLedgerExamples.

Section ReportRunExamples.
Import Js Reports Generate ReportArchive Examples HookExamples.

Lemma reportData_ignores_duplicates_witness :
  let st := Attendance.saveAttendanceRecords ashaAttendance Attendance.emptyLedger in
  length (Attendance.getAttendanceByFolder "F" "" st).1 = 4%nat /\
  @reportData exampleRuntime false [] "F" (mkRates "600" "250") [0; 1; 2] 2
    (Attendance.getAttendanceByFolder "F" "" st).1 [] [asha]
  = @reportData exampleRuntime false [] "F" (mkRates "600" "250") [0; 1; 2] 2
      ashaAttendance [] [asha].
Proof.
  intros st. split; [reflexivity |].
  exact (proj2 (@reportData_ignores_duplicates exampleRuntime false [] "F"
                  (mkRates "600" "250") [0; 1; 2] 2 st [] [asha]
                  (conj eq_refl eq_refl))).
Defined.

Lemma generateReport_success_witness :
  exists w' artifact,
    @generateReport exampleRuntime (env true true) settings "F" 0 2 world
    = (Returned (@reportMetaOf exampleRuntime (env true true) settings "F" 0 2), w') /\
    documents w' = [("file:///documents/F_2024-01-01_2024-01-03.pdf", artifact)].
Proof.
  assert (Hws : Workers.getWorkersByFolder (workers settings) "F" <> [])
    by (vm_compute; discriminate).
  assert (Hdef : is_Some (folderRates settings !! "Default"))
    by (eexists; vm_compute; reflexivity).
  destruct (@generateReport_success exampleRuntime (env true true) settings "F" 0 2
              world eq_refl eq_refl eq_refl eq_refl Hws Hdef)
    as (w' & artifact & Hrun & _ & _ & Hdocs & _).
  exists w', artifact. split; [exact Hrun | exact Hdocs].
Defined.

Lemma generateReport_no_workers_witness :
  exists w',
    @generateReport exampleRuntime (env true true) settings "Yard" 0 2 world
    = (Thrown "No workers found in this folder", w') /\
    advancesStored w' = advancesStored world.
Proof.
  assert (Hws : Workers.getWorkersByFolder (workers settings) "Yard" = [])
    by (vm_compute; reflexivity).
  destruct (@generateReport_no_workers exampleRuntime (env true true) settings "Yard"
              0 2 world Hws) as (w' & Hrun & Hadv & _).
  exists w'. split; [exact Hrun | exact Hadv].
Defined.

Lemma deleting_one_report_orphans_its_twin_witness :
  let r1 := @generateReport exampleRuntime (env true true) settings "F" 0 2 world in
  let r2 := @generateReport exampleRuntime laterEnv settings "F" 0 2 r1.2 in
  let m2 := @reportMetaOf exampleRuntime laterEnv settings "F" 0 2 in
  let w3 := handleDeleteReport "1704276000000" r2.2 in
  savedReports w3 = [m2] /\ ~ fileExists (Archive.path m2) w3.
Proof.
  intros r1 r2 m2 w3.
  set (m1 := @reportMetaOf exampleRuntime (env true true) settings "F" 0 2).
  assert (H1 : @generateReport exampleRuntime (env true true) settings "F" 0 2 world
               = (Returned m1, r1.2)) by (vm_compute; reflexivity).
  assert (H2 : @generateReport exampleRuntime laterEnv settings "F" 0 2 r1.2
               = (Returned m2, r2.2)) by (vm_compute; reflexivity).
  destruct (@deleting_one_report_orphans_its_twin exampleRuntime (env true true)
              laterEnv settings settings "F" 0 2 world r1.2 r2.2 m1 m2 H1 H2
              eq_refl eq_refl ltac:(discriminate) ltac:(intros r Hr; inversion Hr))
    as (_ & _ & _ & _ & Horphan).
  split; [vm_compute; reflexivity | exact Horphan].
Defined.

End ReportRunExamples.
